(* ===== verification/_CoqProject ===== *)
-Q . S2P
Prelude.v
PyBuiltins.v
Types.v
Effects.v
Monitor.v
Schedule.v
Hosts.v
Availability.v
LoaderRace.v
LoaderFailure.v
LoaderSpec.v
Profile.v
Polling.v
Tasks.v
Override.v
Interleaving.v
Handlers.v
Timing.v
Scenario.v
