(* ===== verification/Prelude.v ===== *)
(** * A verification development of exo's worker telemetry core

    The modelled program is two Python modules of the exo worker (paths
    under [src/src/exo/worker/]):

    - [engines/mlx/availability.py]: the capability backend loader.
      [_build_backend] checks [platform.system().lower() == "darwin"],
      imports two MLX modules with [importlib.import_module] (an
      [ImportError] becomes [MlxUnavailableError]) and packs four of their
      attributes into a new [SimpleNamespace]; [load_mlx_backend] memoises
      the result in the function attribute [load_mlx_backend._cached] and,
      on [MlxUnavailableError], logs a warning and re-raises.
    - [utils/profile.py]: the metrics source adapter ([get_metrics_async]
      routes to [macmon] on macOS and to [_collect_generic_metrics], a
      [psutil] fallback, elsewhere), the memory profile
      ([get_memory_profile], which reads [OVERRIDE_MEMORY_MB] on every
      call) and the two polling loops [start_polling_memory_metrics] and
      [start_polling_node_metrics], which call the adapter and the memory
      profile on every tick and hand the result to the caller's sink.

    ** How the program is modelled

    Every function of the two modules is a program of a small free monad
    [Effects.prog] (an inductive tree: [Ret], [Raise], or a [Call] of an
    effect with a continuation that receives the effect's [result], a value
    or a Python exception).  Python's [try/except] and [try/finally] are the
    program transformers [Effects.try_except] and [Effects.try_finally];
    [except (A, B)] is [Effects.except_clause], which tests [isinstance]
    over the exception class hierarchy; [return] inside a loop body is the
    value [Polling.Return] of the body.  Effects are of two kinds:
    - process state of the interpreter, given its Python meaning by
      [Effects.step_call]: the function attribute [_cached] ([HasCached],
      [GetCached], [SetCached], with Python's [AttributeError] on a missing
      attribute) and the object allocator that gives each new
      [SimpleNamespace] its identity ([NewNamespace]);
    - calls to collaborators outside the two files ([platform], [os.getenv],
      [importlib], [psutil], [macmon], [system_info], [loguru],
      [anyio.sleep] and the caller's sink), answered by an abstract oracle
      (the type class [Effects.Oracle] over an arbitrary environment state):
      every theorem holds for every oracle that satisfies the theorem's
      stated hypotheses ([Effects.answers]).  The interface [Effects.Clock]
      counts [anyio.sleep] calls, so that hypotheses can speak of "the k-th
      tick".
    [Effects.exec] runs a finite program against a state and returns the
    final state, the trace of effects with their answers, and the result.
    A [while True] loop is [Polling.while_true n body]: [n] iterations of
    the body, ending in [Running] (the loop is still looping), [Stopped]
    (the body executed [return]) or an escaped exception [Err e].  Theorems
    about the unbounded loops are stated for every [n]; no fuel bound is
    chosen, and the termination theorem (C2) takes any [n] larger than the
    tick on which [macmon] yields [None].

    ** Files
    - [Prelude]: this header, the hint database [exo], the shared tactics
      and lemmas on lists (prefixes of a concatenation) and rationals
      (sums).
    - [PyBuiltins]: the Python built-ins the code relies on: [str.lower] on
      ASCII, the truth value of a string, [int()] on a string (with
      [str.strip] whitespace, sign and PEP 515 underscores), [str()] of an
      integer ([py_str], through Stdlib's decimal printing), and
      [int(str(n)) == n].
    - [Types]: the data model ([exo.shared.types] and [macmon], not under
      [src/], modelled from the spec): [Metrics]/[TempMetrics], [Memory],
      [MemoryPerformanceProfile], [SystemPerformanceProfile],
      [NodePerformanceProfile], the [psutil] records, modules and the
      backend namespace.
    - [Effects]: exceptions and [isinstance], the effect signature, the
      monad and its notation ([py_scope]), [try/except/finally], the
      [Oracle] and [Clock] interfaces, [exec] with its equations, the
      tactics that step through oracle answers, and event counting.
    - [Monitor]: ghost monitors over events and the weakest precondition
      [wp] of a program for a monitor, with its rules for [bind],
      [try/except], [try/finally], its soundness for [exec], and the
      symbolic-execution tactics [wp_sym] and [wp_sym_by].
    - [Schedule]: interleaved execution of several threads or tasks over
      the shared state: [slice] runs a thread up to a call after which the
      scheduler may switch, [cstep] and [reachable] are the step relation
      and its closure, [run_sched] runs an explicit schedule; two generic
      theorems carry monitor facts across every interleaving:
      [reachable_inv] (a per-thread fact about the shared state and a
      property of every event) and [reachable_proj_init] (each thread's
      own events, [proj], are accepted by the monitor its program
      satisfies).
    - [Hosts]: concrete hosts (Linux, macOS with and without MLX, Windows)
      whose oracles the witnesses run the code against.
    - [Availability] (Module [Loader]): [_build_backend] and
      [load_mlx_backend], and their sequential theorems.
    - [LoaderRace]: threads calling [load_mlx_backend] concurrently, Python
      threads being switchable after any call ([thread_preempt]); the
      well-formedness of the cached namespace ([backend_wf]).
    - [LoaderFailure]: threads calling [load_mlx_backend] on a host that
      is not macOS; the ghost monitor [gate_monitor] lets a thread assign
      [_cached] only after [platform.system()] answered ["darwin"].
    - [LoaderSpec]: the abstract memoisation machine of spec §4.1
      ([spec_load], [spec_run]) and the refinement theorem.
    - [Profile] (Module [Profile]): [get_metrics_async],
      [_collect_generic_metrics], [get_memory_profile] and
      [MemoryPerformanceProfile.from_psutil].
    - [Polling] (Module [Polling]): the two loop bodies and loops, the loop
      lemmas, the abstract tick specification [mem_tick_spec] of the memory
      loop, and the loop theorems.
    - [Timing]: elapsed time (the sum of the sleeps), the sink count of
      the memory loop at every instant of a run (every prefix of its
      trace), and the sink rate of both loops ([rate_monitor]).
    - [Scenario]: the end-to-end scenario of spec §8, a node tick on a host
      without [macmon].
    - [Tasks]: the two loops as asyncio tasks, switched only at the calls
      they await ([awaits]), and monitor rules for [while True].
    - [Handlers]: what the [except] clauses of the loops catch and how the
      loops end, for every collaborator ([timeout_monitor], [history]).
    - [Override]: [OVERRIDE_MEMORY_MB] as seen by both loops under every
      interleaving ([override_monitor]).
    - [Interleaving]: memory reads and sink calls of the two loops under
      every interleaving ([reads_monitor], [cadence_monitor]).

    ** What the theorems show (claim ids of the manifest)
    - Loops (C1-C4, C12-C14, C18, C28-C30): the memory loop never
      stops while faults are [MacMonError]s, and every tick follows
      [mem_tick_spec]; at every instant of a run, after [T] seconds of
      sleeping with interval [d], it has called its sink [floor(T/d)]
      times, or once more when the current tick's sink call has happened
      (time passes only in sleeps); whatever the collaborators answer, neither loop calls
      its sink more than once per interval of sleeping, plus the tick in
      progress; the node loop emits one profile per tick, reads memory
      last, isolates [MacMonError] and [TimeoutError] to their tick, and
      stops silently, after its final sleep, on the first tick whose
      sample is [None].  Two
      exceptions do end the loops: a malformed [OVERRIDE_MEMORY_MB]
      ([ValueError]) and, off macOS, a sensor API exception other than
      [NotImplementedError]/[psutil.Error] (the [AttributeError] of a
      [psutil] without [sensors_temperatures]).  Whatever the collaborators
      answer, an exception of a class a loop catches ends it only when the
      [finally]'s sleep (or the logger of the [except] clause) raises it,
      and the node loop stops only right after an absent sample; the
      timeout warning is logged only right after a callee raised
      [TimeoutError] (no 30 s budget is enforced).
    - Loader (C5-C7, C16, C17, C19-C21, C32): every sequence of calls, whatever
      the collaborators answer, is a run of the abstract memoisation
      machine (success cached, failure never cached, one warning per
      [MlxUnavailableError]); the first success is cached and every later
      call returns the same object; the platform gate and an [ImportError]
      raise [MlxUnavailableError] with one warning each time; a missing
      entry point raises the bare [AttributeError].  With threads: under
      every interleaving no read of [_cached] fails and every backend
      stored or returned binds its four attributes to the entry points of
      those names; off
      macOS no thread ever assigns [_cached] and every [hasattr] test
      finds it missing, whatever the interleaving; but two
      first calls can both build and return different objects (a concrete
      schedule).
    - The two loops in one event loop (C8-C11): under every interleaving
      the three reads of one [get_memory_profile] are adjacent in the
      global trace; with [OVERRIDE_MEMORY_MB] set to an integer [n] every
      profile either sink receives reports [n] MiB; whatever the
      environment does, each loop reads the variable in every tick and
      reports what it read, so a live change takes effect on the next
      tick; each loop sleeps between two of its sink calls.
    - End-to-end (C15): on a host without [macmon] and without sensors, one
      node tick composes the adapter, the lookups and the memory profile
      into a profile with zero power and temperature whose P-CPU usage is
      the CPU percentage alone (the logical CPU count is dropped).
    - Adapter (C22, C23, C27, C31): the generic path reports zero power,
      an empty timestamp, [(cpu_count or 0, cpu_percent)] as P-CPU usage
      and the same value as both temperatures, zero when there is no
      present sensor reading or the sensor API raises
      [NotImplementedError] or [psutil.Error]; other exceptions escape;
      off macOS it never yields [None].
    - Memory profile (C24-C26): an [OVERRIDE_MEMORY_MB] that [int()]
      accepts as [n] replaces the detected total by [n * 1024 * 1024]
      bytes; an unset or empty variable keeps it; [str(n)] for [n <= 0]
      is accepted too and then reports a total below the available memory
      (no range check).

    ** What is not modelled
    Python [float]s are exact rationals [Q] (rounding is not modelled);
    integers are [Z].  No theorem depends on the exactness: the mean
    temperature of the generic path ([Profile.avg_temp_of], line 57) is
    computed exactly in the model, while Python's [float(sum/len)] can
    round above the largest reading (seven readings of 38.3 give
    38.300000000000004), so no bound on that mean is claimed.  [int()]
    is modelled on ASCII strings: the Unicode digits and whitespace
    Python also accepts are not.  The collaborators' implementations ([macmon],
    [system_info], [psutil], the OS, [loguru], the MLX numerical code) are
    outside the sources and only their interface is modelled.  In the
    interleaving model the [psutil] calls that [anyio.to_thread.run_sync]
    runs on a worker thread are switch points of the node task; their
    truly parallel execution alongside the event loop's synchronous code is
    not modelled (the interleaving theorems concern memory reads, the
    override and the sink calls, none of which the worker makes).  Task cancellation (the only way to stop the
    memory loop) appears only as an exception the [finally] sleep may
    raise.  The elapsed time of a tick is its sleep: the time the work of a
    tick takes is not modelled. *)

From Stdlib Require Import QArith Qround Lqa.
From stdpp Require Import base list.

Create HintDb exo discriminated.
Create Rewrite HintDb exo.

(** [invc H] inverts [H] and substitutes, the step every inversion uses. *)
Ltac invc H := inversion H; subst; clear H.

(** ** Sums and lengths as rationals *)

Definition Qsum (l : list Q) : Q := foldr Qplus 0%Q l.

Lemma Qsum_cons x l : Qsum (x :: l) = (x + Qsum l)%Q.
Proof. reflexivity. Qed.

#[export] Hint Rewrite Qsum_cons : exo.

Local Open Scope Q_scope.

(** [len(l)] as a rational. *)
Definition Qlen {A} (l : list A) : Q := inject_Z (Z.of_nat (length l)).

Lemma Qsum_app (l1 l2 : list Q) : Qsum (l1 ++ l2) == Qsum l1 + Qsum l2.
Proof. induction l1 as [|x l1 IH]; simpl; [lra|]. unfold Qsum in *; simpl. rewrite IH. lra. Qed.

(** ** Prefixes of a concatenation

    An instant of a run is a prefix of its trace.  A prefix of the trace
    of a sequence of ticks is some whole ticks followed by a proper prefix
    of the next one. *)

Section Prefix.
Local Open Scope nat_scope.

Lemma prefix_concat {A} (t0 : list A) (ts : list (list A)) :
  t0 `prefix_of` concat ts ->
  exists j p, t0 = concat (take j ts) ++ p
    /\ (p = [] \/ exists t, ts !! j = Some t /\ p `prefix_of` t /\ (length p < length t)%nat).
Proof.
  revert t0. induction ts as [|t ts IH]; intros t0 Hp; simpl in Hp.
  { apply prefix_nil_inv in Hp as ->. exists 0, []. auto. }
  assert (Hc : (t0 `prefix_of` t /\ (length t0 < length t)%nat) \/ t `prefix_of` t0).
  { destruct (prefix_weak_total t0 t (t ++ concat ts) Hp (prefix_app_r _ _ _ (reflexivity t)))
      as [Hl | Hr]; [|by right].
    destruct (decide (length t0 < length t)%nat); [by left|].
    right. rewrite (prefix_length_eq t0 t Hl) by lia. reflexivity. }
  destruct Hc as [[Hl Hlt] | [r ->]].
  - exists 0, t0. simpl. split; [done|]. right. eauto.
  - apply prefix_app_inv in Hp. destruct (IH r Hp) as (j & p & -> & Hpart).
    exists (S j), p. simpl. rewrite app_assoc. auto.
Qed.

(** A proper prefix of [t ++ [x]] is a prefix of [t]. *)
Lemma prefix_snoc_strict {A} (p t : list A) (x : A) :
  p `prefix_of` t ++ [x] -> (length p < length (t ++ [x]))%nat -> p `prefix_of` t.
Proof.
  intros [q Hq] Hl. destruct q as [|y q] using rev_ind.
  - rewrite app_nil_r in Hq. subst. lia.
  - exists q. rewrite app_assoc in Hq. by apply app_inj_tail in Hq as [-> _].
Qed.
End Prefix.
