(* ===== verification/PyBuiltins.v ===== *)
(** * The Python built-ins the telemetry code relies on

    [str.lower] (used on [platform.system()] in [_build_backend] and
    [get_metrics_async]), the truth value of a string (the test
    [if override_memory_env] of [get_memory_profile]) and [int(s)] on a
    string (the parse of [OVERRIDE_MEMORY_MB]).  Strings are Rocq strings of
    ASCII characters; on ASCII, Python's Unicode case mapping and whitespace
    classes coincide with the definitions below. *)

From Stdlib Require Import ZArith String Ascii Bool Lia Decimal DecimalString DecimalPos DecimalZ.
From S2P Require Import Prelude.

Local Open Scope Z_scope.

(** ** [str.lower] *)

Definition ascii_lower (c : ascii) : ascii :=
  let n := nat_of_ascii c in
  if (65 <=? n)%nat && (n <=? 90)%nat then ascii_of_nat (n + 32) else c.

Fixpoint py_lower (s : string) : string :=
  match s with
  | EmptyString => EmptyString
  | String c r => String (ascii_lower c) (py_lower r)
  end.

(** ** Truth value of a string: [bool(s)] is [s != ""] *)

Definition py_truthy_str (s : string) : bool :=
  match s with EmptyString => false | _ => true end.

(** ** [int(s)] in base 10

    CPython strips the whitespace [str.isspace] accepts (on ASCII: tab,
    line feed, vertical tab, form feed, carriage return, the separators
    0x1c to 0x1f and space), accepts one optional sign, then decimal digits
    in which single underscores may separate two digits (PEP 515); leading
    zeros are allowed.  Anything else raises [ValueError], here [None]. *)

Definition py_isspace (c : ascii) : bool :=
  let n := nat_of_ascii c in
  ((9 <=? n) && (n <=? 13))%nat || ((28 <=? n) && (n <=? 32))%nat.

Definition py_isdigit (c : ascii) : bool :=
  let n := nat_of_ascii c in ((48 <=? n) && (n <=? 57))%nat.

Definition digit_value (c : ascii) : Z := Z.of_nat (nat_of_ascii c) - 48.

Fixpoint lstrip (s : string) : string :=
  match s with
  | EmptyString => EmptyString
  | String c r => if py_isspace c then lstrip r else s
  end.

Fixpoint rstrip (s : string) : string :=
  match s with
  | EmptyString => EmptyString
  | String c r =>
      let r' := rstrip r in
      match r' with
      | EmptyString => if py_isspace c then EmptyString else String c EmptyString
      | _ => String c r'
      end
  end.

Definition py_strip (s : string) : string := rstrip (lstrip s).

(** The digits after the first one: a digit, or an underscore followed by a
    digit, repeated. *)
Fixpoint digits_tail (s : string) (acc : Z) : option Z :=
  match s with
  | EmptyString => Some acc
  | String c r =>
      if py_isdigit c then digits_tail r (acc * 10 + digit_value c)
      else if Ascii.eqb c "_"%char then
        match r with
        | String d r' =>
            if py_isdigit d then digits_tail r' (acc * 10 + digit_value d) else None
        | EmptyString => None
        end
      else None
  end.

Definition parse_digits (s : string) : option Z :=
  match s with
  | String c r => if py_isdigit c then digits_tail r (digit_value c) else None
  | EmptyString => None
  end.

Definition py_int (s : string) : option Z :=
  match py_strip s with
  | String c r =>
      if Ascii.eqb c "-"%char then option_map Z.opp (parse_digits r)
      else if Ascii.eqb c "+"%char then parse_digits r
      else parse_digits (String c r)
  | EmptyString => None
  end.

(** [int("")] raises: a string [int] accepts is truthy. *)
Lemma py_int_truthy (s : string) (n : Z) : py_int s = Some n -> py_truthy_str s = true.
Proof. intros H; destruct s; [discriminate H | reflexivity]. Qed.

(** ** [int(str(n)) == n]

    Python's [str(n)] of an integer is its decimal digits with a leading
    [-] when negative; Stdlib's [string_of_int] of [Z.to_int] is the same
    string.  [py_int] parses it back ([py_int_str]), which the theorem on
    non-positive overrides uses to build its value. *)

Definition py_str (n : Z) : string := NilEmpty.string_of_int (Z.to_int n).

(** The value of decimal digits [d] read after the digits of [acc]. *)
Fixpoint uint_acc (d : uint) (acc : Z) : Z :=
  match d with
  | Nil => acc
  | D0 l => uint_acc l (acc * 10) | D1 l => uint_acc l (acc * 10 + 1)
  | D2 l => uint_acc l (acc * 10 + 2) | D3 l => uint_acc l (acc * 10 + 3)
  | D4 l => uint_acc l (acc * 10 + 4) | D5 l => uint_acc l (acc * 10 + 5)
  | D6 l => uint_acc l (acc * 10 + 6) | D7 l => uint_acc l (acc * 10 + 7)
  | D8 l => uint_acc l (acc * 10 + 8) | D9 l => uint_acc l (acc * 10 + 9)
  end.

Lemma digits_tail_uint d acc :
  digits_tail (NilEmpty.string_of_uint d) acc = Some (uint_acc d acc).
Proof. revert acc. induction d; intros acc; simpl; rewrite ?Z.add_0_r; auto. Qed.

Lemma of_uint_acc_Z l p : Zpos (Pos.of_uint_acc l p) = uint_acc l (Zpos p).
Proof.
  revert p. induction l; intros p; simpl; rewrite ?IHl; f_equal;
    rewrite ?Pos2Z.inj_add, ?Pos2Z.inj_mul; lia.
Qed.

Lemma of_uint_Z d : Z.of_uint d = uint_acc d 0.
Proof.
  unfold Z.of_uint. induction d; simpl; rewrite ?of_uint_acc_Z; auto.
Qed.

(** The digits of a non-empty [uint] parse as its value. *)
Lemma parse_digits_uint d :
  d <> Nil -> parse_digits (NilEmpty.string_of_uint d) = Some (Z.of_uint d).
Proof.
  intros Hd. rewrite of_uint_Z.
  destruct d; [congruence|..]; simpl; rewrite digits_tail_uint; reflexivity.
Qed.

(** Whitespace-free strings. *)
Fixpoint no_space (s : string) : bool :=
  match s with EmptyString => true | String c r => negb (py_isspace c) && no_space r end.

Fixpoint all_space (s : string) : bool :=
  match s with EmptyString => true | String c r => py_isspace c && all_space r end.

Lemma no_space_uint d : no_space (NilEmpty.string_of_uint d) = true.
Proof. induction d; simpl; auto. Qed.


Lemma lstrip_no_space c s : py_isspace c = false -> lstrip (String c s) = String c s.
Proof. simpl. intros ->. reflexivity. Qed.

Lemma rstrip_spaces ws : all_space ws = true -> rstrip ws = EmptyString.
Proof.
  induction ws as [|c ws IH]; simpl; [reflexivity|]. intros H.
  apply andb_true_iff in H as [Hc H]. rewrite IH, Hc by assumption. reflexivity.
Qed.

Lemma rstrip_no_space_app s ws :
  s <> EmptyString -> no_space s = true -> all_space ws = true -> rstrip (s ++ ws) = s.
Proof.
  induction s as [|c s IH]; [congruence|]. intros _ Hs Hws. simpl in Hs |- *.
  apply andb_true_iff in Hs as [Hc Hs]. apply negb_true_iff in Hc.
  destruct s as [|c' s'].
  - simpl. rewrite (rstrip_spaces ws Hws), Hc. reflexivity.
  - rewrite IH; [reflexivity|discriminate|assumption|assumption].
Qed.

(** [Z.to_int n] has at least one digit. *)
Lemma to_int_digits n :
  (exists d, Z.to_int n = Pos d /\ d <> Nil /\ n = Z.of_uint d)
  \/ (exists d, Z.to_int n = Neg d /\ d <> Nil /\ n = Z.opp (Z.of_uint d)).
Proof.
  pose proof (DecimalZ.of_to n) as Hn.
  destruct n as [|p|p]; simpl in *; [left; exists (D0 Nil); auto|left|right];
    exists (Pos.to_uint p); (split; [reflexivity|]); split; try (symmetry; exact Hn);
    intros Hnil; rewrite Hnil in Hn; discriminate Hn.
Qed.

(** [str.strip] removes exactly the surrounding whitespace of a
    whitespace-free non-empty string. *)
Lemma strip_no_space s ws :
  s <> EmptyString -> no_space s = true -> all_space ws = true -> rstrip (lstrip (s ++ ws)) = s.
Proof.
  intros Hne Hs Hws. destruct s as [|c s']; [congruence|].
  pose proof Hs as Hs'. simpl in Hs'. apply andb_true_iff in Hs' as [Hc _].
  apply negb_true_iff in Hc. simpl append. rewrite lstrip_no_space by assumption.
  change (String c (s' ++ ws))%string with (String c s' ++ ws)%string.
  apply rstrip_no_space_app; assumption.
Qed.

Lemma uint_nonempty d : d <> Nil -> NilEmpty.string_of_uint d <> EmptyString.
Proof. destruct d; simpl; congruence. Qed.

Lemma string_app_nil_r (s : string) : (s ++ "")%string = s.
Proof. induction s as [|c s IH]; simpl; [reflexivity | rewrite IH; reflexivity]. Qed.

(** [str(n)] has no surrounding whitespace. *)
Lemma py_strip_str n : py_strip (py_str n) = py_str n.
Proof.
  unfold py_strip. rewrite <- (string_app_nil_r (py_str n)) at 1. unfold py_str.
  destruct (to_int_digits n) as [(d & E & Hd & _) | (d & E & Hd & _)]; rewrite E;
    simpl NilEmpty.string_of_int; apply strip_no_space; try reflexivity;
    first [apply uint_nonempty; assumption | congruence | apply no_space_uint].
Qed.

(** [int(str(n)) == n]. *)
Lemma py_int_str n : py_int (py_str n) = Some n.
Proof.
  unfold py_int. rewrite py_strip_str. unfold py_str.
  destruct (to_int_digits n) as [(d & E & Hd & ->) | (d & E & Hd & ->)]; rewrite E;
    simpl NilEmpty.string_of_int.
  - rewrite <- parse_digits_uint by assumption. destruct d; [congruence|..]; reflexivity.
  - simpl. rewrite parse_digits_uint by assumption. reflexivity.
Qed.
