(* ===== verification/Types.v ===== *)
(** * Data model

    The records the telemetry code builds and passes around.  [Metrics] and
    [TempMetrics] are the [macmon] records imported by [profile.py];
    [Memory], [MemoryPerformanceProfile], [SystemPerformanceProfile] and
    [NodePerformanceProfile] are exo's shared types; [shwtemp], [svmem] and
    [sswap] are the [psutil] result tuples the code reads; [pymodule],
    [pyref] and [Backend] are a module object, an attribute fetched from a
    module, and the [SimpleNamespace] built by [_build_backend].  None of the
    first group is defined under [src/]: they are modelled from the spec (§3)
    and from their use in [profile.py].  Each record sits in a Module of its
    own, since Python reuses field names across classes. *)

From Stdlib Require Import QArith ZArith String List.
From S2P Require Import Prelude.

Module TempMetrics.
Record TempMetrics := mk {
  cpu_temp_avg : Q;
  gpu_temp_avg : Q;
}.
End TempMetrics.

Module Metrics.
(** The usage pairs are (active unit count, utilisation percentage). *)
Record Metrics := mk {
  all_power : Q;
  ane_power : Q;
  cpu_power : Q;
  ecpu_usage : Z * Q;
  gpu_power : Q;
  gpu_ram_power : Q;
  gpu_usage : Z * Q;
  pcpu_usage : Z * Q;
  ram_power : Q;
  sys_power : Q;
  temp : TempMetrics.TempMetrics;
  timestamp : string;
}.
End Metrics.

Module Memory.
Record Memory := mk { in_bytes : Z }.
(** [Memory.from_mb(v)]: [v] mebibytes. *)
Definition from_mb (v : Z) : Memory := mk (v * 1024 * 1024).
Definition from_bytes (v : Z) : Memory := mk v.
End Memory.

Module MemoryPerformanceProfile.
Record MemoryPerformanceProfile := mk {
  ram_total : Memory.Memory;
  ram_available : Memory.Memory;
  swap_total : Memory.Memory;
  swap_available : Memory.Memory;
}.
End MemoryPerformanceProfile.

Module SystemPerformanceProfile.
Record SystemPerformanceProfile := mk {
  gpu_usage : Q;
  temp : Q;
  sys_power : Q;
  pcpu_usage : Q;
  ecpu_usage : Q;
  ane_power : Q;
}.
End SystemPerformanceProfile.

Module NetworkInterfaceInfo.
Record NetworkInterfaceInfo := mk { name : string; ip_address : string }.
End NetworkInterfaceInfo.

Module NodePerformanceProfile.
Record NodePerformanceProfile := mk {
  model_id : string;
  chip_id : string;
  friendly_name : string;
  network_interfaces : list NetworkInterfaceInfo.NetworkInterfaceInfo;
  memory : MemoryPerformanceProfile.MemoryPerformanceProfile;
  system : SystemPerformanceProfile.SystemPerformanceProfile;
}.
End NodePerformanceProfile.

(** [psutil]'s result tuples, with the fields the code reads. *)
Module Psutil.
Record shwtemp := mk_shwtemp { label : string; current : option Q }.
Record svmem := mk_svmem { vm_total : Z; vm_available : Z }.
Record sswap := mk_sswap { sw_total : Z; sw_free : Z }.
End Psutil.

(** A module object is its name and the names of its attributes; an
    attribute read from it is a reference to (module, attribute). *)
Record pymodule := mk_module { mod_name : string; mod_attrs : list string }.
Record pyref := mk_ref { ref_module : string; ref_attr : string }.

(** The [SimpleNamespace] returned by [_build_backend]: its object identity
    (what [is] compares) and its four attributes. *)
Record Backend := mk_backend {
  ns_id : nat;
  initialize_mlx : pyref;
  mlx_force_oom : pyref;
  mlx_generate : pyref;
  warmup_inference : pyref;
}.
