(* ===== verification/Effects.v ===== *)
(** * Python effects, exceptions and coroutines as a free monad

    A Python function of the two modules becomes a [prog A]: a finite tree
    whose leaves return a value or raise an exception and whose nodes call an
    effect and continue with its answer.  Exceptions raised by a callee come
    back as the answer [Err e], so that an enclosing [try] sees them, as in
    Python.  The process state the code touches (the function attribute
    [load_mlx_backend._cached] and the identity of new objects) is given its
    Python meaning by [step_call]; every other effect is answered by an
    abstract [Oracle] whose state type is arbitrary. *)

From Stdlib Require Import QArith ZArith String List.
From stdpp Require Import base list decidable.
From S2P Require Import Prelude PyBuiltins Types.

(** ** Exceptions *)

Inductive exn : Type :=
| MacMonError
| TimeoutError                        (* asyncio.TimeoutError *)
| MlxUnavailableError (msg : string) (cause : option exn)
| ImportError (name : string)
| ModuleNotFoundError (name : string) (* a subclass of ImportError *)
| NotImplementedError
| PsutilError                         (* psutil.Error and its subclasses *)
| ValueError (msg : string)
| AttributeError (name : string)
| CancelledError                      (* task teardown; a BaseException *)
| OtherError (name : string).

(** The classes named by the code's [except] clauses. *)
Inductive exn_class :=
| CMacMonError | CTimeoutError | CMlxUnavailableError | CImportError
| CNotImplementedError | CPsutilError.

Definition isinstance (e : exn) (c : exn_class) : bool :=
  match c, e with
  | CMacMonError, MacMonError => true
  | CTimeoutError, TimeoutError => true
  | CMlxUnavailableError, MlxUnavailableError _ _ => true
  | CImportError, (ImportError _ | ModuleNotFoundError _) => true
  | CNotImplementedError, NotImplementedError => true
  | CPsutilError, PsutilError => true
  | _, _ => false
  end.

Inductive result (X : Type) : Type :=
| Ok (x : X)
| Err (e : exn).
Arguments Ok {X} x.
Arguments Err {X} e.

Inductive level := WARNING | ERROR.

(** ** Effects *)

(** Calls to collaborators outside the two modules, indexed by the type of
    their answer. *)
Inductive ext : Type -> Type :=
| PlatformSystem : ext string                                   (* platform.system() *)
| GetEnv (name : string) : ext (option string)                  (* os.getenv *)
| ImportModule (name : string) : ext pymodule                   (* importlib.import_module *)
| LogMsg (lvl : level) (msg : string) (exc : option exn) : ext unit  (* loguru *)
| CpuPercent : ext Q                                            (* psutil.cpu_percent(interval=None) *)
| CpuCount : ext (option Z)                                     (* psutil.cpu_count(logical=True) *)
| SensorsTemperatures : ext (list (string * list Psutil.shwtemp))
| VirtualMemory : ext Psutil.svmem
| SwapMemory : ext Psutil.sswap
| MacmonGetMetrics : ext (option Metrics.Metrics)               (* macmon get_metrics_async *)
| GetNetworkInterfaces : ext (list NetworkInterfaceInfo.NetworkInterfaceInfo)
| GetModelAndChip : ext (string * string)
| GetFriendlyName : ext string
| Sleep (secs : Q) : ext unit                                   (* anyio.sleep *)
| MemSink (m : MemoryPerformanceProfile.MemoryPerformanceProfile) : ext unit
| NodeSink (p : NodePerformanceProfile.NodePerformanceProfile) : ext unit.

(** All effects: the collaborators, and the process state. *)
Inductive call : Type -> Type :=
| Ext {X : Type} (e : ext X) : call X
| HasCached : call bool                   (* hasattr(load_mlx_backend, "_cached") *)
| GetCached : call Backend                (* load_mlx_backend._cached *)
| SetCached (b : Backend) : call unit     (* load_mlx_backend._cached = b *)
| NewNamespace : call nat.                (* identity of a new SimpleNamespace *)

(** ** Programs *)

Inductive prog (A : Type) : Type :=
| Ret (a : A)
| Raise (e : exn)
| Call {X : Type} (c : call X) (k : result X -> prog A).
Arguments Ret {A} a.
Arguments Raise {A} e.
Arguments Call {A X} c k.

Fixpoint bind {A B} (p : prog A) (f : A -> prog B) : prog B :=
  match p with
  | Ret a => f a
  | Raise e => Raise e
  | Call c k => Call c (fun r => bind (k r) f)
  end.

(** A call whose exception propagates to the caller. *)
Definition perform {X} (c : call X) : prog X :=
  Call c (fun r => match r with Ok x => Ret x | Err e => Raise e end).

Definition ext_call {X} (e : ext X) : prog X := perform (Ext e).

Declare Scope py_scope.
Delimit Scope py_scope with py.
Notation "x <- p ;; k" := (bind p (fun x => k))
  (at level 100, p at next level, right associativity) : py_scope.
Notation "p ;; k" := (bind p (fun _ => k))
  (at level 100, right associativity) : py_scope.
Local Open Scope py_scope.

(** [except] clauses, tried in order. *)
Definition handler (A : Type) := exn -> option (prog A).

Definition no_handler {A} : handler A := fun _ => None.

Definition except_clause {A} (cs : list exn_class) (h : exn -> prog A)
    (next : handler A) : handler A :=
  fun e => if existsb (isinstance e) cs then Some (h e) else next e.

Fixpoint try_except {A} (p : prog A) (hd : handler A) : prog A :=
  match p with
  | Ret a => Ret a
  | Raise e => match hd e with Some q => q | None => Raise e end
  | Call c k => Call c (fun r => try_except (k r) hd)
  end.

(** [try: p finally: f]: [f] runs on both exits; an exception of [f]
    replaces the outcome of [p]. *)
Fixpoint try_finally {A} (p : prog A) (f : prog unit) : prog A :=
  match p with
  | Ret a => f ;; Ret a
  | Raise e => f ;; Raise e
  | Call c k => Call c (fun r => try_finally (k r) f)
  end.

(** ** Execution *)

Record proc := mk_proc { cached : option Backend; next_obj : nat }.

Class Oracle (Σ : Type) := oracle : forall {X}, ext X -> Σ -> Σ * result X.

Inductive event : Type :=
| Ev {X : Type} (c : call X) (r : result X).

Record run (S A : Type) := mk_run { r_state : S; r_trace : list event; r_res : result A }.
Arguments mk_run {S A} r_state r_trace r_res.
Arguments r_state {S A} r.
Arguments r_trace {S A} r.
Arguments r_res {S A} r.

(** Sequencing of two runs: the second starts from the first's state and
    only when the first returned. *)
Definition then_run {S A B} (o : run S A) (f : A -> S -> run S B) : run S B :=
  match r_res o with
  | Ok a => let o2 := f a (r_state o) in
            mk_run (r_state o2) (r_trace o ++ r_trace o2) (r_res o2)
  | Err e => mk_run (r_state o) (r_trace o) (Err e)
  end.

Section Exec.
Context {Σ : Type} `{Oracle Σ}.

Definition step_call {X} (c : call X) (s : proc * Σ) : (proc * Σ) * result X :=
  let '(p, σ) := s in
  match c in call X return (proc * Σ) * result X with
  | Ext e => let '(σ', r) := oracle e σ in ((p, σ'), r)
  | HasCached => ((p, σ), Ok (match cached p with Some _ => true | None => false end))
  | GetCached =>
      ((p, σ), match cached p with
               | Some b => Ok b
               | None => Err (AttributeError "_cached")
               end)
  | SetCached b => ((mk_proc (Some b) (next_obj p), σ), Ok tt)
  | NewNamespace => ((mk_proc (cached p) (S (next_obj p)), σ), Ok (next_obj p))
  end.

Fixpoint exec {A} (p : prog A) (s : proc * Σ) : run (proc * Σ) A :=
  match p with
  | Ret a => mk_run s [] (Ok a)
  | Raise e => mk_run s [] (Err e)
  | Call c k =>
      let (s1, r) := step_call c s in
      let o := exec (k r) s1 in
      mk_run (r_state o) (Ev c r :: r_trace o) (r_res o)
  end.
End Exec.

(** ** Equations of [exec] *)

Section ExecLemmas.
Context {Σ : Type} `{Oracle Σ}.

Lemma then_run_ok {A B} (o : run (proc * Σ) A) (f : A -> _ -> run _ B) a :
  r_res o = Ok a ->
  then_run o f = mk_run (r_state (f a (r_state o))) (r_trace o ++ r_trace (f a (r_state o)))
                        (r_res (f a (r_state o))).
Proof. intros Hr. unfold then_run. by rewrite Hr. Qed.

Lemma exec_bind {A B} (p : prog A) (f : A -> prog B) s :
  exec (bind p f) s = then_run (exec p s) (fun a => exec (f a)).
Proof.
  revert s. induction p as [a|e|X c k IH]; intros s; simpl.
  - unfold then_run; simpl. by destruct (exec (f a) s).
  - reflexivity.
  - destruct (step_call c s) as [s1 r]. rewrite IH.
    unfold then_run; simpl. by destruct (r_res (exec (k r) s1)).
Qed.

Lemma exec_try_except {A} (p : prog A) (hd : handler A) s :
  exec (try_except p hd) s =
    match r_res (exec p s) with
    | Ok a => exec p s
    | Err e =>
        match hd e with
        | Some q => let o := exec q (r_state (exec p s)) in
                    mk_run (r_state o) (r_trace (exec p s) ++ r_trace o) (r_res o)
        | None => exec p s
        end
    end.
Proof.
  revert s. induction p as [a|e|X c k IH]; intros s; simpl.
  - reflexivity.
  - destruct (hd e) as [q|]; [by destruct (exec q s) | reflexivity].
  - destruct (step_call c s) as [s1 r]. rewrite IH; simpl.
    destruct (exec (k r) s1) as [s2 t2 [a|e]]; simpl; [reflexivity|].
    by destruct (hd e).
Qed.

Lemma exec_try_finally {A} (p : prog A) (f : prog unit) s :
  exec (try_finally p f) s =
    let o := exec p s in
    let o2 := exec f (r_state o) in
    mk_run (r_state o2) (r_trace o ++ r_trace o2)
           (match r_res o2 with Ok _ => r_res o | Err e => Err e end).
Proof.
  revert s. induction p as [a|e|X c k IH]; intros s; simpl.
  - rewrite exec_bind. unfold then_run.
    destruct (exec f s) as [s2 t2 [u|e2]]; simpl; by rewrite ?app_nil_r.
  - rewrite exec_bind. unfold then_run.
    destruct (exec f s) as [s2 t2 [u|e2]]; simpl; by rewrite ?app_nil_r.
  - destruct (step_call c s) as [s1 r]. by rewrite IH.
Qed.

Lemma exec_perform {X} (c : call X) s :
  exec (perform c) s =
    let (s1, r) := step_call c s in mk_run s1 [Ev c r] r.
Proof. simpl. destruct (step_call c s) as [s1 [x|e]]; reflexivity. Qed.

(** One external call, then the rest of the program. *)
Lemma exec_ext_call_bind {X B} (e : ext X) (k : X -> prog B) (p : proc) (σ : Σ) :
  exec (x <- ext_call e ;; k x) (p, σ) =
    let (σ1, r) := oracle e σ in
    match r with
    | Ok x => let o := exec (k x) (p, σ1) in
              mk_run (r_state o) (Ev (Ext e) (Ok x) :: r_trace o) (r_res o)
    | Err e' => mk_run (p, σ1) [Ev (Ext e) (Err e')] (Err e')
    end.
Proof. simpl. destruct (oracle e σ) as [σ1 [x|e']]; reflexivity. Qed.

(** One step of [exec] on an external call, for proofs that must not
    unfold the callees further down the program. *)
Lemma exec_call_ext {X A} (e : ext X) (k : result X -> prog A) (p : proc) (σ : Σ) :
  exec (Call (Ext e) k) (p, σ) =
    let (σ1, r) := oracle e σ in
    let o := exec (k r) (p, σ1) in
    mk_run (r_state o) (Ev (Ext e) r :: r_trace o) (r_res o).
Proof. simpl. by destruct (oracle e σ). Qed.

Lemma exec_bind_err {A B} (p : prog A) (f : A -> prog B) s e :
  r_res (exec p s) = Err e -> r_res (exec (bind p f) s) = Err e.
Proof. intros He. rewrite exec_bind. unfold then_run. by rewrite He. Qed.
End ExecLemmas.

#[export] Hint Rewrite @exec_bind @exec_try_except @exec_try_finally @exec_perform : exo.

(** ** Clients: repeated calls, each outcome kept

    [attempt p] is [try: r = Ok(p()) except BaseException as e: r = Err(e)];
    [repeat_prog n p] makes [n] such calls in sequence, as a caller that
    retries does. *)

Definition attempt {A} (p : prog A) : prog (result A) :=
  try_except (x <- p ;; Ret (Ok x)) (fun e => Some (Ret (Err e))).

Fixpoint repeat_prog {A} (n : nat) (p : prog A) : prog (list (result A)) :=
  match n with
  | 0 => Ret []
  | S n' => r <- attempt p ;; rs <- repeat_prog n' p ;; Ret (r :: rs)
  end.

Section Clients.
Context {Σ : Type} `{Oracle Σ}.

Lemma exec_attempt {A} (p : prog A) s :
  exec (attempt p) s = mk_run (r_state (exec p s)) (r_trace (exec p s)) (Ok (r_res (exec p s))).
Proof.
  unfold attempt. rewrite exec_try_except, exec_bind. unfold then_run.
  destruct (exec p s) as [s1 t1 [a|e]]; simpl; by rewrite ?app_nil_r.
Qed.

(** The [n] calls as a fold: each call starts where the previous ended. *)
Lemma exec_repeat_S {A} n (p : prog A) s :
  exec (repeat_prog (S n) p) s =
    let o := exec p s in
    let o2 := exec (repeat_prog n p) (r_state o) in
    mk_run (r_state o2) (r_trace o ++ r_trace o2)
           (match r_res o2 with Ok rs => Ok (r_res o :: rs) | Err e => Err e end).
Proof.
  simpl repeat_prog. rewrite exec_bind, exec_attempt. unfold then_run; simpl.
  rewrite exec_bind. unfold then_run.
  destruct (exec (repeat_prog n p) (r_state (exec p s))) as [s2 t2 [rs|e]]; simpl;
    by rewrite ?app_nil_r.
Qed.
End Clients.

(** ** Hypotheses on the oracle *)

(** Every answer of the oracle to [e] satisfies [P], whatever its state. *)
Definition answers {Σ} `{Oracle Σ} {X} (e : ext X) (P : result X -> Prop) : Prop :=
  forall σ, P (snd (oracle e σ)).

Lemma answers_elim {Σ} `{Oracle Σ} {X} (e : ext X) P σ σ' r :
  answers e P -> oracle e σ = (σ', r) -> P r.
Proof. intros Hp E. specialize (Hp σ). by rewrite E in Hp. Qed.

(** Logging never raises. *)
Definition logs_ok {Σ} `{Oracle Σ} : Prop :=
  forall lvl msg x, answers (LogMsg lvl msg x) (eq (Ok tt)).

(** [answer Hp]: name the oracle's next answer and learn [P] of it. *)
Ltac answer Hp :=
  match goal with
  | |- context [oracle ?e ?σ] =>
      let E := fresh "E" in
      let Hr := fresh "Hr" in
      destruct (oracle e σ) as [?σ ?r] eqn:E;
      pose proof (answers_elim _ _ _ _ _ Hp E) as Hr; cbv beta in Hr
  end.

(** ** Classifying the events of a trace *)

Definition count_ev (f : event -> bool) (t : list event) : nat := length (List.filter f t).

Definition is_log (lvl : level) (ev : event) : bool :=
  match ev with
  | Ev (Ext (LogMsg l _ _)) _ => match lvl, l with
                                 | WARNING, WARNING | ERROR, ERROR => true
                                 | _, _ => false
                                 end
  | _ => false
  end.

Definition is_new_namespace (ev : event) : bool :=
  match ev with Ev NewNamespace _ => true | _ => false end.

Lemma count_ev_app f t1 t2 : count_ev f (t1 ++ t2) = count_ev f t1 + count_ev f t2.
Proof. induction t1 as [|ev t1 IH]; simpl; [done|]. unfold count_ev in *; simpl. destruct (f ev); simpl; lia. Qed.

Lemma count_ev_cons f ev t :
  count_ev f (ev :: t) = (if f ev then 1 else 0) + count_ev f t.
Proof. unfold count_ev; simpl. by destruct (f ev). Qed.

#[export] Hint Rewrite count_ev_app count_ev_cons : exo.

Lemma count_ev_prefix f t1 t2 : t1 `prefix_of` t2 -> count_ev f t1 <= count_ev f t2.
Proof. intros [q ->]. rewrite count_ev_app. lia. Qed.

(** [answer_auto]: answer the next oracle call from a hypothesis
    [answers e (eq r)] of the context. *)
Ltac answer_auto :=
  match goal with
  | |- context [oracle ?e ?σ] =>
      match goal with
      | Hp : answers e (eq _) |- _ =>
          let E := fresh "E" in
          let Hr := fresh "Hr" in
          destruct (oracle e σ) as [?σ ?r] eqn:E;
          pose proof (answers_elim _ _ _ _ _ Hp E) as Hr; subst; clear E
      end
  end.

(** [answer_ex Hp]: the next answer is [Ok x] for some [x], by
    [Hp : answers e (fun r => exists x, r = Ok x)]. *)
Ltac answer_ex Hp :=
  match goal with
  | |- context [oracle ?e ?σ] =>
      let E := fresh "E" in
      let Hr := fresh "Hr" in
      destruct (oracle e σ) as [?σ ?r] eqn:E;
      pose proof (answers_elim _ _ _ _ _ Hp E) as Hr; clear E;
      destruct Hr as [?x ->]
  end.

(** One external call answered from the context, leaving the callees of
    the rest of the program folded. *)
Ltac step_ext :=
  first [rewrite exec_ext_call_bind | rewrite exec_call_ext]; answer_auto; cbn [bind].

(** Run a program as far as the context's answers determine it. *)
Ltac exec_auto := simpl; repeat (answer_auto; simpl).

(** ** The clock interface

    [anyio.sleep] is the only effect that ends a tick: an oracle with a
    clock counts the sleeps performed so far, and no other effect moves
    it.  The loop theorems that speak of "the [k]-th iteration" are proved
    against this interface. *)

Definition is_sleep_ext {X} (e : ext X) : bool :=
  match e with Sleep _ => true | _ => false end.

Class Clock (Σ : Type) `{Oracle Σ} := {
  ticks : Σ -> nat;
  ticks_oracle : forall X (e : ext X) σ,
    ticks (fst (oracle e σ)) = if is_sleep_ext e then S (ticks σ) else ticks σ;
}.

Definition is_sleep (ev : event) : bool :=
  match ev with Ev (Ext (Sleep _)) _ => true | _ => false end.

(** The clock after a run is the clock before plus the sleeps of the run. *)
Lemma ticks_exec {Σ} `{Clock Σ} {A} (p : prog A) (s : proc * Σ) :
  ticks (snd (r_state (exec p s))) = ticks (snd s) + count_ev is_sleep (r_trace (exec p s)).
Proof.
  revert s. induction p as [a|e|X c k IH]; intros [pr σ]; simpl;
    [unfold count_ev; simpl; lia | unfold count_ev; simpl; lia |].
  destruct c as [X e| | | |]; simpl.
  - pose proof (ticks_oracle X e σ) as T.
    destruct (oracle e σ) as [σ1 r] eqn:E. simpl.
    rewrite count_ev_cons, IH. simpl in *. rewrite T.
    destruct e; simpl; lia.
  - rewrite count_ev_cons, IH. simpl. lia.
  - rewrite count_ev_cons, IH. simpl. lia.
  - rewrite count_ev_cons, IH. simpl. lia.
  - rewrite count_ev_cons, IH. simpl. lia.
Qed.

Definition is_mem_sink (ev : event) : bool :=
  match ev with Ev (Ext (MemSink _)) _ => true | _ => false end.

Definition is_node_sink (ev : event) : bool :=
  match ev with Ev (Ext (NodeSink _)) _ => true | _ => false end.

(** A sink call that raised. *)
Definition is_sink_fault (ev : event) : bool :=
  match ev with
  | Ev (Ext (MemSink _)) (Err _) | Ev (Ext (NodeSink _)) (Err _) => true
  | _ => false
  end.

Lemma count_ev_concat_const f k (ts : list (list event)) :
  Forall (fun t => count_ev f t = k) ts -> count_ev f (concat ts) = k * length ts.
Proof.
  induction 1 as [|t ts Ht _ IH]; simpl; [unfold count_ev; simpl; lia|].
  rewrite count_ev_app, Ht, IH. lia.
Qed.

Lemma count_ev_concat_eq f g (ts : list (list event)) :
  Forall (fun t => count_ev f t = count_ev g t) ts ->
  count_ev f (concat ts) = count_ev g (concat ts).
Proof. induction 1 as [|t ts Ht _ IH]; simpl; [done|]. by rewrite !count_ev_app, Ht, IH. Qed.
