(* ===== verification/Monitor.v ===== *)
(** * Ghost monitors over programs

    A [monitor] is an automaton that watches the events of a run:
    [mon_ok m ev] says whether event [ev] is allowed in monitor state [m],
    and [mon_next m ev] is the state after it.  [wp m p Q QE] holds when
    every path of the program [p], started in monitor state [m], makes only
    allowed calls, whatever the answers, and ends in a state satisfying [Q]
    (on return) or [QE] (on an exception).  It is a weakest precondition
    for a ghost automaton: it composes along [bind], [try/except] and
    [try/finally], and it is sound for [exec] (the trace of any run is
    accepted by the monitor).  The scheduler of [Schedule] uses it to
    carry per-thread facts across interleavings. *)

From Stdlib Require Import List.
From stdpp Require Import base list.
From S2P Require Import Prelude Types Effects.

Local Open Scope py_scope.

Record monitor := Monitor {
  mstate : Type;
  mon_ok : mstate -> event -> bool;
  mon_next : mstate -> event -> mstate;
}.
Arguments mon_ok {M} m ev : rename.
Arguments mon_next {M} m ev : rename.

(** The state of the monitor after a trace, [None] when it rejects it. *)
Fixpoint mon_trace {M : monitor} (m : mstate M) (t : list event) : option (mstate M) :=
  match t with
  | [] => Some m
  | ev :: t' => if mon_ok m ev then mon_trace (mon_next m ev) t' else None
  end.

Section Wp.
Context {M : monitor}.

Fixpoint wp {A} (m : mstate M) (p : prog A)
    (Q : A -> mstate M -> Prop) (QE : exn -> mstate M -> Prop) : Prop :=
  match p with
  | Ret a => Q a m
  | Raise e => QE e m
  | Call c k => forall r, mon_ok m (Ev c r) = true /\ wp (mon_next m (Ev c r)) (k r) Q QE
  end.

Lemma mon_trace_app (m : mstate M) t1 t2 :
  mon_trace m (t1 ++ t2) = match mon_trace m t1 with
                           | Some m1 => mon_trace m1 t2
                           | None => None
                           end.
Proof.
  revert m. induction t1 as [|ev t1 IH]; intros m; simpl; [done|].
  destruct (mon_ok m ev); [apply IH | done].
Qed.

Lemma wp_mono {A} (p : prog A) m (Q Q' : A -> mstate M -> Prop) (QE QE' : exn -> mstate M -> Prop) :
  wp m p Q QE -> (forall a m', Q a m' -> Q' a m') -> (forall e m', QE e m' -> QE' e m') ->
  wp m p Q' QE'.
Proof.
  revert m. induction p as [a|e|X c k IH]; intros m Hp HQ HQE; simpl in *; auto.
  intros r. destruct (Hp r) as [Hok Hk]. split; [done|]. by apply IH.
Qed.

Lemma wp_bind {A B} (p : prog A) (f : A -> prog B) m Q QE :
  wp m p (fun a m' => wp m' (f a) Q QE) QE -> wp m (bind p f) Q QE.
Proof.
  revert m. induction p as [a|e|X c k IH]; intros m Hp; simpl in *; auto.
  intros r. destruct (Hp r) as [Hok Hk]. split; [done|]. by apply IH.
Qed.

Lemma wp_try_except {A} (p : prog A) (hd : handler A) m Q QE :
  wp m p Q (fun e m' => match hd e with Some q => wp m' q Q QE | None => QE e m' end) ->
  wp m (try_except p hd) Q QE.
Proof.
  revert m. induction p as [a|e|X c k IH]; intros m Hp; simpl in *; auto.
  - by destruct (hd e).
  - intros r. destruct (Hp r) as [Hok Hk]. split; [done|]. by apply IH.
Qed.

Lemma wp_try_finally {A} (p : prog A) (f : prog unit) m Q QE :
  wp m p (fun a m' => wp m' f (fun _ m'' => Q a m'') QE)
         (fun e m' => wp m' f (fun _ m'' => QE e m'') QE) ->
  wp m (try_finally p f) Q QE.
Proof.
  revert m. induction p as [a|e|X c k IH]; intros m Hp; simpl in *.
  - by apply wp_bind.
  - by apply wp_bind.
  - intros r. destruct (Hp r) as [Hok Hk]. split; [done|]. by apply IH.
Qed.

Lemma wp_perform {X} (c : call X) m Q QE :
  (forall r, mon_ok m (Ev c r) = true) ->
  (forall x, Q x (mon_next m (Ev c (Ok x)))) ->
  (forall e, QE e (mon_next m (Ev c (Err e)))) ->
  wp m (perform c) Q QE.
Proof. intros Hok HQ HQE; simpl; intros r. split; [done|]. destruct r; simpl; auto. Qed.

(** Soundness for [exec]: the trace of every run is accepted, and the
    final monitor state satisfies the postcondition of the outcome. *)
Lemma wp_exec {Σ} `{Oracle Σ} {A} (p : prog A) m Q QE (s : proc * Σ) :
  wp m p Q QE ->
  exists m', mon_trace m (r_trace (exec p s)) = Some m'
             /\ match r_res (exec p s) with Ok a => Q a m' | Err e => QE e m' end.
Proof.
  revert m s. induction p as [a|e|X c k IH]; intros m s Hp; simpl in *; [eauto|eauto|].
  destruct (step_call c s) as [s1 r]. destruct (Hp r) as [Hok Hk]. simpl.
  rewrite Hok. by apply IH.
Qed.

(** A property of the state that every allowed call keeps holds after
    the whole run. *)
Lemma wp_exec_state {Σ} `{Oracle Σ} {A} (P : proc * Σ -> Prop) (p : prog A) m Q QE s :
  (forall (m' : mstate M) X (c : call X) s', P s' -> mon_ok m' (Ev c (snd (step_call c s'))) = true ->
     P (fst (step_call c s'))) ->
  wp m p Q QE -> P s -> P (r_state (exec p s)).
Proof.
  intros HP. revert m s. induction p as [a|e|X c k IH]; intros m s Hp Hs; simpl in *; [done|done|].
  pose proof (HP m X c s Hs) as HPc.
  destruct (step_call c s) as [s1 r]. destruct (Hp r) as [Hok Hk]. simpl in *.
  by apply (IH r (mon_next m (Ev c r))), HPc.
Qed.

(** A monitor that forbids the events [f] accepts only traces without
    them. *)
Lemma mon_trace_count_forbidden (f : event -> bool) (m : mstate M) t m' :
  (forall (m0 : mstate M) ev, mon_ok m0 ev = true -> f ev = false) ->
  mon_trace m t = Some m' -> count_ev f t = 0.
Proof.
  intros Hf. revert m. induction t as [|ev t IH]; intros m Ht; [done|]. simpl in Ht.
  destruct (mon_ok m ev) eqn:Hok; [|done].
  rewrite count_ev_cons, (Hf _ _ Hok). simpl. eauto.
Qed.
End Wp.

(** [wp_sym]: symbolic execution of [wp] on a program whose definitions
    have been unfolded: each call is checked by the monitor for every
    answer, value or exception, and each branch on an answer is split.
    The primitives of [Effects] are unfolded here; a case split on a
    boolean or an option is recorded, so that the monitor sees the branch the program
    took.  [wp_sym_by tac] proves each monitor check with [tac]. *)
Ltac wp_sym_by tac :=
  unfold perform, ext_call, except_clause, no_handler;
  repeat first
    [ progress simpl
    | match goal with
      | |- forall r, _ /\ _ => intros [?x| ?e]; (split; [tac|])
      | H : ?b = true |- context [if ?b then _ else _] => rewrite H
      | H : ?b = false |- context [if ?b then _ else _] => rewrite H
      | |- context [if ?b then _ else _] => destruct b eqn:?
      | |- context [match ?x with pair _ _ => _ end] => destruct x
      | H : ?x = Some _ |- context [match ?x with Some _ => _ | None => _ end] => rewrite H
      | H : ?x = None |- context [match ?x with Some _ => _ | None => _ end] => rewrite H
      | |- context [match ?x with Some _ => _ | None => _ end] => destruct x eqn:?
      end ].

Ltac wp_sym := wp_sym_by ltac:(idtac; reflexivity).
