(* ===== verification/Schedule.v ===== *)
(** * Interleaved execution of threads and tasks

    Several programs run against one shared state: the process state
    [proc] (the loader's [_cached], the object allocator) and the oracle's
    environment.  A scheduler repeatedly picks a thread that has not
    finished and runs one [slice] of it: its calls, up to and including the
    first call after which the scheduler may switch ([preempt]).

    - Python threads (two threads calling [load_mlx_backend]) may be
      switched between any two calls: [preempt] is always true and a slice
      is one call.
    - asyncio tasks (the two polling loops in one event loop) are switched
      only at an [await]: [preempt] holds of the awaited calls, and the
      synchronous code between two awaits runs as one slice.

    [cstep] is the step relation, [reachable] its reflexive-transitive
    closure, and [run_sched] runs an explicit schedule (a list of thread
    indices), so that a particular interleaving can be evaluated.  The
    generic invariant [reachable_inv] carries a per-thread fact, stated with
    a ghost monitor ([Monitor.wp]), across every interleaving. *)

From Stdlib Require Import List.
From stdpp Require Import base list relations.
From S2P Require Import Prelude Types Effects Monitor.

Local Open Scope py_scope.

Record sliced (S A : Type) := mk_sliced {
  sl_state : S;
  sl_trace : list event;
  sl_rest : prog A;
}.
Arguments mk_sliced {S A} sl_state sl_trace sl_rest.
Arguments sl_state {S A} s.
Arguments sl_trace {S A} s.
Arguments sl_rest {S A} s.

Definition running {A} (p : prog A) : bool :=
  match p with Call _ _ => true | _ => false end.

Record config (S A : Type) := mk_config {
  threads : list (prog A);
  shared : S;
  gtrace : list (nat * event);
}.
Arguments mk_config {S A} threads shared gtrace.
Arguments threads {S A} c.
Arguments shared {S A} c.
Arguments gtrace {S A} c.

Section Scheduler.
Context {Σ : Type} `{Oracle Σ} {A : Type}.

(** The scheduler may switch to another thread after a call [c] with
    [preempt c = true]. *)
Variable preempt : forall X, call X -> bool.

Definition preempt_ev (ev : event) : bool :=
  match ev with Ev c _ => preempt _ c end.

Fixpoint slice (p : prog A) (s : proc * Σ) : sliced (proc * Σ) A :=
  match p with
  | Ret a => mk_sliced s [] (Ret a)
  | Raise e => mk_sliced s [] (Raise e)
  | Call c k =>
      let (s1, r) := step_call c s in
      if preempt _ c then mk_sliced s1 [Ev c r] (k r)
      else match slice (k r) s1 with
           | mk_sliced s2 t p' => mk_sliced s2 (Ev c r :: t) p'
           end
  end.

(** Thread [i] runs one slice; an unknown or finished thread is skipped. *)
Definition after_slice (i : nat) (p : prog A) (cf : config (proc * Σ) A) : config (proc * Σ) A :=
  match cf with
  | mk_config ts s g =>
      match slice p s with
      | mk_sliced s' t p' => mk_config (<[i := p']> ts) s' (g ++ map (pair i) t)
      end
  end.

Definition sched_step (i : nat) (cf : config (proc * Σ) A) : config (proc * Σ) A :=
  match threads cf !! i with
  | Some p => if running p then after_slice i p cf else cf
  | None => cf
  end.

Definition run_sched (sch : list nat) (cf : config (proc * Σ) A) : config (proc * Σ) A :=
  foldl (fun cf i => sched_step i cf) cf sch.

Definition init_config (ps : list (prog A)) (s : proc * Σ) : config (proc * Σ) A := mk_config ps s [].

Inductive cstep : config (proc * Σ) A -> config (proc * Σ) A -> Prop :=
| cstep_slice cf i p :
    threads cf !! i = Some p -> running p = true -> cstep cf (after_slice i p cf).

Definition reachable : config (proc * Σ) A -> config (proc * Σ) A -> Prop := rtc cstep.

Lemma sched_step_reachable i cf : reachable cf (sched_step i cf).
Proof.
  unfold sched_step. destruct (threads cf !! i) as [p|] eqn:E; [|reflexivity].
  destruct (running p) eqn:R; [|reflexivity]. apply rtc_once. by constructor.
Qed.

Lemma run_sched_reachable sch cf : reachable cf (run_sched sch cf).
Proof.
  revert cf. induction sch as [|i sch IH]; intros cf; simpl; [reflexivity|].
  etrans; [apply sched_step_reachable | apply IH].
Qed.

(** A slice either finishes the thread or ends with a preemptible call. *)
Lemma slice_end (p : prog A) s s' t p' :
  slice p s = mk_sliced s' t p' ->
  running p' = false \/ exists t0 ev, t = t0 ++ [ev] /\ preempt_ev ev = true.
Proof.
  revert s s' t p'. induction p as [a|e|X c k IH]; intros s s' t p' E; simpl in E;
    [invc E; by left | invc E; by left|].
  destruct (step_call c s) as [s1 r]. destruct (preempt X c) eqn:Hp.
  - invc E. right. exists [], (Ev c r). auto.
  - destruct (slice (k r) s1) as [s2 t2 p2] eqn:E2. invc E.
    destruct (IH r s1 _ _ _ E2) as [Hf | (t0 & ev & -> & Hev)]; [by left|].
    right. exists (Ev c r :: t0), ev. auto.
Qed.

(** ** Per-thread facts carried across interleavings

    A thread in monitor state [m] knows [I m] of the shared state.  Its own
    calls keep its knowledge ([I_own]) and every event it emits satisfies
    [G] ([I_ev]); a call another thread is allowed to make, from a state
    where that thread's knowledge holds too, keeps [I] ([I_stable]). *)
Section Invariant.
Variable M : monitor.
Variable I : mstate M -> proc * Σ -> Prop.
Variable G : event -> Prop.
Hypothesis I_own : forall m X (c : call X) s,
  I m s -> mon_ok m (Ev c (snd (step_call c s))) = true ->
  I (mon_next m (Ev c (snd (step_call c s)))) (fst (step_call c s)).
Hypothesis I_ev : forall m X (c : call X) s,
  I m s -> mon_ok m (Ev c (snd (step_call c s))) = true -> G (Ev c (snd (step_call c s))).
Hypothesis I_stable : forall m m' X (c : call X) s,
  I m s -> I m' s -> mon_ok m' (Ev c (snd (step_call c s))) = true -> I m (fst (step_call c s)).

Lemma slice_wp m (p : prog A) s s' t p' Q QE :
  slice p s = mk_sliced s' t p' -> wp m p Q QE -> I m s ->
  exists m', mon_trace m t = Some m' /\ wp m' p' Q QE /\ I m' s' /\ Forall G t.
Proof.
  revert m s s' t p'. induction p as [a|e|X c k IH]; intros m s s' t p' E Hp HI;
    simpl in E; [invc E; eauto | invc E; eauto |].
  pose proof (I_own m X c s HI) as Ho. pose proof (I_ev m X c s HI) as He.
  destruct (step_call c s) as [s1 r]. simpl in Ho, He.
  destruct (Hp r) as [Hok Hk]. specialize (Ho Hok). specialize (He Hok).
  destruct (preempt X c).
  - invc E. simpl. rewrite Hok. eexists. split_and!; [reflexivity|done|done|by repeat constructor].
  - destruct (slice (k r) s1) as [s2 t2 p2] eqn:E2. invc E.
    destruct (IH r _ s1 _ _ _ E2 Hk Ho) as (m' & Ht & Hw & HI' & HG).
    simpl. rewrite Hok. exists m'. split_and!; [done|done|done|by constructor].
Qed.

(** A bystander in state [m] keeps its knowledge while a thread in state
    [m'] runs a slice of a program that is safe for [m']. *)
Lemma slice_stable m m' (p : prog A) s s' t p' Q QE :
  slice p s = mk_sliced s' t p' -> wp m' p Q QE -> I m' s -> I m s -> I m s'.
Proof.
  revert m' s s' t p'. induction p as [a|e|X c k IH]; intros m' s s' t p' E Hp HI' HI;
    simpl in E; [by invc E | by invc E |].
  pose proof (I_stable m m' X c s HI HI') as Hs. pose proof (I_own m' X c s HI') as Ho.
  destruct (step_call c s) as [s1 r]. simpl in Hs, Ho.
  destruct (Hp r) as [Hok Hk]. specialize (Hs Hok). specialize (Ho Hok).
  destruct (preempt X c); [by invc E|].
  destruct (slice (k r) s1) as [s2 t2 p2] eqn:E2. invc E. by eapply IH.
Qed.

(** Every thread has a monitor state in which its program is safe and
    whose knowledge holds of the shared state. *)
Definition thread_inv (cf : config (proc * Σ) A) : Prop :=
  forall i p, threads cf !! i = Some p ->
  exists m, wp m p (fun _ _ => True) (fun _ _ => True) /\ I m (shared cf).

Lemma after_slice_inv cf i p :
  thread_inv cf -> Forall (G ∘ snd) (gtrace cf) -> threads cf !! i = Some p ->
  thread_inv (after_slice i p cf) /\ Forall (G ∘ snd) (gtrace (after_slice i p cf)).
Proof.
  intros Hinv HG Hi. destruct (Hinv i p Hi) as (m & Hw & HI).
  destruct cf as [ts s g]. unfold after_slice, thread_inv in *; cbn [threads shared gtrace] in *.
  destruct (slice p s) as [s' t p'] eqn:E.
  destruct (slice_wp m p s s' t p' _ _ E Hw HI) as (m' & _ & Hw' & HI' & HGs).
  cbn [threads shared gtrace]. split.
  - intros j q Hj.
    apply list_lookup_insert_Some in Hj as [(<- & <- & _) | (Hne & Hj)]; [eauto|].
    destruct (Hinv j q Hj) as (mj & Hwj & HIj). exists mj. split; [done|].
    by eapply (slice_stable mj m p s s' t p' _ _ E Hw HI).
  - apply Forall_app. split; [done|]. apply Forall_fmap. done.
Qed.

Lemma reachable_inv cf cf' :
  thread_inv cf -> Forall (G ∘ snd) (gtrace cf) -> reachable cf cf' ->
  thread_inv cf' /\ Forall (G ∘ snd) (gtrace cf').
Proof.
  intros Hinv HG Hr. induction Hr as [cf|cf1 cf2 cf3 Hs Hr IH]; [done|].
  destruct Hs as [cf1 i p Hi _]. apply IH; by apply after_slice_inv.
Qed.
End Invariant.

(** ** The events of one thread

    [proj i g] is the subsequence of the global trace [g] made by thread
    [i].  Whatever the interleaving, a monitor that every thread's program
    satisfies accepts each thread's projection ([reachable_proj]). *)
Definition proj (i : nat) (g : list (nat * event)) : list event :=
  map snd (List.filter (fun iev => Nat.eqb (fst iev) i) g).

Lemma proj_app i g h : proj i (g ++ h) = proj i g ++ proj i h.
Proof.
  unfold proj. induction g as [|[j ev] g IH]; simpl; [done|].
  destruct (Nat.eqb j i); simpl; by rewrite IH.
Qed.

Lemma proj_slice i j t : proj j (map (pair i) t) = if Nat.eqb i j then t else [].
Proof.
  unfold proj. destruct (Nat.eqb i j) eqn:E;
    induction t as [|ev t IH]; simpl; rewrite ?E; simpl; [done| by f_equal | done | exact IH].
Qed.

Section Projection.
Variable M : monitor.
Variable m0 : mstate M.

Definition proj_inv (cf : config (proc * Σ) A) : Prop :=
  forall i p, threads cf !! i = Some p ->
  exists m, mon_trace m0 (proj i (gtrace cf)) = Some m /\ wp m p (fun _ _ => True) (fun _ _ => True).

Lemma cstep_proj cf cf' : cstep cf cf' -> proj_inv cf -> proj_inv cf'.
Proof.
  intros [cf0 i p Hi _] Hinv. destruct (Hinv i p Hi) as (m & Hm & Hw).
  destruct cf0 as [ts s g]. unfold after_slice, proj_inv in *; cbn [threads gtrace] in *.
  destruct (slice p s) as [s' t p'] eqn:E.
  destruct (slice_wp M (fun _ _ => True) (fun _ => True) (fun _ _ _ _ _ _ => I) (fun _ _ _ _ _ _ => I)
              m p s s' t p' _ _ E Hw I) as (m' & Ht & Hw' & _ & _).
  intros j q Hj. cbn [threads gtrace]. rewrite proj_app, proj_slice, mon_trace_app.
  apply list_lookup_insert_Some in Hj as [(<- & <- & _) | (Hne & Hj)].
  - rewrite Nat.eqb_refl, Hm. eauto.
  - destruct (Hinv j q Hj) as (mj & Hmj & Hwj). apply Nat.eqb_neq in Hne. rewrite Hmj, Hne.
    exists mj. split; [done|exact Hwj].
Qed.

Lemma reachable_proj cf cf' : reachable cf cf' -> proj_inv cf -> proj_inv cf'.
Proof. intros Hr. induction Hr as [|cf1 cf2 cf3 Hs _ IH]; [done|]. intros H1. by apply IH, (cstep_proj cf1). Qed.

Lemma init_proj (ps : list (prog A)) s :
  Forall (fun p => wp m0 p (fun _ _ => True) (fun _ _ => True)) ps -> proj_inv (init_config ps s).
Proof.
  intros Hps i p Hi. exists m0. split; [done|]. cbn [threads init_config] in Hi.
  by eapply (Forall_lookup_1 _ _ _ _ Hps Hi).
Qed.
End Projection.

Lemma reachable_length cf cf' : reachable cf cf' -> length (threads cf') = length (threads cf).
Proof.
  induction 1 as [|cf1 cf2 cf3 Hs _ IH]; [done|]. rewrite IH. destruct Hs as [[ts s g] i p _ _].
  unfold after_slice. destruct (slice p s). simpl. apply length_insert.
Qed.

(** Each of the threads started with programs that are safe for [M]
    from [m0] has, in every reachable configuration, a projection the
    monitor accepts. *)
Lemma reachable_proj_init (M : monitor) (m0 : mstate M) ps s cf i :
  Forall (fun p => wp m0 p (fun _ _ => True) (fun _ _ => True)) ps ->
  reachable (init_config ps s) cf -> i < length ps ->
  exists m, mon_trace m0 (proj i (gtrace cf)) = Some m.
Proof.
  intros Hps Hr Hi. pose proof (reachable_length _ _ Hr) as Hlen.
  destruct (lookup_lt_is_Some_2 (threads cf) i) as [p Hp]; [simpl in Hlen; lia|].
  destruct (reachable_proj M m0 _ _ Hr (init_proj M m0 ps s Hps) i p Hp) as (m & Hm & _). eauto.
Qed.

End Scheduler.

Arguments init_config {Σ A} ps s.

