(* ===== verification/Hosts.v ===== *)
(** * Concrete hosts

    A [Host] fixes every collaborator's answer; its oracle's state is the
    number of ticks so far (the number of [anyio.sleep] calls), so that the
    native sampler and the sink can answer differently on each tick.  The
    witnesses of the development run the code against such hosts. *)

From Stdlib Require Import QArith ZArith String List.
From stdpp Require Import base list decidable.
From S2P Require Import Prelude PyBuiltins Types Effects.

Local Open Scope string_scope.
Local Open Scope Q_scope.

Record Host := mk_host {
  h_platform : string;
  h_modules : list pymodule;
  h_env : string -> option string;
  h_cpu_percent : Q;
  h_cpu_count : option Z;
  h_sensors : result (list (string * list Psutil.shwtemp));
  h_vm : Psutil.svmem;
  h_swap : Psutil.sswap;
  h_macmon : nat -> result (option Metrics.Metrics);
  h_interfaces : list NetworkInterfaceInfo.NetworkInterfaceInfo;
  h_model_chip : string * string;
  h_friendly : string;
  h_sink : nat -> result unit;
}.

Definition host_import (h : Host) (name : string) : result pymodule :=
  match List.find (fun m => String.eqb (mod_name m) name) (h_modules h) with
  | Some m => Ok m
  | None => Err (ModuleNotFoundError name)
  end.

Definition host_oracle (h : Host) : Oracle nat :=
  fun X e t =>
    match e in ext X return nat * result X with
    | PlatformSystem => (t, Ok (h_platform h))
    | GetEnv n => (t, Ok (h_env h n))
    | ImportModule n => (t, host_import h n)
    | LogMsg _ _ _ => (t, Ok tt)
    | CpuPercent => (t, Ok (h_cpu_percent h))
    | CpuCount => (t, Ok (h_cpu_count h))
    | SensorsTemperatures => (t, h_sensors h)
    | VirtualMemory => (t, Ok (h_vm h))
    | SwapMemory => (t, Ok (h_swap h))
    | MacmonGetMetrics => (t, h_macmon h t)
    | GetNetworkInterfaces => (t, Ok (h_interfaces h))
    | GetModelAndChip => (t, Ok (h_model_chip h))
    | GetFriendlyName => (t, Ok (h_friendly h))
    | Sleep _ => (S t, Ok tt)
    | MemSink _ => (t, h_sink h t)
    | NodeSink _ => (t, h_sink h t)
    end.

(** The two MLX modules as an installed MLX provides them. *)
Definition mlx_generate_module : pymodule :=
  mk_module "exo.worker.engines.mlx.generator.generate" ["mlx_generate"; "warmup_inference"].
Definition mlx_utils_module : pymodule :=
  mk_module "exo.worker.engines.mlx.utils_mlx" ["initialize_mlx"; "mlx_force_oom"].

(** A Linux host: no MLX, one temperature sensor group, 16 GiB of RAM. *)
Definition linux_host : Host := {|
  h_platform := "Linux";
  h_modules := [];
  h_env := fun _ => None;
  h_cpu_percent := 25%Q;
  h_cpu_count := Some 8%Z;
  h_sensors := Ok [("coretemp", [Psutil.mk_shwtemp "Core 0" (Some 40%Q);
                                 Psutil.mk_shwtemp "Core 1" None;
                                 Psutil.mk_shwtemp "Core 2" (Some 50%Q)])];
  h_vm := Psutil.mk_svmem 17179869184%Z 8589934592%Z;
  h_swap := Psutil.mk_sswap 0%Z 0%Z;
  h_macmon := fun _ => Ok None;
  h_interfaces := [NetworkInterfaceInfo.mk "eth0" "10.0.0.2"];
  h_model_chip := ("Linux PC", "x86_64");
  h_friendly := "node-1";
  h_sink := fun _ => Ok tt;
|}.

(** The sensor groups a host reports, [[]] when its sensor API raises. *)
Definition h_sensors_ok (h : Host) : list (string * list Psutil.shwtemp) :=
  match h_sensors h with Ok temps => temps | Err _ => [] end.

(** A macOS host whose importable modules are [ms]. *)
Definition mac_host_with (ms : list pymodule) : Host := {|
  h_platform := "Darwin";
  h_modules := ms;
  h_env := fun _ => None;
  h_cpu_percent := 10%Q;
  h_cpu_count := Some 10%Z;
  h_sensors := Err (OtherError "AttributeError");
  h_vm := Psutil.mk_svmem 34359738368%Z 17179869184%Z;
  h_swap := Psutil.mk_sswap 0%Z 0%Z;
  h_macmon := fun _ => Ok None;
  h_interfaces := [];
  h_model_chip := ("Mac15,8", "Apple M3 Max");
  h_friendly := "studio";
  h_sink := fun _ => Ok tt;
|}.

(** macOS with MLX installed, without MLX, and with an MLX whose
    [utils_mlx] lacks [initialize_mlx]. *)
Definition mac_host : Host := mac_host_with [mlx_generate_module; mlx_utils_module].
Definition mac_host_no_mlx : Host := mac_host_with [].
Definition mac_host_old_mlx : Host :=
  mac_host_with [mlx_generate_module;
                 mk_module "exo.worker.engines.mlx.utils_mlx" ["mlx_force_oom"]].

(** A host's oracle state is its tick count. *)
#[export] Instance host_clock (h : Host) : @Clock nat (host_oracle h).
Proof. refine {| ticks := fun t => t |}. intros X e σ. by destruct e. Defined.

(** A sample [macmon] could return. *)
Definition sample_metrics : Metrics.Metrics :=
  Metrics.mk 20 1 8 (4%Z, 30%Q) 6 1 (38%Z, 55%Q) (8%Z, 40%Q) 2 25 (TempMetrics.mk 52 48) "t".

(** macOS whose [macmon] answers [f t] on tick [t]. *)
Definition mac_macmon_host (f : nat -> result (option Metrics.Metrics)) : Host := {|
  h_platform := "Darwin";
  h_modules := [];
  h_env := fun _ => None;
  h_cpu_percent := 10%Q;
  h_cpu_count := Some 10%Z;
  h_sensors := Ok [];
  h_vm := Psutil.mk_svmem 34359738368%Z 17179869184%Z;
  h_swap := Psutil.mk_sswap 0%Z 0%Z;
  h_macmon := f;
  h_interfaces := [NetworkInterfaceInfo.mk "en0" "192.168.1.5"];
  h_model_chip := ("Mac15,8", "Apple M3 Max");
  h_friendly := "studio";
  h_sink := fun _ => Ok tt;
|}.

(** macOS whose [macmon] samples on ticks [0 .. K-1] and yields [None] from
    tick [K] on. *)
Definition mac_sampling_host (K : nat) : Host :=
  mac_macmon_host (fun t => if Nat.ltb t K then Ok (Some sample_metrics) else Ok None).

(** macOS whose [macmon] raises [e] on every tick. *)
Definition mac_faulty_host (e : exn) : Host := mac_macmon_host (fun _ => Err e).

(** Linux with [OVERRIDE_MEMORY_MB] set to [v] and a sink that raises
    [MacMonError] on odd ticks. *)
Definition linux_host_with (v : option string) : Host := {|
  h_platform := "Linux";
  h_modules := [];
  h_env := fun _ => v;
  h_cpu_percent := 25%Q;
  h_cpu_count := Some 8%Z;
  h_sensors := Ok [];
  h_vm := Psutil.mk_svmem 17179869184%Z 8589934592%Z;
  h_swap := Psutil.mk_sswap 0%Z 0%Z;
  h_macmon := fun _ => Ok None;
  h_interfaces := [];
  h_model_chip := ("Linux PC", "x86_64");
  h_friendly := "node-1";
  h_sink := fun t => if Nat.odd t then Err MacMonError else Ok tt;
|}.

(** Windows: [psutil] has no [sensors_temperatures]. *)
Definition windows_host : Host := {|
  h_platform := "Windows";
  h_modules := [];
  h_env := fun _ => None;
  h_cpu_percent := 5%Q;
  h_cpu_count := None;
  h_sensors := Err (AttributeError "sensors_temperatures");
  h_vm := Psutil.mk_svmem 8589934592%Z 4294967296%Z;
  h_swap := Psutil.mk_sswap 0%Z 0%Z;
  h_macmon := fun _ => Ok None;
  h_interfaces := [];
  h_model_chip := ("PC", "x86_64");
  h_friendly := "win";
  h_sink := fun _ => Ok tt;
|}.

(** Linux whose [psutil] raises [NotImplementedError] for the sensors. *)
Definition sensorless_host : Host :=
  {| h_platform := "Linux"; h_modules := []; h_env := fun _ => None;
     h_cpu_percent := 25%Q; h_cpu_count := Some 8%Z; h_sensors := Err NotImplementedError;
     h_vm := Psutil.mk_svmem 17179869184%Z 8589934592%Z; h_swap := Psutil.mk_sswap 0%Z 0%Z;
     h_macmon := fun _ => Ok None; h_interfaces := [NetworkInterfaceInfo.mk "eth0" "10.0.0.2"];
     h_model_chip := ("Linux PC", "x86_64"); h_friendly := "node-1"; h_sink := fun _ => Ok tt |}.

(** A fresh process: nothing cached, no object allocated, tick 0. *)
Definition init_state : proc * nat := (mk_proc None 0, 0%nat).
