(* ===== verification/Availability.v ===== *)
(** * The capability backend loader ([engines/mlx/availability.py])

    [_build_backend] gates on [platform.system().lower() == "darwin"],
    imports the two MLX modules (an [ImportError] becomes
    [MlxUnavailableError ... from exc]), reads four attributes and builds a
    new [SimpleNamespace].  [load_mlx_backend] memoises the namespace in the
    function attribute [_cached]; on [MlxUnavailableError] it logs a warning
    and re-raises, storing nothing. *)

From Stdlib Require Import QArith ZArith String List.
From stdpp Require Import base list decidable.
From S2P Require Import Prelude PyBuiltins Types Effects Hosts.

Local Open Scope string_scope.
Local Open Scope py_scope.

Module Loader.

Definition GENERATE_MODULE := "exo.worker.engines.mlx.generator.generate".
Definition UTILS_MODULE := "exo.worker.engines.mlx.utils_mlx".

Definition platform_msg (system : string) : string :=
  "MLX backend requires macOS; current platform is '" ++ system ++ "'.".
Definition missing_msg : string :=
  "MLX dependencies are missing. Install MLX on macOS to run inference.".
Definition warning_msg : string := "MLX backend unavailable on this platform.".

Definition has_attr (m : pymodule) (a : string) : bool :=
  existsb (String.eqb a) (mod_attrs m).

(** [module.attr]: [AttributeError] when the module has no such attribute. *)
Definition getattr_module (m : pymodule) (a : string) : prog pyref :=
  if has_attr m a then Ret (mk_ref (mod_name m) a) else Raise (AttributeError a).

(** Lines 25-33: both imports inside one [try]; [except ImportError]. *)
Definition import_mlx_modules : prog (pymodule * pymodule) :=
  try_except
    (generate <- ext_call (ImportModule GENERATE_MODULE) ;;
     utils_mlx <- ext_call (ImportModule UTILS_MODULE) ;;
     Ret (generate, utils_mlx))
    (except_clause [CImportError]
       (fun exc => Raise (MlxUnavailableError missing_msg (Some exc)))
       no_handler).

Definition _build_backend : prog Backend :=
  sys <- ext_call PlatformSystem ;;
  let system := py_lower sys in
  if negb (String.eqb system "darwin") then
    sys2 <- ext_call PlatformSystem ;;
    Raise (MlxUnavailableError (platform_msg sys2) None)
  else
    mods <- import_mlx_modules ;;
    let '(generate, utils_mlx) := mods in
    f1 <- getattr_module utils_mlx "initialize_mlx" ;;
    f2 <- getattr_module utils_mlx "mlx_force_oom" ;;
    f3 <- getattr_module generate "mlx_generate" ;;
    f4 <- getattr_module generate "warmup_inference" ;;
    oid <- perform NewNamespace ;;
    Ret (mk_backend oid f1 f2 f3 f4).

Definition load_mlx_backend : prog Backend :=
  has <- perform HasCached ;;
  (if has then Ret tt
   else try_except
          (b <- _build_backend ;; perform (SetCached b))
          (except_clause [CMlxUnavailableError]
             (fun e => ext_call (LogMsg WARNING warning_msg None) ;; Raise e)
             no_handler)) ;;
  perform GetCached.

End Loader.

(** The four entry points the namespace needs, in the modules it reads
    them from. *)
Definition entry_points_present (generate utils_mlx : pymodule) : bool :=
  Loader.has_attr utils_mlx "initialize_mlx" && Loader.has_attr utils_mlx "mlx_force_oom"
  && Loader.has_attr generate "mlx_generate" && Loader.has_attr generate "warmup_inference".

(** The namespace [_build_backend] returns as object number [oid]. *)
Definition mlx_namespace (generate utils_mlx : pymodule) (oid : nat) : Backend :=
  mk_backend oid (mk_ref (mod_name utils_mlx) "initialize_mlx")
    (mk_ref (mod_name utils_mlx) "mlx_force_oom")
    (mk_ref (mod_name generate) "mlx_generate")
    (mk_ref (mod_name generate) "warmup_inference").

(** The trace of [n] calls that find the cache filled with [b]. *)
Definition cached_trace (n : nat) (b : Backend) : list event :=
  concat (repeat [Ev HasCached (Ok true); Ev GetCached (Ok b)] n).

Lemma cached_trace_count f n b :
  f (Ev HasCached (Ok true)) = false -> f (Ev GetCached (Ok b)) = false ->
  count_ev f (cached_trace n b) = 0.
Proof.
  intros H1 H2. induction n as [|n IH]; [done|].
  unfold cached_trace in *; simpl. rewrite !count_ev_cons, H1, H2, IH.
  reflexivity.
Qed.

Section LoaderTheorems.
Context {Σ : Type} `{Oracle Σ}.
Import Loader.

Lemma load_cached_run (p : proc) (σ : Σ) (b : Backend) :
  cached p = Some b ->
  exec load_mlx_backend (p, σ) =
    mk_run (p, σ) [Ev HasCached (Ok true); Ev GetCached (Ok b)] (Ok b).
Proof. intros Hc. destruct p as [c n]; simpl in Hc; subst. reflexivity. Qed.

Lemma load_cached_repeat n (p : proc) (σ : Σ) (b : Backend) :
  cached p = Some b ->
  exec (repeat_prog n load_mlx_backend) (p, σ) =
    mk_run (p, σ) (cached_trace n b) (Ok (repeat (Ok b) n)).
Proof.
  intros Hc. induction n as [|n IH]; [reflexivity|].
  rewrite exec_repeat_S, (load_cached_run p σ b Hc). simpl. by rewrite IH.
Qed.

Hypothesis Hlog : logs_ok.

Section Unsupported.
Variable s : string.
Hypothesis Hplat : answers PlatformSystem (eq (Ok s)).
Hypothesis Hs : String.eqb (py_lower s) "darwin" = false.

Lemma load_unsupported_run (p : proc) (σ : Σ) :
  cached p = None ->
  exists σ', exec load_mlx_backend (p, σ) =
    mk_run (p, σ')
      [Ev HasCached (Ok false); Ev (Ext PlatformSystem) (Ok s);
       Ev (Ext PlatformSystem) (Ok s);
       Ev (Ext (LogMsg WARNING warning_msg None)) (Ok tt)]
      (Err (MlxUnavailableError (platform_msg s) None)).
Proof.
  intros Hc. destruct p as [c n]; simpl in Hc; subst. simpl.
  answer Hplat. subst. simpl. rewrite Hs. simpl.
  answer Hplat. subst. simpl.
  answer (Hlog WARNING warning_msg None). subst. simpl.
  eauto.
Qed.

(** C20: on a host whose platform is not macOS, every one of [n]
    successive calls raises [MlxUnavailableError] naming the platform
    and logs one warning; the failure is never cached (the process
    state is unchanged after all [n] calls). *)
Theorem load_unsupported_every_call n (p : proc) (σ : Σ) :
  cached p = None ->
  let o := exec (repeat_prog n load_mlx_backend) (p, σ) in
  (exists σ', r_state o = (p, σ'))
  /\ r_res o = Ok (repeat (Err (MlxUnavailableError (platform_msg s) None)) n)
  /\ count_ev (is_log WARNING) (r_trace o) = n.
Proof.
  intros Hc. revert σ. induction n as [|n IH]; intros σ.
  - simpl. eauto.
  - rewrite exec_repeat_S. destruct (load_unsupported_run p σ Hc) as [σ1 ->].
    simpl. destruct (IH σ1) as ([σ2 Hst] & Hres & Hcnt).
    rewrite Hst, Hres. simpl. rewrite !count_ev_cons, Hcnt. simpl. eauto.
Qed.
End Unsupported.

Section Darwin.
Variable s : string.
Hypothesis Hplat : answers PlatformSystem (eq (Ok s)).
Hypothesis Hs : String.eqb (py_lower s) "darwin" = true.

Section Installed.
Variables gen utils : pymodule.
Hypothesis Hgen : answers (ImportModule GENERATE_MODULE) (eq (Ok gen)).
Hypothesis Hutils : answers (ImportModule UTILS_MODULE) (eq (Ok utils)).

Lemma load_first_run (p : proc) (σ : Σ) :
  cached p = None -> entry_points_present gen utils = true ->
  let b := mlx_namespace gen utils (next_obj p) in
  exists σ', exec load_mlx_backend (p, σ) =
    mk_run (mk_proc (Some b) (S (next_obj p)), σ')
      [Ev HasCached (Ok false); Ev (Ext PlatformSystem) (Ok s);
       Ev (Ext (ImportModule GENERATE_MODULE)) (Ok gen);
       Ev (Ext (ImportModule UTILS_MODULE)) (Ok utils);
       Ev NewNamespace (Ok (next_obj p)); Ev (SetCached b) (Ok tt);
       Ev GetCached (Ok b)]
      (Ok b).
Proof.
  intros Hc Hattrs. unfold entry_points_present in Hattrs.
  rewrite !andb_true_iff in Hattrs. destruct Hattrs as [[[H1 H2] H3] H4].
  destruct p as [c n]; simpl in Hc; subst. simpl.
  answer Hplat. subst. simpl. rewrite Hs. simpl.
  answer Hgen. subst. simpl. answer Hutils. subst. simpl.
  unfold getattr_module. rewrite H1, H2, H3, H4. simpl. eauto.
Qed.

(** C32: an installed MLX that lacks an entry point makes the call fail
    with the raw [AttributeError]: it is not wrapped in
    [MlxUnavailableError], no warning is logged, nothing is cached. *)
Theorem load_missing_entry_point (p : proc) (σ : Σ) :
  cached p = None -> has_attr utils "initialize_mlx" = false ->
  exists σ', exec load_mlx_backend (p, σ) =
    mk_run (p, σ')
      [Ev HasCached (Ok false); Ev (Ext PlatformSystem) (Ok s);
       Ev (Ext (ImportModule GENERATE_MODULE)) (Ok gen);
       Ev (Ext (ImportModule UTILS_MODULE)) (Ok utils)]
      (Err (AttributeError "initialize_mlx")).
Proof.
  intros Hc Hmiss. destruct p as [c n]; simpl in Hc; subst. simpl.
  answer Hplat. subst. simpl. rewrite Hs. simpl.
  answer Hgen. subst. simpl. answer Hutils. subst. simpl.
  unfold getattr_module. rewrite Hmiss. simpl. eauto.
Qed.

(** C19: on a supported host, the first call builds one namespace and
    caches it; that call and every later one return that same object
    (same identity), with no warning and no second build. *)
Theorem load_supported_same_object n (p : proc) (σ : Σ) :
  cached p = None -> entry_points_present gen utils = true ->
  let o := exec (repeat_prog (S n) load_mlx_backend) (p, σ) in
  r_res o = Ok (repeat (Ok (mlx_namespace gen utils (next_obj p))) (S n))
  /\ count_ev is_new_namespace (r_trace o) = 1
  /\ count_ev (is_log WARNING) (r_trace o) = 0.
Proof.
  intros Hc Hattrs. rewrite exec_repeat_S.
  destruct (load_first_run p σ Hc Hattrs) as [σ1 ->]. simpl.
  rewrite (load_cached_repeat _ _ _ (mlx_namespace gen utils (next_obj p))) by reflexivity.
  simpl.
  rewrite !count_ev_cons, !cached_trace_count by reflexivity. simpl. auto.
Qed.

End Installed.

(** C21: when an MLX module cannot be imported, the call raises
    [MlxUnavailableError] with the missing-dependency message and the
    [ImportError] as its cause, logs one warning, and caches nothing. *)
Theorem load_import_error (e : exn) (p : proc) (σ : Σ) :
  answers (ImportModule GENERATE_MODULE) (eq (Err e)) ->
  isinstance e CImportError = true -> cached p = None ->
  exists σ', exec load_mlx_backend (p, σ) =
    mk_run (p, σ')
      [Ev HasCached (Ok false); Ev (Ext PlatformSystem) (Ok s);
       Ev (Ext (ImportModule GENERATE_MODULE)) (Err e);
       Ev (Ext (LogMsg WARNING warning_msg None)) (Ok tt)]
      (Err (MlxUnavailableError missing_msg (Some e))).
Proof.
  intros Hgen He Hc. destruct p as [c n]; simpl in Hc; subst. simpl.
  answer Hplat. subst. simpl. rewrite Hs. simpl.
  answer Hgen. subst. destruct e; try discriminate He; simpl.
  all: answer (Hlog WARNING warning_msg None); subst; simpl; eauto.
Qed.
End Darwin.
End LoaderTheorems.

(** ** Witnesses *)

Section LoaderWitnesses.
Import Loader.

Lemma load_supported_same_object_witness :
  let o := @exec nat (host_oracle mac_host) _ (repeat_prog 3 load_mlx_backend) (mk_proc None 7, 0) in
  r_res o = Ok (repeat (Ok (mlx_namespace mlx_generate_module mlx_utils_module 7)) 3)
  /\ count_ev is_new_namespace (r_trace o) = 1
  /\ count_ev (is_log WARNING) (r_trace o) = 0.
Proof.
  eapply (load_supported_same_object (H := host_oracle mac_host)); repeat intro; reflexivity.
Defined.

Lemma load_unsupported_every_call_witness :
  let o := @exec nat (host_oracle linux_host) _ (repeat_prog 3 load_mlx_backend) (mk_proc None 0, 0) in
  (exists σ', r_state o = (mk_proc None 0, σ'))
  /\ r_res o = Ok (repeat (Err (MlxUnavailableError (platform_msg "Linux") None)) 3)
  /\ count_ev (is_log WARNING) (r_trace o) = 3.
Proof.
  eapply (load_unsupported_every_call (H := host_oracle linux_host)); repeat intro; reflexivity.
Defined.

Lemma load_import_error_witness :
  exists σ', @exec nat (host_oracle mac_host_no_mlx) _ load_mlx_backend (mk_proc None 0, 0) =
    mk_run (mk_proc None 0, σ')
      [Ev HasCached (Ok false); Ev (Ext PlatformSystem) (Ok "Darwin");
       Ev (Ext (ImportModule GENERATE_MODULE)) (Err (ModuleNotFoundError GENERATE_MODULE));
       Ev (Ext (LogMsg WARNING warning_msg None)) (Ok tt)]
      (Err (MlxUnavailableError missing_msg (Some (ModuleNotFoundError GENERATE_MODULE)))).
Proof.
  eapply (load_import_error (H := host_oracle mac_host_no_mlx)); repeat intro; reflexivity.
Defined.

Lemma load_missing_entry_point_witness :
  exists σ', @exec nat (host_oracle mac_host_old_mlx) _ load_mlx_backend (mk_proc None 0, 0) =
    mk_run (mk_proc None 0, σ')
      [Ev HasCached (Ok false); Ev (Ext PlatformSystem) (Ok "Darwin");
       Ev (Ext (ImportModule GENERATE_MODULE)) (Ok mlx_generate_module);
       Ev (Ext (ImportModule UTILS_MODULE))
          (Ok (mk_module UTILS_MODULE ["mlx_force_oom"]))]
      (Err (AttributeError "initialize_mlx")).
Proof.
  eapply (load_missing_entry_point (H := host_oracle mac_host_old_mlx)); repeat intro; reflexivity.
Defined.
End LoaderWitnesses.
