(* ===== verification/LoaderRace.v ===== *)
(** * Threads calling [load_mlx_backend] concurrently

    [load_mlx_backend] tests [hasattr(load_mlx_backend, "_cached")] and,
    when the attribute is missing, builds a backend and assigns it: a plain
    check-then-set (availability.py, lines 46-48).  Python threads may be
    switched between any two of these steps, so several threads can all see
    the attribute missing and all build.  This file runs any number of
    threads, each calling [load_mlx_backend], under the scheduler of
    [Schedule] with a switch allowed after every call ([thread_preempt]).

    - [load_threads_cache_read_ok]: whatever the interleaving (at any
      switching granularity), no thread's final read of [_cached] fails: a
      thread reads it only after seeing it set or setting it itself, and
      nothing ever deletes it.  The knowledge is tracked by the ghost monitor
      [cache_monitor].
    - [load_threads_backend_wf]: whatever the interleaving, every backend
      stored in or read from [_cached] is well formed ([backend_wf]).
    - [load_race_two_backends]: an interleaving of two threads on a
      supported host in which both build, the first thread returns the
      first namespace and the second thread (and every later caller) the
      second one: the backend is not resolved exactly once. *)

From Stdlib Require Import ZArith String List.
From stdpp Require Import base list relations.
From S2P Require Import Prelude PyBuiltins Types Effects Monitor Schedule Hosts Availability.

Local Open Scope py_scope.

(** Python threads can be switched after any call. *)
Definition thread_preempt : forall X, call X -> bool := fun _ _ => true.

(** ** What a thread knows of [_cached] *)

(** The thread learns that [_cached] is set when [hasattr] answers [True]
    or when it assigns the attribute itself. *)
Definition learns (ev : event) : bool :=
  match ev with
  | Ev c r =>
      match c in call X return result X -> bool with
      | HasCached => fun r => match r with Ok b => b | Err _ => false end
      | SetCached _ => fun _ => true
      | _ => fun _ => false
      end r
  end.

Definition is_get_cached (ev : event) : bool :=
  match ev with Ev GetCached _ => true | _ => false end.

(** A read of [_cached] that raised [AttributeError]. *)
Definition cache_read_failed (ev : event) : bool :=
  match ev with
  | Ev c r =>
      match c in call X return result X -> bool with
      | GetCached => fun r => match r with Ok _ => false | Err _ => true end
      | _ => fun _ => false
      end r
  end.

(** The monitor allows a read of [_cached] only to a thread that knows
    the attribute is set. *)
Definition cache_monitor : monitor := {|
  mstate := bool;
  mon_ok := fun known ev => negb (is_get_cached ev) || known;
  mon_next := fun known ev => known || learns ev;
|}.

(** ** The type of the cached singleton

    [_Backend] is bound to [SimpleNamespace] (line 13); the namespace of
    lines 35-40 binds each of its four attributes to the entry point of
    that name, [initialize_mlx] and [mlx_force_oom] from one module and
    [mlx_generate] and [warmup_inference] from another. *)
Definition backend_wf (b : Backend) : bool :=
  String.eqb (ref_attr (initialize_mlx b)) "initialize_mlx"
  && String.eqb (ref_attr (mlx_force_oom b)) "mlx_force_oom"
  && String.eqb (ref_attr (mlx_generate b)) "mlx_generate"
  && String.eqb (ref_attr (warmup_inference b)) "warmup_inference"
  && String.eqb (ref_module (initialize_mlx b)) (ref_module (mlx_force_oom b))
  && String.eqb (ref_module (mlx_generate b)) (ref_module (warmup_inference b)).

(** The backends an event stores in or reads from [_cached] are
    well formed. *)
Definition cache_value_wf (ev : event) : bool :=
  match ev with
  | Ev c r =>
      match c in call X return result X -> bool with
      | SetCached b => fun _ => backend_wf b
      | GetCached => fun r => match r with Ok b => backend_wf b | Err _ => true end
      | _ => fun _ => true
      end r
  end.

(** A thread may store only a well-formed backend. *)
Definition backend_monitor : monitor := {|
  mstate := unit;
  mon_ok := fun _ ev => match ev with Ev (SetCached b) _ => backend_wf b | _ => true end;
  mon_next := fun _ _ => tt;
|}.

(** Two threads: both test the attribute, both build, then the first
    thread assigns and reads before the second assigns and reads. *)
Definition race_schedule : list nat := [0; 1; 0; 1; 0; 1; 0; 1; 0; 1; 0; 0; 1; 1].

Section Race.
Context {Σ : Type} `{Oracle Σ}.

(** What a thread that knows the attribute is set may assume. *)
Definition cache_known (known : bool) (s : proc * Σ) : Prop :=
  known = true -> cached (fst s) <> None.

(** No call deletes [_cached]. *)
Lemma cache_known_stable known X (c : call X) (s : proc * Σ) :
  cache_known known s -> cache_known known (fst (step_call c s)).
Proof.
  unfold cache_known. destruct s as [[c0 n] σ]. intros Hk Hkn.
  destruct c; simpl in *; auto. destruct (oracle e σ); simpl; auto.
Qed.

Lemma cache_known_own known X (c : call X) (s : proc * Σ) :
  cache_known known s -> @mon_ok cache_monitor known (Ev c (snd (step_call c s))) = true ->
  cache_known (@mon_next cache_monitor known (Ev c (snd (step_call c s)))) (fst (step_call c s)).
Proof.
  unfold cache_known. destruct s as [[c0 n] σ]. intros Hk _.
  destruct c; simpl in *; try (destruct (oracle e σ); simpl in *); rewrite ?orb_false_r; auto.
  destruct c0; [done|]. by rewrite orb_false_r.
Qed.

Lemma cache_known_ev known X (c : call X) (s : proc * Σ) :
  cache_known known s -> @mon_ok cache_monitor known (Ev c (snd (step_call c s))) = true ->
  cache_read_failed (Ev c (snd (step_call c s))) = false.
Proof.
  unfold cache_known. destruct s as [[c0 n] σ]. intros Hk Hok.
  destruct c; simpl in *; try (destruct (oracle e σ); simpl in *); try done.
  destruct c0; [done|]. by destruct (Hk Hok).
Qed.

(** A thread starting [load_mlx_backend], knowing nothing, reads
    [_cached] only once it knows the attribute is set, on every path. *)
Lemma wp_load_mlx_backend :
  @wp cache_monitor _ false Loader.load_mlx_backend (fun _ _ => True) (fun _ _ => True).
Proof.
  unfold Loader.load_mlx_backend, Loader._build_backend, Loader.import_mlx_modules,
    Loader.getattr_module.
  wp_sym; done.
Qed.

(** The shared singleton holds nothing or a well-formed backend. *)
Definition cache_wf (s : proc * Σ) : Prop :=
  forall b, cached (fst s) = Some b -> backend_wf b = true.

Lemma cache_wf_step (m : mstate backend_monitor) X (c : call X) (s : proc * Σ) :
  cache_wf s -> mon_ok m (Ev c (snd (step_call c s))) = true ->
  cache_wf (fst (step_call c s)) /\ cache_value_wf (Ev c (snd (step_call c s))) = true.
Proof.
  unfold cache_wf. destruct s as [[c0 n] σ]. intros Hc Hok.
  destruct c; simpl in *; try (destruct (oracle e σ); simpl in * ); try (split; [exact Hc|reflexivity]).
  - split; [exact Hc|]. destruct c0 as [b|]; [exact (Hc b eq_refl)|reflexivity].
  - split; [|exact Hok]. intros b' [= <-]. exact Hok.
Qed.

(** [load_mlx_backend] stores only the namespace it builds, whose four
    attributes are read by name. *)
Lemma wp_load_backend_wf :
  @wp backend_monitor _ tt Loader.load_mlx_backend (fun _ _ => True) (fun _ _ => True).
Proof.
  unfold Loader.load_mlx_backend, Loader._build_backend, Loader.import_mlx_modules,
    Loader.getattr_module.
  wp_sym_by ltac:(idtac; cbv [backend_wf]; simpl; rewrite ?String.eqb_refl; reflexivity); done.
Qed.

(** C6: under every interleaving of any number [k] of threads that each
    call [load_mlx_backend], at any switching granularity and whatever the
    collaborators answer, no read of [load_mlx_backend._cached] raises
    [AttributeError]: a thread reads the attribute only after it has seen
    it set or has set it itself, and no call deletes it. *)
Theorem load_threads_cache_read_ok preempt k (s : proc * Σ) cf :
  reachable preempt (init_config (replicate k Loader.load_mlx_backend) s) cf ->
  Forall (fun iev => cache_read_failed (snd iev) = false) (gtrace cf).
Proof.
  intros Hr.
  assert (Hinit : thread_inv cache_monitor cache_known
                    (init_config (replicate k Loader.load_mlx_backend) s)).
  { intros i p Hi. apply lookup_replicate in Hi as [-> _]. exists false.
    split; [apply wp_load_mlx_backend | done]. }
  destruct (reachable_inv preempt cache_monitor cache_known (fun ev => cache_read_failed ev = false)
              cache_known_own cache_known_ev (fun m _ X c s' Hk _ _ => cache_known_stable m X c s' Hk)
              _ _ Hinit ltac:(constructor) Hr)
    as [_ HG].
  exact HG.
Qed.

(** C16: under every interleaving of any number [k] of threads that each
    call [load_mlx_backend], at any switching granularity and whatever the
    collaborators answer, from a process whose [_cached] is unset or well
    formed, every backend stored in [_cached] and every backend a read of
    it returns (the value [load_mlx_backend] returns) binds
    [initialize_mlx], [mlx_force_oom], [mlx_generate] and
    [warmup_inference] to the entry points of those names, the first two
    read from one module and the last two from one module. *)
Theorem load_threads_backend_wf preempt k (s : proc * Σ) cf :
  cache_wf s ->
  reachable preempt (init_config (replicate k Loader.load_mlx_backend) s) cf ->
  Forall (fun iev => cache_value_wf (snd iev) = true) (gtrace cf).
Proof.
  intros Hs Hr.
  assert (Hinit : thread_inv backend_monitor (fun _ => cache_wf)
                    (init_config (replicate k Loader.load_mlx_backend) s)).
  { intros i p Hi. apply lookup_replicate in Hi as [-> _]. exists tt.
    split; [apply wp_load_backend_wf | exact Hs]. }
  refine (proj2 (reachable_inv preempt backend_monitor (fun _ => cache_wf)
                   (fun ev => cache_value_wf ev = true)
                   (fun m X c s' Hc Hok => proj1 (cache_wf_step m X c s' Hc Hok))
                   (fun m X c s' Hc Hok => proj2 (cache_wf_step m X c s' Hc Hok))
                   (fun m m' X c s' _ Hc Hok => proj1 (cache_wf_step m' X c s' Hc Hok))
                   _ _ Hinit ltac:(constructor) Hr)).
Qed.

End Race.

(** C7: two threads calling [load_mlx_backend] for the first time on a
    macOS host with MLX installed can both find [_cached] missing and both
    build a backend.  Under [race_schedule] the first thread returns
    namespace 0, the second thread returns a distinct namespace 1, two
    namespaces are built, and the attribute ends holding namespace 1, so
    later callers get an object the first caller never saw; spec §5 asks
    concurrent first calls to resolve exactly once. *)
Theorem load_race_two_backends :
  let cf := @run_sched nat (host_oracle mac_host) _ thread_preempt race_schedule
              (init_config [Loader.load_mlx_backend; Loader.load_mlx_backend] init_state) in
  threads cf = [Ret (mlx_namespace mlx_generate_module mlx_utils_module 0);
                Ret (mlx_namespace mlx_generate_module mlx_utils_module 1)]
  /\ cached (fst (shared cf)) = Some (mlx_namespace mlx_generate_module mlx_utils_module 1)
  /\ count_ev is_new_namespace (map snd (gtrace cf)) = 2.
Proof. vm_compute. auto. Qed.

(** ** Witness *)

(** Three threads on the macOS host, switched after every call. *)
Lemma load_threads_cache_read_ok_witness :
  Forall (fun iev => cache_read_failed (snd iev) = false)
    (gtrace (@run_sched nat (host_oracle mac_host) _ thread_preempt
               [0; 1; 2; 0; 1; 2; 0; 1; 2; 0; 1; 2; 0; 1; 2; 2; 1; 0; 0; 1; 2]
               (init_config (replicate 3 Loader.load_mlx_backend) init_state))).
Proof.
  apply (@load_threads_cache_read_ok nat (host_oracle mac_host) thread_preempt 3 init_state).
  apply run_sched_reachable.
Defined.

(** The two threads of [race_schedule] on the macOS host. *)
Lemma load_threads_backend_wf_witness :
  @cache_wf nat init_state
  /\ Forall (fun iev => cache_value_wf (snd iev) = true)
       (gtrace (@run_sched nat (host_oracle mac_host) _ thread_preempt race_schedule
                  (init_config [Loader.load_mlx_backend; Loader.load_mlx_backend] init_state))).
Proof.
  split; [intros b Hb; discriminate Hb|].
  apply (@load_threads_backend_wf nat (host_oracle mac_host) thread_preempt 2 init_state);
    [intros b Hb; discriminate Hb | apply run_sched_reachable].
Defined.
