(* ===== verification/LoaderFailure.v ===== *)
(** * Failure is never cached, with concurrent callers

    Spec §4.1: only success is memoised; every call on an unsupported
    platform re-runs the resolution and re-raises.  With threads (spec §5)
    the same must hold whatever the interleaving.  On a host whose
    [platform.system().lower()] is not ["darwin"], [_build_backend] raises
    before it reaches [load_mlx_backend._cached = ...] (availability.py,
    lines 20-23 and 48), so no thread ever assigns the attribute.
    [load_threads_unsupported_never_cached] shows it for any number of
    threads at any switching granularity: no event of the global trace
    stores a backend, and every [hasattr] test finds the attribute missing.
    The ghost monitor [gate_monitor] lets a thread assign [_cached] only
    after [platform.system()] answered a name whose lower case is
    ["darwin"]. *)

From Stdlib Require Import ZArith String List Bool.
From stdpp Require Import base list relations.
From S2P Require Import Prelude PyBuiltins Types Effects Monitor Schedule Hosts Availability LoaderRace.

Local Open Scope py_scope.

(** [platform.system()] answered a name that passes the gate of line 20. *)
Definition darwin_answer (ev : event) : bool :=
  match ev with
  | Ev c r =>
      match c in call X return result X -> bool with
      | Ext e =>
          match e in ext X return result X -> bool with
          | PlatformSystem => fun r =>
              match r with Ok sys => String.eqb (py_lower sys) "darwin" | Err _ => false end
          | _ => fun _ => false
          end
      | _ => fun _ => false
      end r
  end.

Definition is_set_cached (ev : event) : bool :=
  match ev with Ev (SetCached _) _ => true | _ => false end.

(** The event leaves [_cached] unset: it assigns nothing, and a [hasattr]
    test answers [False]. *)
Definition cache_untouched (ev : event) : bool :=
  match ev with
  | Ev c r =>
      match c in call X return result X -> bool with
      | SetCached _ => fun _ => false
      | HasCached => fun r => match r with Ok b => negb b | Err _ => true end
      | _ => fun _ => true
      end r
  end.

Definition gate_monitor : monitor := {|
  mstate := bool;
  mon_ok := fun passed ev => negb (is_set_cached ev) || passed;
  mon_next := fun passed ev => passed || darwin_answer ev;
|}.

(** [load_mlx_backend] assigns [_cached] only past the platform gate. *)
Lemma wp_load_gate :
  @wp gate_monitor _ false Loader.load_mlx_backend (fun _ _ => True) (fun _ _ => True).
Proof.
  unfold Loader.load_mlx_backend, Loader._build_backend, Loader.import_mlx_modules,
    Loader.getattr_module.
  wp_sym_by ltac:(idtac; simpl; rewrite ?orb_false_r; first [reflexivity | apply negb_false_iff; assumption]);
    done.
Qed.

Section Unsupported.
Context {Σ : Type} `{Oracle Σ}.

Variable sys : string.
Hypothesis Hplat : answers PlatformSystem (eq (Ok sys)).
Hypothesis Hs : String.eqb (py_lower sys) "darwin" = false.

(** No thread has passed the gate and [_cached] is unset. *)
Definition gate_closed (passed : mstate gate_monitor) (s : proc * Σ) : Prop :=
  passed = false /\ cached (fst s) = None.

Lemma gate_closed_step m X (c : call X) s :
  gate_closed m s -> mon_ok m (Ev c (snd (step_call c s))) = true ->
  gate_closed (mon_next m (Ev c (snd (step_call c s)))) (fst (step_call c s))
  /\ cache_untouched (Ev c (snd (step_call c s))) = true.
Proof.
  intros [-> Hc] Hok. destruct s as [[c0 n] σ]. simpl in Hc. subst c0.
  destruct c as [X' e| | | |]; simpl in *; try discriminate Hok; try (split; [split|]; done).
  pose proof (Hplat σ) as Hp. destruct (oracle e σ) as [σ' r] eqn:E.
  destruct e; simpl; try (split; [split|]; done).
  rewrite E in Hp. simpl in Hp. subst r. simpl. rewrite Hs. split; [split|]; done.
Qed.

(** C17: on a host whose [platform.system().lower()] is not ["darwin"],
    under every interleaving of any number [k] of threads that each call
    [load_mlx_backend], at any switching granularity and whatever the
    other collaborators answer, no thread ever assigns
    [load_mlx_backend._cached] and every [hasattr] test finds it missing:
    the failure is never cached, and every call re-runs the resolution. *)
Theorem load_threads_unsupported_never_cached preempt k (p : proc) (σ : Σ) cf :
  cached p = None ->
  reachable preempt (init_config (replicate k Loader.load_mlx_backend) (p, σ)) cf ->
  Forall (fun iev => cache_untouched (snd iev) = true) (gtrace cf).
Proof.
  intros Hc Hr.
  assert (Hinit : thread_inv gate_monitor gate_closed
                    (init_config (replicate k Loader.load_mlx_backend) (p, σ))).
  { intros i q Hi. apply lookup_replicate in Hi as [-> _]. exists false.
    split; [apply wp_load_gate | split; [done | exact Hc]]. }
  refine (proj2 (reachable_inv preempt gate_monitor gate_closed
                   (fun ev => cache_untouched ev = true)
                   (fun m X c s Hm Hok => proj1 (gate_closed_step m X c s Hm Hok))
                   (fun m X c s Hm Hok => proj2 (gate_closed_step m X c s Hm Hok))
                   _ _ _ Hinit ltac:(constructor) Hr)).
  intros m m' X c s [-> Hm] Hm' Hok. split; [done|].
  exact (proj2 (proj1 (gate_closed_step m' X c s Hm' Hok))).
Qed.
End Unsupported.

(** ** Witness *)

(** Three threads on the Linux host, switched after every call. *)
Lemma load_threads_unsupported_never_cached_witness :
  Forall (fun iev => cache_untouched (snd iev) = true)
    (gtrace (@run_sched nat (host_oracle linux_host) _ thread_preempt
               [0; 1; 2; 0; 1; 2; 0; 1; 2; 0; 1; 2; 0; 1; 2]
               (init_config (replicate 3 Loader.load_mlx_backend) init_state))).
Proof.
  apply (@load_threads_unsupported_never_cached nat (host_oracle linux_host) "Linux"
           (fun σ => eq_refl) eq_refl thread_preempt 3 (mk_proc None 0) 0%nat); [reflexivity|].
  apply run_sched_reachable.
Defined.
