(* ===== verification/LoaderSpec.v ===== *)
(** * The loader refines an abstract memoisation machine

    Spec §4.1 describes [loadBackend] as a cache over a resolution attempt:
    when a handle is cached it is returned; otherwise the resolution runs,
    a success is stored and returned, a failure is returned and nothing is
    stored ("failure is never cached").  [spec_load] is that machine, one
    call at a time, driven by the outcome of the resolution; it also counts
    the warnings the code logs (one for an [MlxUnavailableError], none for
    any other failure).  [load_calls_refine_spec] shows that every run of
    [n] sequential calls of [load_mlx_backend], whatever the collaborators
    answer, is a run of the machine for some sequence of [n] resolution
    outcomes. *)

From Stdlib Require Import ZArith String List.
From stdpp Require Import base list.
From S2P Require Import Prelude PyBuiltins Types Effects Monitor Hosts Availability.

Local Open Scope py_scope.

(** ** The abstract machine *)

Definition spec_warnings (a : option Backend) (resolve : result Backend) : nat :=
  match a, resolve with
  | None, Err e => if isinstance e CMlxUnavailableError then 1 else 0
  | _, _ => 0
  end.

(** One call: the new cache, the result, the warnings logged. *)
Definition spec_load (a : option Backend) (resolve : result Backend)
    : option Backend * result Backend * nat :=
  match a with
  | Some h => (Some h, Ok h, 0)
  | None => match resolve with
            | Ok h => (Some h, Ok h, 0)
            | Err e => (None, Err e, spec_warnings None resolve)
            end
  end.

(** [n] calls, the [k]-th resolution (if one is needed) having outcome
    [rs !! k]. *)
Fixpoint spec_run (a : option Backend) (rs : list (result Backend))
    : option Backend * list (result Backend) * nat :=
  match rs with
  | [] => (a, [], 0)
  | r :: rs' =>
      let '(a1, o, w) := spec_load a r in
      let '(a2, os, w2) := spec_run a1 rs' in
      (a2, o :: os, w + w2)
  end.

(** ** The resolution attempt touches neither the cache nor the log *)

Definition is_cache_or_log (ev : event) : bool :=
  match ev with
  | Ev HasCached _ | Ev GetCached _ | Ev (SetCached _) _ | Ev (Ext (LogMsg _ _ _)) _ => true
  | _ => false
  end.

Definition resolve_monitor : monitor := {|
  mstate := unit;
  mon_ok := fun _ ev => negb (is_cache_or_log ev);
  mon_next := fun _ _ => tt;
|}.

Lemma wp_build_backend :
  @wp resolve_monitor _ tt Loader._build_backend (fun _ _ => True) (fun _ _ => True).
Proof.
  unfold Loader._build_backend, Loader.import_mlx_modules, Loader.getattr_module.
  wp_sym; done.
Qed.

Section Refinement.
Context {Σ : Type} `{Oracle Σ}.

Lemma build_keeps_cached (s : proc * Σ) :
  cached (fst (r_state (exec Loader._build_backend s))) = cached (fst s).
Proof.
  apply (@wp_exec_state resolve_monitor _ _ _ (fun s' => cached (fst s') = cached (fst s)) _ tt
           (fun _ _ => True) (fun _ _ => True)); [|apply wp_build_backend|done].
  intros m' X c [[c0 n] σ] Hc Hok. destruct c; simpl in *; try done.
  by destruct (oracle e σ).
Qed.

Lemma build_no_warning (s : proc * Σ) :
  count_ev (is_log WARNING) (r_trace (exec Loader._build_backend s)) = 0.
Proof.
  destruct (@wp_exec resolve_monitor _ _ _ Loader._build_backend tt _ _ s wp_build_backend)
    as (m' & Ht & _).
  apply (@mon_trace_count_forbidden resolve_monitor _ tt _ m'); [|exact Ht].
  intros m0 [X [X' e| | | |] r]; simpl; try done. destruct e; simpl; done.
Qed.

Hypothesis Hlog : logs_ok.

(** One call of [load_mlx_backend] is one step of [spec_load], driven by
    the outcome of [_build_backend] from the same state. *)
Lemma load_step_refines (p : proc) (σ : Σ) :
  let o := exec Loader.load_mlx_backend (p, σ) in
  spec_load (cached p) (r_res (exec Loader._build_backend (p, σ)))
  = (cached (fst (r_state o)), r_res o, count_ev (is_log WARNING) (r_trace o)).
Proof.
  destruct p as [[h|] n]; [by rewrite (load_cached_run _ σ h) |]. cbv zeta.
  unfold Loader.load_mlx_backend. rewrite exec_bind, exec_perform. unfold then_run.
  cbn [step_call cached r_res r_state r_trace].
  rewrite !exec_bind, exec_try_except, exec_bind.
  pose proof (build_keeps_cached (mk_proc None n, σ)) as Hc.
  pose proof (build_no_warning (mk_proc None n, σ)) as Hw.
  destruct (exec Loader._build_backend (mk_proc None n, σ)) as [[[c1 n1] σ1] t1 [b|e]];
    cbn [r_res r_state r_trace fst cached] in *; subst c1; unfold then_run;
    cbn [step_call cached r_res r_state r_trace exec fst]; simpl.
  - rewrite count_ev_cons, !count_ev_app, Hw. reflexivity.
  - unfold except_clause, no_handler. destruct e; simpl; try (rewrite count_ev_cons, Hw; reflexivity).
    pose proof (Hlog WARNING Loader.warning_msg None σ1) as Hl.
    destruct (oracle (LogMsg WARNING Loader.warning_msg None) σ1) as [σ2 r]. simpl in Hl. subst r.
    simpl. rewrite count_ev_cons, !count_ev_app, Hw. reflexivity.
Qed.
(** C5: every run of [n] successive calls of [load_mlx_backend],
    whatever the collaborators answer, is a run of the abstract
    memoisation machine [spec_run] for some sequence of [n] resolution
    outcomes: the same final cache, the same [n] results (a success is
    cached and returned by every later call; a failure is returned and
    never cached) and the same number of warnings (one per
    [MlxUnavailableError]). *)
Theorem load_calls_refine_spec n (p : proc) (σ : Σ) :
  exists rs, length rs = n /\
    let o := exec (repeat_prog n Loader.load_mlx_backend) (p, σ) in
    spec_run (cached p) rs
    = (cached (fst (r_state o)), match r_res o with Ok l => l | Err _ => [] end,
       count_ev (is_log WARNING) (r_trace o))
    /\ exists l, r_res o = Ok l.
Proof.
  revert p σ. induction n as [|n IH]; intros p σ; [exists []; simpl; eauto|].
  rewrite exec_repeat_S. cbv zeta.
  pose proof (load_step_refines p σ) as Hstep. cbv zeta in Hstep.
  destruct (exec Loader.load_mlx_backend (p, σ)) as [[p1 σ1] t1 r1]. simpl in Hstep |- *.
  destruct (IH p1 σ1) as (rs & Hlen & Hrun & l & Hl).
  exists (r_res (exec Loader._build_backend (p, σ)) :: rs). split; [simpl; lia|].
  simpl. rewrite Hstep, Hrun, Hl, count_ev_app. simpl. eauto.
Qed.
End Refinement.

(** ** Witness *)

Lemma load_calls_refine_spec_witness :
  exists rs, length rs = 3 /\
    let o := @exec nat (host_oracle mac_host) _ (repeat_prog 3 Loader.load_mlx_backend) init_state in
    spec_run (cached (fst init_state)) rs
    = (cached (fst (r_state o)), match r_res o with Ok l => l | Err _ => [] end,
       count_ev (is_log WARNING) (r_trace o))
    /\ exists l, r_res o = Ok l.
Proof.
  apply (@load_calls_refine_spec nat (host_oracle mac_host)). intros lvl msg x σ. reflexivity.
Defined.
