(* ===== verification/Profile.v ===== *)
(** * Metrics source adapter and memory profile ([utils/profile.py], lines 32-87)

    [get_metrics_async] routes on the platform: [macmon] on macOS, the
    [psutil] sampler [_collect_generic_metrics] (on a worker thread)
    elsewhere.  [get_memory_profile] reads [OVERRIDE_MEMORY_MB] and builds a
    [MemoryPerformanceProfile] with [from_psutil]. *)

From Stdlib Require Import QArith Lqa ZArith String List.
From stdpp Require Import base list decidable.
From S2P Require Import Prelude PyBuiltins Types Effects Hosts.

Local Open Scope string_scope.
Local Open Scope Q_scope.
Local Open Scope py_scope.

Module Profile.

(** Lines 51-56: [[sensor.current for readings in temps.values() for sensor
    in readings if sensor.current is not None]]. *)
Definition flat_temps (temps : list (string * list Psutil.shwtemp)) : list Q :=
  flat_map (fun group =>
              flat_map (fun sensor => match Psutil.current sensor with
                                      | Some v => [v]
                                      | None => []
                                      end) (snd group)) temps.

(** Line 57: [sum(flat_temps) / len(flat_temps) if flat_temps else 0.0]. *)
Definition avg_temp_of (flat : list Q) : Q :=
  match flat with
  | [] => 0%Q
  | _ => Qsum flat / Qlen flat
  end.

(** Line 47: [psutil.cpu_count(logical=True) or 0]. *)
Definition cpu_count_or_zero (k : option Z) : Z :=
  match k with
  | Some n => if Z.eqb n 0 then 0%Z else n
  | None => 0%Z
  end.

Definition _collect_generic_metrics : prog Metrics.Metrics :=
  cpu_percent <- ext_call CpuPercent ;;
  cnt <- ext_call CpuCount ;;
  let logical_cpus := cpu_count_or_zero cnt in
  avg_temp <- try_except
                (temps <- ext_call SensorsTemperatures ;;
                 Ret (avg_temp_of (flat_temps temps)))
                (except_clause [CNotImplementedError; CPsutilError]
                   (fun _ => Ret 0%Q) no_handler) ;;
  Ret {| Metrics.all_power := 0;
         Metrics.ane_power := 0;
         Metrics.cpu_power := 0;
         Metrics.ecpu_usage := (0%Z, 0);
         Metrics.gpu_power := 0;
         Metrics.gpu_ram_power := 0;
         Metrics.gpu_usage := (0%Z, 0);
         Metrics.pcpu_usage := (logical_cpus, cpu_percent);
         Metrics.ram_power := 0;
         Metrics.sys_power := 0;
         Metrics.temp := TempMetrics.mk avg_temp avg_temp;
         Metrics.timestamp := "" |}.

Definition get_metrics_async : prog (option Metrics.Metrics) :=
  sys <- ext_call PlatformSystem ;;
  let system := py_lower sys in
  if String.eqb system "darwin" then ext_call MacmonGetMetrics
  else m <- _collect_generic_metrics ;; Ret (Some m).

(** [MemoryPerformanceProfile.from_psutil] (exo's shared types, not under
    [src/]; modelled from spec §3): the override replaces the detected
    total. *)
Definition from_psutil (override_memory : option Z)
    : prog MemoryPerformanceProfile.MemoryPerformanceProfile :=
  vm <- ext_call VirtualMemory ;;
  sm <- ext_call SwapMemory ;;
  Ret {| MemoryPerformanceProfile.ram_total :=
           Memory.from_bytes (match override_memory with
                              | Some o => o
                              | None => Psutil.vm_total vm
                              end);
         MemoryPerformanceProfile.ram_available := Memory.from_bytes (Psutil.vm_available vm);
         MemoryPerformanceProfile.swap_total := Memory.from_bytes (Psutil.sw_total sm);
         MemoryPerformanceProfile.swap_available := Memory.from_bytes (Psutil.sw_free sm) |}.

Definition OVERRIDE_MEMORY_MB := "OVERRIDE_MEMORY_MB".

Definition int_error (v : string) : exn :=
  ValueError ("invalid literal for int() with base 10: '" ++ v ++ "'").

Definition get_memory_profile : prog MemoryPerformanceProfile.MemoryPerformanceProfile :=
  override_memory_env <- ext_call (GetEnv OVERRIDE_MEMORY_MB) ;;
  override_memory <-
    (match override_memory_env with
     | Some v =>
         if py_truthy_str v then
           match py_int v with
           | Some n => Ret (Some (Memory.in_bytes (Memory.from_mb n)))
           | None => Raise (int_error v)
           end
         else Ret None
     | None => Ret None
     end) ;;
  from_psutil override_memory.

End Profile.

(** The readings the comprehension keeps, stated without it: the present
    [current] values of all sensors of all groups, in order. *)
Definition present_readings (temps : list (string * list Psutil.shwtemp)) : list Q :=
  omap Psutil.current (concat (map snd temps)).

Lemma flat_temps_present temps : Profile.flat_temps temps = present_readings temps.
Proof.
  unfold present_readings. induction temps as [|[g rs] temps IH]; [done|].
  simpl. rewrite omap_app, <- IH. f_equal.
  induction rs as [|r rs IHrs]; [done|]. simpl. destruct (Psutil.current r); simpl; by f_equal.
Qed.

Section ProfileTheorems.
Context {Σ : Type} `{Oracle Σ}.
Import Profile.

Section Generic.
Variables (c : Q) (k : option Z).
Hypothesis Hcpu : answers CpuPercent (eq (Ok c)).
Hypothesis Hcnt : answers CpuCount (eq (Ok k)).

(** The record [_collect_generic_metrics] returns for temperature [t]. *)
Definition generic_metrics (t : Q) : Metrics.Metrics :=
  Metrics.mk 0 0 0 (0%Z, 0) 0 0 (0%Z, 0) (cpu_count_or_zero k, c) 0 0
             (TempMetrics.mk t t) "".

Definition sensor_outcome (rs : result (list (string * list Psutil.shwtemp)))
    : result Metrics.Metrics :=
  match rs with
  | Ok temps => Ok (generic_metrics (avg_temp_of (flat_temps temps)))
  | Err e => if existsb (isinstance e) [CNotImplementedError; CPsutilError]
             then Ok (generic_metrics 0) else Err e
  end.

(** The sampler's outcome is determined by what the sensor API answered. *)
Lemma collect_generic_res (s : proc * Σ) :
  exists σ', r_res (exec _collect_generic_metrics s) =
             sensor_outcome (snd (oracle SensorsTemperatures σ')).
Proof.
  destruct s as [p σ]. exec_auto.
  match goal with |- context [oracle SensorsTemperatures ?σ] =>
    exists σ; destruct (oracle SensorsTemperatures σ) as [σ' [temps|e]] end;
    simpl; [done|].
  destruct e; reflexivity.
Qed.
End Generic.
End ProfileTheorems.

Section ProfileClaims.
Context {Σ : Type} `{Oracle Σ}.
Import Profile.

Section Generic.
Variables (c : Q) (k : option Z).
Hypothesis Hcpu : answers CpuPercent (eq (Ok c)).
Hypothesis Hcnt : answers CpuCount (eq (Ok k)).

Lemma collect_generic_answer (s : proc * Σ) rs :
  answers SensorsTemperatures (eq rs) ->
  r_res (exec _collect_generic_metrics s) = sensor_outcome c k rs.
Proof.
  intros Hs. destruct (collect_generic_res c k Hcpu Hcnt s) as [σ' ->].
  by rewrite <- (Hs σ').
Qed.

(** C22: every sample of the generic path reports zero for every power
    field, [(0, 0.0)] for the E-CPU and GPU usages, an empty timestamp,
    the same value for both temperatures, and
    [(cpu_count() or 0, cpu_percent())] as the P-CPU usage. *)
Theorem collect_generic_fixed_fields (s : proc * Σ) (m : Metrics.Metrics) :
  r_res (exec _collect_generic_metrics s) = Ok m ->
  Metrics.all_power m = 0 /\ Metrics.ane_power m = 0 /\ Metrics.cpu_power m = 0
  /\ Metrics.gpu_power m = 0 /\ Metrics.gpu_ram_power m = 0
  /\ Metrics.ram_power m = 0 /\ Metrics.sys_power m = 0
  /\ Metrics.ecpu_usage m = (0%Z, 0) /\ Metrics.gpu_usage m = (0%Z, 0)
  /\ Metrics.pcpu_usage m = (cpu_count_or_zero k, c)
  /\ TempMetrics.cpu_temp_avg (Metrics.temp m) = TempMetrics.gpu_temp_avg (Metrics.temp m)
  /\ Metrics.timestamp m = "".
Proof.
  destruct (collect_generic_res c k Hcpu Hcnt s) as [σ' ->]. intros Hm.
  assert (exists t, m = generic_metrics c k t) as [t ->].
  { unfold sensor_outcome in Hm.
    destruct (snd (oracle SensorsTemperatures σ')) as [temps|e]; [invc Hm; eauto|].
    destruct (existsb _ _); [invc Hm; eauto | discriminate]. }
  repeat split.
Qed.

(** C23: when the sensor API raises [NotImplementedError] or
    [psutil.Error], or reports no present reading, the sample still
    succeeds with both temperatures [0.0]. *)
Theorem collect_generic_temp_zero rs (s : proc * Σ) :
  answers SensorsTemperatures (eq rs) ->
  rs = Err NotImplementedError \/ rs = Err PsutilError
  \/ (exists temps, rs = Ok temps /\ present_readings temps = []) ->
  exists m, r_res (exec _collect_generic_metrics s) = Ok m
    /\ TempMetrics.cpu_temp_avg (Metrics.temp m) = 0
    /\ TempMetrics.gpu_temp_avg (Metrics.temp m) = 0.
Proof.
  intros Hs Hrs. rewrite (collect_generic_answer s _ Hs).
  destruct Hrs as [-> | [-> | (temps & -> & Hnil)]]; simpl; eauto.
  rewrite flat_temps_present, Hnil. simpl. eauto.
Qed.

(** C31: any other exception of the sensor API (for instance the
    [AttributeError] of a [psutil] build without
    [sensors_temperatures]) escapes the sampler. *)
Theorem collect_generic_sensor_error_escapes e (s : proc * Σ) :
  answers SensorsTemperatures (eq (Err e)) ->
  isinstance e CNotImplementedError = false -> isinstance e CPsutilError = false ->
  r_res (exec _collect_generic_metrics s) = Err e.
Proof.
  intros Hs H1 H2. rewrite (collect_generic_answer s _ Hs).
  unfold sensor_outcome. cbn -[isinstance]. by rewrite H1, H2.
Qed.
End Generic.

(** C27: off macOS the adapter never yields [None]: it returns a sample
    or raises. *)
Theorem get_metrics_async_generic_not_none sys (s : proc * Σ) :
  answers PlatformSystem (eq (Ok sys)) -> String.eqb (py_lower sys) "darwin" = false ->
  r_res (exec get_metrics_async s) <> Ok None.
Proof.
  intros Hp Hd. destruct s as [p σ]. unfold get_metrics_async.
  rewrite exec_ext_call_bind. answer_auto. cbn beta iota zeta. rewrite Hd. cbn iota.
  rewrite exec_bind. unfold then_run. by destruct (r_res (exec _collect_generic_metrics _)).
Qed.
End ProfileClaims.

Section MemoryClaims.
Context {Σ : Type} `{Oracle Σ}.
Import Profile.
Variables (vm : Psutil.svmem) (sm : Psutil.sswap).
Hypothesis Hvm : answers VirtualMemory (eq (Ok vm)).
Hypothesis Hsm : answers SwapMemory (eq (Ok sm)).

(** C24: an [OVERRIDE_MEMORY_MB] that [int()] accepts as [n] replaces the
    detected total by [n] MiB, whatever the host reports; the other
    fields still come from [psutil]. *)
Theorem get_memory_profile_override v n (s : proc * Σ) :
  answers (GetEnv OVERRIDE_MEMORY_MB) (eq (Ok (Some v))) -> py_int v = Some n ->
  exists m, r_res (exec get_memory_profile s) = Ok m
    /\ MemoryPerformanceProfile.ram_total m = Memory.from_mb n
    /\ MemoryPerformanceProfile.ram_available m = Memory.from_bytes (Psutil.vm_available vm)
    /\ MemoryPerformanceProfile.swap_total m = Memory.from_bytes (Psutil.sw_total sm).
Proof.
  intros Henv Hn. destruct s as [p σ]. exec_auto.
  rewrite (py_int_truthy v n Hn), Hn. exec_auto. eauto.
Qed.

(** C25: with the variable unset or empty, the total is the one
    [psutil] detects. *)
Theorem get_memory_profile_no_override env (s : proc * Σ) :
  answers (GetEnv OVERRIDE_MEMORY_MB) (eq (Ok env)) -> env = None \/ env = Some "" ->
  exists m, r_res (exec get_memory_profile s) = Ok m
    /\ MemoryPerformanceProfile.ram_total m = Memory.from_bytes (Psutil.vm_total vm).
Proof.
  intros Henv Hnone. destruct s as [p σ].
  destruct Hnone as [-> | ->]; exec_auto; eauto.
Qed.

(** C26: [OVERRIDE_MEMORY_MB] is not range-checked: set to [str(n)] for
    an integer [n <= 0], it is accepted and the profile reports a total of
    [n] MiB, zero or negative bytes, while [ram_available] stays the value
    [psutil] detects; on a host with any memory available the reported
    total is then below the available memory. *)
Theorem get_memory_profile_override_unchecked n (s : proc * Σ) :
  answers (GetEnv OVERRIDE_MEMORY_MB) (eq (Ok (Some (py_str n)))) ->
  (n <= 0)%Z -> (0 < Psutil.vm_available vm)%Z ->
  exists m, r_res (exec get_memory_profile s) = Ok m
    /\ Memory.in_bytes (MemoryPerformanceProfile.ram_total m) = (n * 1048576)%Z
    /\ (Memory.in_bytes (MemoryPerformanceProfile.ram_total m)
        < Memory.in_bytes (MemoryPerformanceProfile.ram_available m))%Z.
Proof.
  intros Henv Hn Hav. destruct s as [p σ]. exec_auto.
  rewrite (py_int_truthy _ n (py_int_str n)), py_int_str. exec_auto.
  eexists; split; [reflexivity|]. simpl. lia.
Qed.
End MemoryClaims.

(** A non-empty [OVERRIDE_MEMORY_MB] that [int()] rejects raises
    [ValueError] before any memory reading. *)
Lemma get_memory_profile_bad_override {Σ} `{Oracle Σ} v (p : proc) (σ : Σ) :
  answers (GetEnv Profile.OVERRIDE_MEMORY_MB) (eq (Ok (Some v))) ->
  py_truthy_str v = true -> py_int v = None ->
  exists σ', exec Profile.get_memory_profile (p, σ) =
    mk_run (p, σ') [Ev (Ext (GetEnv Profile.OVERRIDE_MEMORY_MB)) (Ok (Some v))]
           (Err (Profile.int_error v)).
Proof. intros Henv Ht Hn. exec_auto. rewrite Ht, Hn. simpl. eauto. Qed.

(** The values of [OVERRIDE_MEMORY_MB] that [get_memory_profile] accepts:
    unset, empty, or a string [int()] parses. *)
Definition override_valid (env : option string) : bool :=
  match env with
  | None => true
  | Some v => negb (py_truthy_str v) || match py_int v with Some _ => true | None => false end
  end.

(** With an accepted override and [psutil] answering, the memory profile
    is read with exactly three effects and never raises. *)
Lemma get_memory_profile_ok {Σ} `{Oracle Σ} (s : proc * Σ) :
  answers (GetEnv Profile.OVERRIDE_MEMORY_MB)
    (fun r => exists env, r = Ok env /\ override_valid env = true) ->
  answers VirtualMemory (fun r => exists vm, r = Ok vm) ->
  answers SwapMemory (fun r => exists sm, r = Ok sm) ->
  exists s' env vm sm m, exec Profile.get_memory_profile s =
    mk_run s' [Ev (Ext (GetEnv Profile.OVERRIDE_MEMORY_MB)) (Ok env);
               Ev (Ext VirtualMemory) (Ok vm); Ev (Ext SwapMemory) (Ok sm)] (Ok m).
Proof.
  intros Henv Hvm Hsm. destruct s as [p σ]. unfold Profile.get_memory_profile.
  rewrite exec_ext_call_bind. answer Henv.
  match goal with Hx : exists _, _ |- _ => destruct Hx as (env & -> & Hv) end.
  destruct env as [v|]; simpl in Hv.
  - destruct (py_truthy_str v) eqn:T; simpl in Hv.
    + destruct (py_int v) eqn:Hn; [|discriminate]. simpl.
      answer_ex Hvm. simpl. answer_ex Hsm. simpl. eauto 10.
    + simpl. answer_ex Hvm. simpl. answer_ex Hsm. simpl. eauto 10.
  - simpl. answer_ex Hvm. simpl. answer_ex Hsm. simpl. eauto 10.
Qed.

(** On macOS the adapter is the [macmon] sampler: it returns (or raises)
    whatever [macmon] answers. *)
Lemma get_metrics_async_darwin {Σ} `{Oracle Σ} sys (p : proc) (σ : Σ) :
  answers PlatformSystem (eq (Ok sys)) -> String.eqb (py_lower sys) "darwin" = true ->
  exec Profile.get_metrics_async (p, σ) =
    let σ1 := fst (oracle PlatformSystem σ) in
    mk_run (p, fst (oracle MacmonGetMetrics σ1))
      [Ev (Ext PlatformSystem) (Ok sys);
       Ev (Ext MacmonGetMetrics) (snd (oracle MacmonGetMetrics σ1))]
      (snd (oracle MacmonGetMetrics σ1)).
Proof.
  intros Hp Hd. unfold Profile.get_metrics_async. rewrite exec_ext_call_bind.
  pose proof (Hp σ) as Hs. destruct (oracle PlatformSystem σ) as [σ1 r]; simpl in *; subst.
  cbn beta iota zeta. rewrite Hd. simpl.
  destruct (oracle MacmonGetMetrics σ1) as [σ2 [x|e]]; reflexivity.
Qed.

(** Off macOS the adapter returns the generic sample, or its exception. *)
Lemma get_metrics_async_generic {Σ} `{Oracle Σ} sys (s : proc * Σ) :
  answers PlatformSystem (eq (Ok sys)) -> String.eqb (py_lower sys) "darwin" = false ->
  exists s1, r_res (exec Profile.get_metrics_async s) =
    match r_res (exec Profile._collect_generic_metrics s1) with
    | Ok m => Ok (Some m)
    | Err e => Err e
    end.
Proof.
  intros Hp Hd. destruct s as [p σ]. unfold Profile.get_metrics_async.
  rewrite exec_ext_call_bind. answer_auto. cbn beta iota zeta. rewrite Hd. cbn iota.
  rewrite exec_bind. unfold then_run.
  match goal with |- context [exec Profile._collect_generic_metrics ?s] =>
    exists s; by destruct (r_res (exec Profile._collect_generic_metrics s)) end.
Qed.

(** ** Witnesses *)

Section ProfileWitnesses.
Import Profile.

Lemma collect_generic_fixed_fields_witness :
  let m := generic_metrics 25 (Some 8%Z) (avg_temp_of (flat_temps (h_sensors_ok linux_host))) in
  r_res (@exec nat (host_oracle linux_host) _ _collect_generic_metrics init_state) = Ok m
  /\ Metrics.pcpu_usage m = (8%Z, 25) /\ Metrics.sys_power m = 0
  /\ Metrics.timestamp m = "".
Proof.
  assert (E : r_res (@exec nat (host_oracle linux_host) _ _collect_generic_metrics init_state)
              = Ok (generic_metrics 25 (Some 8%Z) (avg_temp_of (flat_temps (h_sensors_ok linux_host)))))
    by (vm_compute; reflexivity).
  destruct (@collect_generic_fixed_fields nat (host_oracle linux_host) 25 (Some 8%Z)
              (fun _ => eq_refl) (fun _ => eq_refl) init_state _ E)
    as (_ & _ & _ & _ & _ & _ & Hsys & _ & _ & Hp & _ & Ht).
  split; [exact E|]. split; [exact Hp|]. split; [exact Hsys | exact Ht].
Defined.

Lemma collect_generic_temp_zero_witness :
  exists m, r_res (@exec nat (host_oracle (linux_host_with None)) _ _collect_generic_metrics init_state) = Ok m
    /\ TempMetrics.cpu_temp_avg (Metrics.temp m) = 0
    /\ TempMetrics.gpu_temp_avg (Metrics.temp m) = 0.
Proof.
  apply (@collect_generic_temp_zero nat (host_oracle (linux_host_with None)) 25 (Some 8%Z)
           (fun _ => eq_refl) (fun _ => eq_refl) (Ok [])).
  - intros σ. reflexivity.
  - right; right. exists []. split; reflexivity.
Defined.

Lemma collect_generic_sensor_error_escapes_witness :
  r_res (@exec nat (host_oracle windows_host) _ _collect_generic_metrics init_state)
  = Err (AttributeError "sensors_temperatures").
Proof.
  apply (@collect_generic_sensor_error_escapes nat (host_oracle windows_host) 5 None
           (fun _ => eq_refl) (fun _ => eq_refl)); [intros σ|..]; reflexivity.
Defined.

Lemma get_metrics_async_generic_not_none_witness :
  r_res (@exec nat (host_oracle linux_host) _ get_metrics_async init_state) <> Ok None.
Proof.
  apply (@get_metrics_async_generic_not_none nat (host_oracle linux_host) "Linux");
    [intros σ|]; reflexivity.
Defined.

Lemma get_memory_profile_override_witness :
  exists m, r_res (@exec nat (host_oracle (linux_host_with (Some "4096"))) _
                     get_memory_profile init_state) = Ok m
    /\ MemoryPerformanceProfile.ram_total m = Memory.from_mb 4096
    /\ MemoryPerformanceProfile.ram_available m = Memory.from_bytes 8589934592
    /\ MemoryPerformanceProfile.swap_total m = Memory.from_bytes 0.
Proof.
  apply (@get_memory_profile_override nat (host_oracle (linux_host_with (Some "4096")))
           (Psutil.mk_svmem 17179869184 8589934592) (Psutil.mk_sswap 0 0)
           (fun _ => eq_refl) (fun _ => eq_refl) "4096"); [intros σ|]; reflexivity.
Defined.

(** [OVERRIDE_MEMORY_MB=-1] on a Linux host with 8 GiB available: the
    profile reports a total of -1 MiB. *)
Lemma get_memory_profile_override_unchecked_witness :
  (-1 <= 0)%Z /\ (0 < 8589934592)%Z
  /\ exists m, r_res (@exec nat (host_oracle (linux_host_with (Some "-1"))) _
                      get_memory_profile init_state) = Ok m
    /\ Memory.in_bytes (MemoryPerformanceProfile.ram_total m) = (-1 * 1048576)%Z
    /\ (Memory.in_bytes (MemoryPerformanceProfile.ram_total m)
        < Memory.in_bytes (MemoryPerformanceProfile.ram_available m))%Z.
Proof.
  split; [lia|]. split; [lia|].
  apply (@get_memory_profile_override_unchecked nat (host_oracle (linux_host_with (Some "-1")))
           (Psutil.mk_svmem 17179869184 8589934592) (Psutil.mk_sswap 0 0)
           (fun _ => eq_refl) (fun _ => eq_refl) (-1)); [intros σ; reflexivity | lia | simpl; lia].
Defined.

Lemma get_memory_profile_no_override_witness :
  exists m, r_res (@exec nat (host_oracle (linux_host_with (Some ""))) _
                     get_memory_profile init_state) = Ok m
    /\ MemoryPerformanceProfile.ram_total m = Memory.from_bytes 17179869184.
Proof.
  apply (@get_memory_profile_no_override nat (host_oracle (linux_host_with (Some "")))
           (Psutil.mk_svmem 17179869184 8589934592) (Psutil.mk_sswap 0 0)
           (fun _ => eq_refl) (fun _ => eq_refl) (Some "")).
  - intros σ. reflexivity.
  - right. reflexivity.
Defined.
End ProfileWitnesses.
