(* ===== verification/Polling.v ===== *)
(** * The polling engine ([utils/profile.py], lines 90-154)

    [start_polling_memory_metrics] and [start_polling_node_metrics] are
    [while True] loops whose body is a [try/except/finally]: the body's
    work, the recoverable faults it logs, and an [anyio.sleep] in the
    [finally].  A body evaluates to [Continue] when it falls through and to
    [Return] when it executes [return]; [while_true n body] runs [n]
    iterations and ends in [Running] when the loop is still looping. *)

From Stdlib Require Import QArith Lqa ZArith String List.
From stdpp Require Import base list decidable.
From S2P Require Import Prelude PyBuiltins Types Effects Hosts Profile.

Local Open Scope Q_scope.
Local Open Scope py_scope.

Module Polling.

Inductive ctl := Continue | Return.
Inductive status := Running | Stopped.

(** [while True: body], unrolled [n] times. *)
Fixpoint while_true (n : nat) (body : prog ctl) : prog status :=
  match n with
  | O => Ret Running
  | S n' => c <- body ;;
            match c with
            | Continue => while_true n' body
            | Return => Ret Stopped
            end
  end.

Definition memory_error_msg := "Memory Monitor encountered error"%string.
Definition timeout_msg :=
  "[resource_monitor] Operation timed out after 30s, skipping this cycle."%string.
Definition resource_error_msg := "Resource Monitor encountered error"%string.

(** Lines 101-108. The sink [callback] is the caller's coroutine: its
    behaviour is the oracle's answer to [MemSink].  [memory_try_block] is
    the [try] block, lines 103-104. *)
Definition memory_try_block : prog ctl :=
  mem <- Profile.get_memory_profile ;;
  ext_call (MemSink mem) ;;
  Ret Continue.

Definition memory_loop_body (poll_interval_s : Q) : prog ctl :=
  try_finally
    (try_except
       memory_try_block
       (except_clause [CMacMonError]
          (fun e => ext_call (LogMsg ERROR memory_error_msg (Some e)) ;; Ret Continue)
          no_handler))
    (ext_call (Sleep poll_interval_s)).

Definition start_polling_memory_metrics (n : nat) (poll_interval_s : Q) : prog status :=
  while_true n (memory_loop_body poll_interval_s).

(** Lines 136-143. *)
Definition system_profile (metrics : Metrics.Metrics)
    : SystemPerformanceProfile.SystemPerformanceProfile :=
  {| SystemPerformanceProfile.gpu_usage := snd (Metrics.gpu_usage metrics);
     SystemPerformanceProfile.temp := TempMetrics.gpu_temp_avg (Metrics.temp metrics);
     SystemPerformanceProfile.sys_power := Metrics.sys_power metrics;
     SystemPerformanceProfile.pcpu_usage := snd (Metrics.pcpu_usage metrics);
     SystemPerformanceProfile.ecpu_usage := snd (Metrics.ecpu_usage metrics);
     SystemPerformanceProfile.ane_power := Metrics.ane_power metrics |}.

(** Lines 117-145: the [try] block of the node loop. *)
Definition node_try_block : prog ctl :=
  metrics <- Profile.get_metrics_async ;;
  match metrics with
  | None => Ret Return
  | Some metrics =>
      network_interfaces <- ext_call GetNetworkInterfaces ;;
      mc <- ext_call GetModelAndChip ;;
      let '(model_id, chip_id) := mc in
      friendly_name <- ext_call GetFriendlyName ;;
      memory_profile <- Profile.get_memory_profile ;;
      ext_call (NodeSink
        {| NodePerformanceProfile.model_id := model_id;
           NodePerformanceProfile.chip_id := chip_id;
           NodePerformanceProfile.friendly_name := friendly_name;
           NodePerformanceProfile.network_interfaces := network_interfaces;
           NodePerformanceProfile.memory := memory_profile;
           NodePerformanceProfile.system := system_profile metrics |}) ;;
      Ret Continue
  end.

(** Lines 147-152: the two [except] clauses of the node loop. *)
Definition node_handler : handler ctl :=
  except_clause [CTimeoutError]
    (fun _ => ext_call (LogMsg WARNING timeout_msg None) ;; Ret Continue)
    (except_clause [CMacMonError]
       (fun e => ext_call (LogMsg ERROR resource_error_msg (Some e)) ;; Ret Continue)
       no_handler).

(** Lines 115-154. *)
Definition node_loop_body (poll_interval_s : Q) : prog ctl :=
  try_finally (try_except node_try_block node_handler) (ext_call (Sleep poll_interval_s)).

Definition start_polling_node_metrics (n : nat) : prog status :=
  let poll_interval_s := 1 in
  while_true n (node_loop_body poll_interval_s).

End Polling.

Section LoopLemmas.
Context {Σ : Type} `{Oracle Σ}.
Import Polling.

Lemma exec_while_true_S n body (s : proc * Σ) :
  exec (while_true (S n) body) s =
    let o := exec body s in
    match r_res o with
    | Ok Continue =>
        let o2 := exec (while_true n body) (r_state o) in
        mk_run (r_state o2) (r_trace o ++ r_trace o2) (r_res o2)
    | Ok Return => mk_run (r_state o) (r_trace o) (Ok Stopped)
    | Err e => mk_run (r_state o) (r_trace o) (Err e)
    end.
Proof.
  simpl while_true. rewrite exec_bind. unfold then_run.
  destruct (r_res (exec body s)) as [[|]|e]; simpl; by rewrite ?app_nil_r.
Qed.

(** A body under [finally: await anyio.sleep(d)]: the sleep is the last
    event, and it decides the outcome only when it raises. *)
Lemma exec_finally_sleep {A} (q : prog A) d (s : proc * Σ) :
  exists s1 r, exec (try_finally q (ext_call (Sleep d))) s =
    mk_run s1 (r_trace (exec q s) ++ [Ev (Ext (Sleep d)) r])
           (match r with Ok _ => r_res (exec q s) | Err e => Err e end).
Proof.
  rewrite exec_try_finally. cbn zeta. destruct (r_state (exec q s)) as [p σ].
  simpl. destruct (oracle (Sleep d) σ) as [σ1 [u|e]]; simpl;
    [exists (p, σ1), (Ok u) | exists (p, σ1), (Err e)]; reflexivity.
Qed.

Lemma exec_finally_sleep_ok {A} (q : prog A) d (s : proc * Σ) :
  answers (Sleep d) (eq (Ok tt)) ->
  exists s1, exec (try_finally q (ext_call (Sleep d))) s =
    mk_run s1 (r_trace (exec q s) ++ [Ev (Ext (Sleep d)) (Ok tt)]) (r_res (exec q s)).
Proof.
  intros Hs. rewrite exec_try_finally. cbn zeta. destruct (r_state (exec q s)) as [p σ].
  simpl. pose proof (Hs σ) as Hσ. destruct (oracle (Sleep d) σ) as [σ1 r].
  simpl in Hσ. subst. simpl. eauto.
Qed.

(** A tick whose [try] block returns, and whose sleep returns. *)
Lemma exec_tick_ok {A} (q : prog A) (hd : handler A) d (s s1 : proc * Σ) t a :
  answers (Sleep d) (eq (Ok tt)) -> exec q s = mk_run s1 t (Ok a) ->
  exists s2, exec (try_finally (try_except q hd) (ext_call (Sleep d))) s =
             mk_run s2 (t ++ [Ev (Ext (Sleep d)) (Ok tt)]) (Ok a).
Proof.
  intros Hs E. rewrite exec_try_finally, exec_try_except, E. destruct s1 as [p σ].
  simpl. pose proof (Hs σ) as Hσ. destruct (oracle (Sleep d) σ) as [σ1 r].
  simpl in Hσ. subst. simpl. eauto.
Qed.

(** A tick whose [try] block raises an exception an [except] clause
    handles; the handler returns and the sleep returns. *)
Lemma exec_tick_caught {A} (q : prog A) (hd : handler A) h d (s s1 s2 : proc * Σ) t t2 e a :
  answers (Sleep d) (eq (Ok tt)) -> exec q s = mk_run s1 t (Err e) -> hd e = Some h ->
  exec h s1 = mk_run s2 t2 (Ok a) ->
  exists s3, exec (try_finally (try_except q hd) (ext_call (Sleep d))) s =
             mk_run s3 (t ++ t2 ++ [Ev (Ext (Sleep d)) (Ok tt)]) (Ok a).
Proof.
  intros Hs E Hh E2. rewrite exec_try_finally, exec_try_except, E. simpl.
  rewrite Hh, E2. destruct s2 as [p σ]. simpl.
  pose proof (Hs σ) as Hσ. destruct (oracle (Sleep d) σ) as [σ1 r].
  simpl in Hσ. subst. simpl. rewrite <- app_assoc. eauto.
Qed.

(** A tick whose [try] block raises an exception that a clause logs,
    the logger and the sleep returning. *)
Lemma exec_tick_logged {A} (q : prog A) (hd : handler A) lvl msg x d (s s1 : proc * Σ) t e a :
  logs_ok -> answers (Sleep d) (eq (Ok tt)) -> exec q s = mk_run s1 t (Err e) ->
  hd e = Some (ext_call (LogMsg lvl msg x) ;; Ret a) ->
  exists s3, exec (try_finally (try_except q hd) (ext_call (Sleep d))) s =
             mk_run s3 (t ++ [Ev (Ext (LogMsg lvl msg x)) (Ok tt); Ev (Ext (Sleep d)) (Ok tt)]) (Ok a).
Proof.
  intros Hlog Hs E Hh. destruct s1 as [p σ].
  pose proof (Hlog lvl msg x σ) as Hl. destruct (oracle (LogMsg lvl msg x) σ) as [σ2 r] eqn:El.
  simpl in Hl. subst r.
  edestruct (exec_tick_caught q hd _ d s (p, σ) (p, σ2) t [Ev (Ext (LogMsg lvl msg x)) (Ok tt)]
               e a Hs E Hh) as [s3 ->];
    [simpl; rewrite El; reflexivity | eauto].
Qed.

(** A tick whose [try] block raises an exception no clause handles: after
    the sleep, the exception escapes the tick. *)
Lemma exec_tick_uncaught {A} (q : prog A) (hd : handler A) d (s : proc * Σ) e :
  answers (Sleep d) (eq (Ok tt)) -> r_res (exec q s) = Err e -> hd e = None ->
  r_res (exec (try_finally (try_except q hd) (ext_call (Sleep d))) s) = Err e.
Proof.
  intros Hs E Hh. rewrite exec_try_finally, exec_try_except, E, Hh. cbn zeta.
  destruct (r_state (exec q s)) as [p σ]. simpl.
  pose proof (Hs σ) as Hσ. destruct (oracle (Sleep d) σ) as [σ1 r].
  simpl in Hσ. by subst.
Qed.
End LoopLemmas.

(** ** The memory loop *)

(** The sink fault the memory loop logs, as the log event it produces. *)
Definition mem_fault_log (r : result unit) : list event :=
  match r with
  | Ok _ => []
  | Err e => [Ev (Ext (LogMsg ERROR Polling.memory_error_msg (Some e))) (Ok tt)]
  end.

(** The abstract specification of one tick of the memory loop: read the
    override and the memory, call the sink, log the sink's [MacMonError] if
    it raised one, sleep [d]. *)
Definition mem_tick_spec (d : Q) (t : list event) : Prop :=
  exists env vm sm m r,
    (r = Ok tt \/ r = Err MacMonError)
    /\ t = [Ev (Ext (GetEnv Profile.OVERRIDE_MEMORY_MB)) (Ok env);
            Ev (Ext VirtualMemory) (Ok vm); Ev (Ext SwapMemory) (Ok sm);
            Ev (Ext (MemSink m)) r]
           ++ mem_fault_log r ++ [Ev (Ext (Sleep d)) (Ok tt)].

Lemma mem_tick_spec_counts d t :
  mem_tick_spec d t ->
  count_ev is_sleep t = 1%nat /\ count_ev is_mem_sink t = 1%nat
  /\ count_ev (is_log ERROR) t = count_ev is_sink_fault t.
Proof.
  intros (env & vm & sm & m & r & [-> | ->] & ->); simpl; auto.
Qed.

Lemma mem_ticks_counts d (ticks : list (list event)) :
  Forall (mem_tick_spec d) ticks ->
  count_ev is_mem_sink (concat ticks) = length ticks
  /\ count_ev is_sleep (concat ticks) = length ticks
  /\ count_ev (is_log ERROR) (concat ticks) = count_ev is_sink_fault (concat ticks).
Proof.
  intros Hall.
  assert (Hc : Forall (fun t => count_ev is_sleep t = 1%nat /\ count_ev is_mem_sink t = 1%nat
                 /\ count_ev (is_log ERROR) t = count_ev is_sink_fault t) ticks).
  { exact (Forall_impl _ (mem_tick_spec_counts d) Hall). }
  destruct (Forall_and_inv _ _ Hc) as [Hsl Hc2]. destruct (Forall_and_inv _ _ Hc2) as [Hsk Hlg].
  rewrite (count_ev_concat_const _ 1%nat _ Hsk), (count_ev_concat_const _ 1%nat _ Hsl).
  split; [lia|]. split; [lia|]. by apply count_ev_concat_eq.
Qed.

Section MemoryLoop.
Context {Σ : Type} `{Oracle Σ}.
Import Polling.

Variable d : Q.
Hypothesis Henv : answers (GetEnv Profile.OVERRIDE_MEMORY_MB)
                    (fun r => exists env, r = Ok env /\ Profile.override_valid env = true).
Hypothesis Hvm : answers VirtualMemory (fun r => exists vm, r = Ok vm).
Hypothesis Hsm : answers SwapMemory (fun r => exists sm, r = Ok sm).
Hypothesis Hsink : forall m, answers (MemSink m) (fun r => r = Ok tt \/ r = Err MacMonError).
Hypothesis Hsleep : answers (Sleep d) (eq (Ok tt)).
Hypothesis Hlog : logs_ok.

Lemma memory_tick (s : proc * Σ) :
  exists s' t, exec (memory_loop_body d) s = mk_run s' t (Ok Continue) /\ mem_tick_spec d t.
Proof.
  unfold memory_loop_body, memory_try_block. rewrite exec_try_finally, exec_try_except, exec_bind.
  destruct (Profile.get_memory_profile_ok s Henv Hvm Hsm)
    as ([p σ] & env & vm & sm & m & ->).
  unfold then_run. simpl. answer (Hsink m).
  match goal with Hx : _ \/ _ |- _ => destruct Hx as [-> | ->] end; simpl.
  - answer_auto. simpl. do 2 eexists. split; [reflexivity|].
    exists env, vm, sm, m, (Ok tt). auto.
  - answer (Hlog ERROR memory_error_msg (Some MacMonError)). subst. simpl.
    answer_auto. simpl. do 2 eexists. split; [reflexivity|].
    exists env, vm, sm, m, (Err MacMonError). auto.
Qed.

Lemma memory_loop_ticks n (s : proc * Σ) :
  exists s' ticks,
    exec (start_polling_memory_metrics n d) s = mk_run s' (concat ticks) (Ok Running)
    /\ length ticks = n /\ Forall (mem_tick_spec d) ticks.
Proof.
  revert s. induction n as [|n IH]; intros s.
  - exists s, []. auto.
  - unfold start_polling_memory_metrics. rewrite exec_while_true_S.
    destruct (memory_tick s) as (s1 & t & -> & Ht). simpl.
    destruct (IH s1) as (s2 & ticks & E & Hlen & Hall).
    unfold start_polling_memory_metrics in E. rewrite E. simpl.
    exists s2, (t :: ticks). simpl. auto.
Qed.

(** C1: while faults are [MacMonError]s and the override is accepted,
    the memory loop never stops.  After any number [n] of iterations it
    is still running; its trace is [n] ticks, each as [mem_tick_spec]
    describes (read, sink, log of the fault if any, sleep); so the sink
    was called [n] times, the loop slept [n] times, and each sink fault
    was logged once. *)
Theorem memory_loop_never_stops n (s : proc * Σ) :
  exists s' ticks,
    exec (start_polling_memory_metrics n d) s = mk_run s' (concat ticks) (Ok Running)
    /\ length ticks = n /\ Forall (mem_tick_spec d) ticks
    /\ count_ev is_mem_sink (concat ticks) = n
    /\ count_ev is_sleep (concat ticks) = n
    /\ count_ev (is_log ERROR) (concat ticks) = count_ev is_sink_fault (concat ticks).
Proof.
  destruct (memory_loop_ticks n s) as (s' & ticks & E & Hlen & Hall).
  destruct (mem_ticks_counts d ticks Hall) as (Hsk & Hsl & Hlg).
  exists s', ticks. rewrite Hsk, Hsl, Hlen. auto 10.
Qed.
End MemoryLoop.

(** ** The node loop *)

Definition node_profile (mc : string * string) (fname : string)
    (ifs : list NetworkInterfaceInfo.NetworkInterfaceInfo)
    (mp : MemoryPerformanceProfile.MemoryPerformanceProfile) (m : Metrics.Metrics)
    : NodePerformanceProfile.NodePerformanceProfile :=
  NodePerformanceProfile.mk (fst mc) (snd mc) fname ifs mp (Polling.system_profile m).

Section NodeLoop.
Context {Σ : Type} {O : Oracle Σ}.
Import Polling.

Variables (sys : string) (ifs : list NetworkInterfaceInfo.NetworkInterfaceInfo)
          (mid cid : string) (fname : string).
Hypothesis Hplat : answers PlatformSystem (eq (Ok sys)).
Hypothesis Hdarwin : String.eqb (py_lower sys) "darwin" = true.
Hypothesis Hnet : answers GetNetworkInterfaces (eq (Ok ifs)).
Hypothesis Hmc : answers GetModelAndChip (eq (Ok (mid, cid))).
Hypothesis Hfn : answers GetFriendlyName (eq (Ok fname)).
Hypothesis Henv : answers (GetEnv Profile.OVERRIDE_MEMORY_MB)
                    (fun r => exists env, r = Ok env /\ Profile.override_valid env = true).
Hypothesis Hvm : answers VirtualMemory (fun r => exists vm, r = Ok vm).
Hypothesis Hsm : answers SwapMemory (fun r => exists sm, r = Ok sm).
Hypothesis Hsink : forall np, answers (NodeSink np) (eq (Ok tt)).
Hypothesis Hsleep : answers (Sleep 1) (eq (Ok tt)).

Lemma node_try_emit (p : proc) (σ : Σ) (m : Metrics.Metrics) :
  snd (oracle MacmonGetMetrics (fst (oracle PlatformSystem σ))) = Ok (Some m) ->
  exists s' env vm sm mp, exec node_try_block (p, σ) =
    mk_run s'
      [Ev (Ext PlatformSystem) (Ok sys); Ev (Ext MacmonGetMetrics) (Ok (Some m));
       Ev (Ext GetNetworkInterfaces) (Ok ifs); Ev (Ext GetModelAndChip) (Ok (mid, cid));
       Ev (Ext GetFriendlyName) (Ok fname);
       Ev (Ext (GetEnv Profile.OVERRIDE_MEMORY_MB)) (Ok env);
       Ev (Ext VirtualMemory) (Ok vm); Ev (Ext SwapMemory) (Ok sm);
       Ev (Ext (NodeSink (node_profile (mid, cid) fname ifs mp m))) (Ok tt)]
      (Ok Continue).
Proof.
  intros Hm. unfold node_try_block.
  rewrite exec_bind, (Profile.get_metrics_async_darwin sys p σ Hplat Hdarwin).
  cbn zeta. rewrite Hm. unfold then_run. cbn [r_res r_state r_trace bind].
  set (σ2 := fst (oracle MacmonGetMetrics (fst (oracle PlatformSystem σ)))).
  do 3 step_ext. rewrite exec_bind.
  match goal with |- context [exec Profile.get_memory_profile ?s] =>
    destruct (Profile.get_memory_profile_ok s Henv Hvm Hsm)
      as ([p6 σ6] & env & vm & sm & mp & ->) end.
  unfold then_run. cbn [r_res r_state r_trace bind].
  rewrite exec_ext_call_bind. answer (Hsink (node_profile (mid, cid) fname ifs mp m)).
  subst. simpl.
  do 5 eexists. reflexivity.
Qed.

(** C12: a tick whose [macmon] sample is present makes, in this order,
    the platform check, the sample, the network, model/chip and name
    lookups, then the memory reading (last, just before the sink), the
    sink call with the assembled profile, and the sleep; nothing is
    logged. *)
Theorem node_tick_emit (p : proc) (σ : Σ) (m : Metrics.Metrics) :
  snd (oracle MacmonGetMetrics (fst (oracle PlatformSystem σ))) = Ok (Some m) ->
  exists s' env vm sm mp, exec (node_loop_body 1) (p, σ) =
    mk_run s'
      [Ev (Ext PlatformSystem) (Ok sys); Ev (Ext MacmonGetMetrics) (Ok (Some m));
       Ev (Ext GetNetworkInterfaces) (Ok ifs); Ev (Ext GetModelAndChip) (Ok (mid, cid));
       Ev (Ext GetFriendlyName) (Ok fname);
       Ev (Ext (GetEnv Profile.OVERRIDE_MEMORY_MB)) (Ok env);
       Ev (Ext VirtualMemory) (Ok vm); Ev (Ext SwapMemory) (Ok sm);
       Ev (Ext (NodeSink (node_profile (mid, cid) fname ifs mp m))) (Ok tt);
       Ev (Ext (Sleep 1)) (Ok tt)]
      (Ok Continue).
Proof.
  intros Hm. destruct (node_try_emit p σ m Hm) as (s1 & env & vm & sm & mp & E).
  destruct (exec_tick_ok _ node_handler _ _ _ _ _ Hsleep E) as [s2 E2].
  unfold node_loop_body. rewrite E2. eauto 10.
Qed.

Lemma node_try_absent (p : proc) (σ : Σ) :
  snd (oracle MacmonGetMetrics (fst (oracle PlatformSystem σ))) = Ok None ->
  exists s', exec node_try_block (p, σ) =
    mk_run s' [Ev (Ext PlatformSystem) (Ok sys); Ev (Ext MacmonGetMetrics) (Ok None)]
           (Ok Return).
Proof.
  intros Hm. unfold node_try_block.
  rewrite exec_bind, (Profile.get_metrics_async_darwin sys p σ Hplat Hdarwin).
  cbn zeta. rewrite Hm. simpl. eauto.
Qed.

(** C18: a tick whose sample is [None] stops the loop silently: no
    lookup, no sink call, no log, and the [finally] still sleeps before
    the [return] takes effect. *)
Theorem node_tick_absent_silent (p : proc) (σ : Σ) :
  snd (oracle MacmonGetMetrics (fst (oracle PlatformSystem σ))) = Ok None ->
  exists s', exec (node_loop_body 1) (p, σ) =
    mk_run s' [Ev (Ext PlatformSystem) (Ok sys); Ev (Ext MacmonGetMetrics) (Ok None);
               Ev (Ext (Sleep 1)) (Ok tt)]
           (Ok Return).
Proof.
  intros Hm. destruct (node_try_absent p σ Hm) as [s1 E].
  destruct (exec_tick_ok _ node_handler _ _ _ _ _ Hsleep E) as [s2 E2].
  unfold node_loop_body. rewrite E2. eauto.
Qed.

(** C3: a [MacMonError] or [TimeoutError] raised by the sampler is
    isolated to its tick: it is logged once (an error with the exception,
    or the timeout warning), nothing is emitted, the loop sleeps and
    continues. *)
Theorem node_tick_fault_isolated (p : proc) (σ : Σ) e :
  logs_ok ->
  snd (oracle MacmonGetMetrics (fst (oracle PlatformSystem σ))) = Err e ->
  e = MacMonError \/ e = TimeoutError ->
  exists s', exec (node_loop_body 1) (p, σ) =
    mk_run s' [Ev (Ext PlatformSystem) (Ok sys); Ev (Ext MacmonGetMetrics) (Err e);
               match e with
               | TimeoutError => Ev (Ext (LogMsg WARNING timeout_msg None)) (Ok tt)
               | _ => Ev (Ext (LogMsg ERROR resource_error_msg (Some e))) (Ok tt)
               end;
               Ev (Ext (Sleep 1)) (Ok tt)]
           (Ok Continue).
Proof.
  intros Hlog Hm He.
  assert (E : exists s1, exec node_try_block (p, σ) =
            mk_run s1 [Ev (Ext PlatformSystem) (Ok sys); Ev (Ext MacmonGetMetrics) (Err e)]
                   (Err e)).
  { unfold node_try_block.
    rewrite exec_bind, (Profile.get_metrics_async_darwin sys p σ Hplat Hdarwin).
    cbn zeta. rewrite Hm. simpl. eauto. }
  destruct E as [s1 E]. unfold node_loop_body.
  destruct He as [-> | ->];
    [ destruct (exec_tick_logged _ node_handler ERROR resource_error_msg (Some MacMonError) 1 _ _ _ _
                  Continue Hlog Hsleep E eq_refl) as [s3 ->]
    | destruct (exec_tick_logged _ node_handler WARNING timeout_msg None 1 _ _ _ _
                  Continue Hlog Hsleep E eq_refl) as [s3 ->] ]; eauto.
Qed.
End NodeLoop.

Section NodeLoopRun.
Context {Σ : Type} {O : Oracle Σ} {C : Clock Σ}.
Import Polling.

Variables (sys : string) (ifs : list NetworkInterfaceInfo.NetworkInterfaceInfo)
          (mid cid : string) (fname : string).
Hypothesis Hplat : answers PlatformSystem (eq (Ok sys)).
Hypothesis Hdarwin : String.eqb (py_lower sys) "darwin" = true.
Hypothesis Hnet : answers GetNetworkInterfaces (eq (Ok ifs)).
Hypothesis Hmc : answers GetModelAndChip (eq (Ok (mid, cid))).
Hypothesis Hfn : answers GetFriendlyName (eq (Ok fname)).
Hypothesis Henv : answers (GetEnv Profile.OVERRIDE_MEMORY_MB)
                    (fun r => exists env, r = Ok env /\ Profile.override_valid env = true).
Hypothesis Hvm : answers VirtualMemory (fun r => exists vm, r = Ok vm).
Hypothesis Hsm : answers SwapMemory (fun r => exists sm, r = Ok sm).
Hypothesis Hsink : forall np, answers (NodeSink np) (eq (Ok tt)).
Hypothesis Hsleep : answers (Sleep 1) (eq (Ok tt)).

(** [macmon] yields a sample on the first [K] ticks and [None] on tick
    [K] (ticks counted from 0). *)
Variable K : nat.
Hypothesis Hsome : forall σ, (ticks σ < K)%nat -> exists m, snd (oracle MacmonGetMetrics σ) = Ok (Some m).
Hypothesis Hnone : forall σ, ticks σ = K -> snd (oracle MacmonGetMetrics σ) = Ok None.

Lemma ticks_platform σ : ticks (fst (oracle PlatformSystem σ)) = ticks σ.
Proof. by rewrite ticks_oracle. Qed.

Lemma node_loop_from j n (p : proc) (σ : Σ) :
  (ticks σ + j)%nat = K -> (j < n)%nat ->
  let o := exec (start_polling_node_metrics n) (p, σ) in
  r_res o = Ok Stopped /\ count_ev is_node_sink (r_trace o) = j
  /\ count_ev is_sleep (r_trace o) = S j
  /\ count_ev (is_log ERROR) (r_trace o) = 0%nat
  /\ count_ev (is_log WARNING) (r_trace o) = 0%nat.
Proof.
  revert n p σ. induction j as [|j IH]; intros n p σ Hk Hn;
    destruct n as [|n]; try lia; unfold start_polling_node_metrics; cbn zeta;
    rewrite exec_while_true_S; unfold node_loop_body.
  - assert (Hm : snd (oracle MacmonGetMetrics (fst (oracle PlatformSystem σ))) = Ok None)
      by (apply Hnone; rewrite ticks_platform; lia).
    destruct (node_try_absent sys Hplat Hdarwin p σ Hm) as [s1 E].
    destruct (exec_tick_ok _ node_handler _ _ _ _ _ Hsleep E)
      as [s2 ->].
    simpl. auto.
  - destruct (Hsome (fst (oracle PlatformSystem σ))) as [m Hm];
      [rewrite ticks_platform; lia|].
    destruct (node_try_emit sys ifs mid cid fname Hplat Hdarwin Hnet Hmc Hfn Henv Hvm Hsm
                Hsink p σ m Hm) as (s1 & env & vm & sm & mp & E).
    destruct (exec_tick_ok _ node_handler _ _ _ _ _ Hsleep E)
      as [[p2 σ2] E2].
    pose proof (ticks_exec (node_loop_body 1) (p, σ)) as T.
    unfold node_loop_body in T. rewrite E2 in T. simpl in T.
    unfold count_ev in T. simpl in T.
    rewrite E2. cbn [r_res r_state r_trace].
    destruct (IH n p2 σ2) as (Hr & Hsk & Hsl & He & Hw); [lia|lia|].
    unfold start_polling_node_metrics, node_loop_body in Hr, Hsk, Hsl, He, Hw. cbn zeta in *.
    rewrite Hr, !count_ev_app, Hsk, Hsl, He, Hw. unfold count_ev at 1 3 5 7. simpl. auto.
Qed.

(** C2: if [macmon] first yields [None] on tick [K] (counted from 0),
    the node loop emits exactly [K] profiles, sleeps [K + 1] times (the
    [finally] runs on the [return] too), logs nothing, and stops. *)
Theorem node_loop_stops_on_absent n (p : proc) (σ : Σ) :
  ticks σ = 0%nat -> (K < n)%nat ->
  let o := exec (start_polling_node_metrics n) (p, σ) in
  r_res o = Ok Stopped /\ count_ev is_node_sink (r_trace o) = K
  /\ count_ev is_sleep (r_trace o) = S K
  /\ count_ev (is_log ERROR) (r_trace o) = 0%nat
  /\ count_ev (is_log WARNING) (r_trace o) = 0%nat.
Proof. intros H0 Hn. apply node_loop_from; lia. Qed.
End NodeLoopRun.

(** ** Ticks and escaping exceptions *)

(** C28: a malformed [OVERRIDE_MEMORY_MB] ([int()] rejects it) is not a
    [MacMonError]: the first tick of the memory loop sleeps and then the
    [ValueError] ends the loop, although the spec has the loop survive
    every per-tick fault. *)
Theorem memory_loop_bad_override_crashes {Σ} `{Oracle Σ} v n d (p : proc) (σ : Σ) :
  answers (GetEnv Profile.OVERRIDE_MEMORY_MB) (eq (Ok (Some v))) ->
  py_truthy_str v = true -> py_int v = None -> answers (Sleep d) (eq (Ok tt)) ->
  exists s', exec (Polling.start_polling_memory_metrics (S n) d) (p, σ) =
    mk_run s' [Ev (Ext (GetEnv Profile.OVERRIDE_MEMORY_MB)) (Ok (Some v));
               Ev (Ext (Sleep d)) (Ok tt)]
           (Err (Profile.int_error v)).
Proof.
  intros Henv Ht Hn Hs. unfold Polling.start_polling_memory_metrics.
  rewrite exec_while_true_S. unfold Polling.memory_loop_body.
  destruct (exec_finally_sleep_ok (try_except Polling.memory_try_block
    (except_clause [CMacMonError]
       (fun e => ext_call (LogMsg ERROR Polling.memory_error_msg (Some e)) ;;
                 Ret Polling.Continue) no_handler)) d (p, σ) Hs) as (s1 & ->).
  rewrite exec_try_except. unfold Polling.memory_try_block. rewrite exec_bind.
  destruct (get_memory_profile_bad_override v p σ Henv Ht Hn) as [σ1 ->].
  simpl. eauto.
Qed.

(** C29: on a host without [macmon], an exception of the sensor API other
    than [NotImplementedError] and [psutil.Error] (the [AttributeError] of
    a [psutil] without [sensors_temperatures], as on Windows and macOS) is
    neither a [MacMonError] nor a timeout: it ends the node loop after the
    first tick's sleep, although the spec has the sensor subsystem's absence
    degrade to a zero temperature. *)
Theorem node_loop_crashes_on_sensor_error {Σ} `{Oracle Σ} sys c k e n (s : proc * Σ) :
  answers PlatformSystem (eq (Ok sys)) -> String.eqb (py_lower sys) "darwin" = false ->
  answers CpuPercent (eq (Ok c)) -> answers CpuCount (eq (Ok k)) ->
  answers SensorsTemperatures (eq (Err e)) ->
  isinstance e CNotImplementedError = false -> isinstance e CPsutilError = false ->
  isinstance e CTimeoutError = false -> isinstance e CMacMonError = false ->
  answers (Sleep 1) (eq (Ok tt)) ->
  r_res (exec (Polling.start_polling_node_metrics (S n)) s) = Err e.
Proof.
  intros Hp Hd Hc Hk Hs H1 H2 H3 H4 Hsl.
  unfold Polling.start_polling_node_metrics. cbn zeta. rewrite exec_while_true_S. cbn zeta.
  unfold Polling.node_loop_body. rewrite (exec_tick_uncaught _ _ _ _ e Hsl); [reflexivity| |].
  - unfold Polling.node_try_block. apply exec_bind_err.
    destruct (get_metrics_async_generic sys s Hp Hd) as [s1 ->].
    rewrite (collect_generic_answer c k Hc Hk s1 _ Hs).
    unfold sensor_outcome. cbn -[isinstance]. by rewrite H1, H2.
  - unfold Polling.node_handler, except_clause. cbn -[isinstance]. by rewrite ?H3, ?H4.
Qed.

(** ** Witnesses *)

Section PollingWitnesses.
Import Polling.

Lemma memory_loop_never_stops_witness :
  exists s' ticks,
    @exec nat (host_oracle (linux_host_with None)) _
      (start_polling_memory_metrics 3 (1#2)) init_state = mk_run s' (concat ticks) (Ok Running)
    /\ length ticks = 3%nat /\ Forall (mem_tick_spec (1#2)) ticks
    /\ count_ev is_mem_sink (concat ticks) = 3%nat
    /\ count_ev is_sleep (concat ticks) = 3%nat
    /\ count_ev (is_log ERROR) (concat ticks) = count_ev is_sink_fault (concat ticks).
Proof.
  apply (@memory_loop_never_stops nat (host_oracle (linux_host_with None)) (1#2)).
  - intros σ. exists None. split; reflexivity.
  - intros σ. eexists. reflexivity.
  - intros σ. eexists. reflexivity.
  - intros m σ. simpl. destruct (Nat.odd σ); [right | left]; reflexivity.
  - intros σ. reflexivity.
  - intros lvl msg x σ. reflexivity.
Defined.

Lemma node_loop_stops_on_absent_witness :
  let o := @exec nat (host_oracle (mac_sampling_host 2)) _
             (start_polling_node_metrics 4) init_state in
  r_res o = Ok Stopped /\ count_ev is_node_sink (r_trace o) = 2%nat
  /\ count_ev is_sleep (r_trace o) = 3%nat
  /\ count_ev (is_log ERROR) (r_trace o) = 0%nat
  /\ count_ev (is_log WARNING) (r_trace o) = 0%nat.
Proof.
  eapply (@node_loop_stops_on_absent nat (host_oracle (mac_sampling_host 2))
            (host_clock (mac_sampling_host 2)) "Darwin").
  all: try (intros σ; reflexivity).
  all: try (intros σ; eexists; reflexivity).
  - reflexivity.
  - intros σ. exists None. split; reflexivity.
  - intros σ Hl. simpl in *. rewrite (proj2 (Nat.ltb_lt σ 2) Hl). eauto.
  - intros σ Hk. simpl in Hk. subst. reflexivity.
  - reflexivity.
  - lia.
Defined.

Lemma node_tick_emit_witness :
  exists s' env vm sm mp,
    @exec nat (host_oracle (mac_sampling_host 2)) _ (node_loop_body 1) init_state =
    mk_run s'
      [Ev (Ext PlatformSystem) (Ok "Darwin"%string);
       Ev (Ext MacmonGetMetrics) (Ok (Some sample_metrics));
       Ev (Ext GetNetworkInterfaces) (Ok [NetworkInterfaceInfo.mk "en0" "192.168.1.5"]);
       Ev (Ext GetModelAndChip) (Ok ("Mac15,8", "Apple M3 Max")%string);
       Ev (Ext GetFriendlyName) (Ok "studio"%string);
       Ev (Ext (GetEnv Profile.OVERRIDE_MEMORY_MB)) (Ok env);
       Ev (Ext VirtualMemory) (Ok vm); Ev (Ext SwapMemory) (Ok sm);
       Ev (Ext (NodeSink (node_profile ("Mac15,8", "Apple M3 Max")%string "studio"
                            [NetworkInterfaceInfo.mk "en0" "192.168.1.5"] mp sample_metrics)))
          (Ok tt);
       Ev (Ext (Sleep 1)) (Ok tt)]
      (Ok Continue).
Proof.
  eapply (@node_tick_emit nat (host_oracle (mac_sampling_host 2)) "Darwin").
  all: try (intros σ; reflexivity).
  all: try (intros σ; eexists; reflexivity).
  - reflexivity.
  - intros σ. exists None. split; reflexivity.
  - reflexivity.
Defined.

Lemma node_tick_absent_silent_witness :
  exists s', @exec nat (host_oracle (mac_sampling_host 2)) _ (node_loop_body 1)
               (mk_proc None 0, 2%nat) =
    mk_run s' [Ev (Ext PlatformSystem) (Ok "Darwin"%string);
               Ev (Ext MacmonGetMetrics) (Ok None); Ev (Ext (Sleep 1)) (Ok tt)]
           (Ok Return).
Proof.
  eapply (@node_tick_absent_silent nat (host_oracle (mac_sampling_host 2)) "Darwin").
  all: try (intros σ; reflexivity).
  all: reflexivity.
Defined.

Lemma node_tick_fault_isolated_witness :
  exists s', @exec nat (host_oracle (mac_faulty_host MacMonError)) _ (node_loop_body 1)
               init_state =
    mk_run s' [Ev (Ext PlatformSystem) (Ok "Darwin"%string);
               Ev (Ext MacmonGetMetrics) (Err MacMonError);
               Ev (Ext (LogMsg ERROR resource_error_msg (Some MacMonError))) (Ok tt);
               Ev (Ext (Sleep 1)) (Ok tt)]
           (Ok Continue).
Proof.
  eapply (@node_tick_fault_isolated nat (host_oracle (mac_faulty_host MacMonError)) "Darwin").
  all: try (intros σ; reflexivity).
  - reflexivity.
  - intros lvl msg x σ. reflexivity.
  - reflexivity.
  - left. reflexivity.
Defined.

Lemma memory_loop_bad_override_crashes_witness :
  exists s', @exec nat (host_oracle (linux_host_with (Some "4GB"%string))) _
               (start_polling_memory_metrics 2 (1#2)) init_state =
    mk_run s' [Ev (Ext (GetEnv Profile.OVERRIDE_MEMORY_MB)) (Ok (Some "4GB"%string));
               Ev (Ext (Sleep (1#2))) (Ok tt)]
           (Err (Profile.int_error "4GB")).
Proof.
  apply (@memory_loop_bad_override_crashes nat (host_oracle (linux_host_with (Some "4GB"%string))));
    [intros σ | | | intros σ]; reflexivity.
Defined.

Lemma node_loop_crashes_on_sensor_error_witness :
  r_res (@exec nat (host_oracle windows_host) _ (start_polling_node_metrics 3) init_state)
  = Err (AttributeError "sensors_temperatures").
Proof.
  apply (@node_loop_crashes_on_sensor_error nat (host_oracle windows_host) "Windows" 5 None);
    try (intros σ); reflexivity.
Defined.
End PollingWitnesses.
