(* ===== verification/Tasks.v ===== *)
(** * The polling loops as asyncio tasks

    [start_polling_memory_metrics] and [start_polling_node_metrics] run as
    two asyncio tasks of one event loop (spec §5).  A task gives control
    back to the event loop only at an [await]; the synchronous code between
    two awaits runs without interruption.  [awaits] lists the calls that are
    awaited in the source (profile.py): [macmon]'s [get_metrics_async]
    (line 38), the sink callbacks (lines 104 and 129), [get_model_and_chip]
    and [get_friendly_name] (lines 123-124), [anyio.sleep] (lines 108 and
    154), and the [psutil] calls of [_collect_generic_metrics], which run on
    a worker thread behind [anyio.to_thread.run_sync] (line 40) and so let
    other tasks run between them.  [platform.system], [os.getenv],
    [psutil.virtual_memory]/[swap_memory] of [get_memory_profile],
    [get_network_interfaces] and the log calls are synchronous.  These are
    the switch points of the scheduler of [Schedule] for the two tasks.
    [wp_while_true_inv] carries a ghost
    monitor through [while True:], for the files that reason about every
    interleaving of the two loops ([Interleaving], [Override]). *)

From Stdlib Require Import QArith String List.
From stdpp Require Import base list.
From S2P Require Import Prelude Types Effects Monitor Polling.

(** ** Suspension points of an asyncio task *)

Definition awaits (X : Type) (c : call X) : bool :=
  match c with
  | Ext e =>
      match e with
      | MacmonGetMetrics | GetModelAndChip | GetFriendlyName
      | Sleep _ | MemSink _ | NodeSink _
      | CpuPercent | CpuCount | SensorsTemperatures => true
      | _ => false
      end
  | _ => false
  end.

(** A loop whose body keeps a property [P] of the monitor state, started
    in a state satisfying [P], is safe for the monitor. *)
Lemma wp_while_true_inv {M : monitor} (P : mstate M -> Prop) n (body : prog Polling.ctl) m :
  (forall m, P m -> @wp M _ m body (fun _ m' => P m') (fun _ _ => True)) -> P m ->
  @wp M _ m (Polling.while_true n body) (fun _ _ => True) (fun _ _ => True).
Proof.
  intros Hb. revert m. induction n as [|n IH]; intros m Hm; simpl; [done|]. apply wp_bind.
  eapply wp_mono; [exact (Hb m Hm)| |done]. intros [|] m' Hm'; [by apply IH | done].
Qed.

(** A loop whose body, from every monitor state, establishes [R] when it
    executes [return] and [QE] when it raises, establishes [R] when it
    stops and [QE] when an exception escapes. *)
Lemma wp_while_true {M : monitor} (R : mstate M -> Prop) (QE : exn -> mstate M -> Prop)
    n (body : prog Polling.ctl) m :
  (forall m, @wp M _ m body (fun c m' => c = Polling.Return -> R m') QE) ->
  @wp M _ m (Polling.while_true n body) (fun st m' => st = Polling.Stopped -> R m') QE.
Proof.
  intros Hb. revert m. induction n as [|n IH]; intros m; simpl; [done|]. apply wp_bind.
  eapply wp_mono; [exact (Hb m)| |done]. intros [|] m' Hm'; [apply IH | simpl; auto].
Qed.

