(* ===== verification/Override.v ===== *)
(** * The memory override across both loops

    Spec §8: setting [OVERRIDE_MEMORY_MB] to [4096] forces every
    [MemoryPerformanceProfile] the process produces to report a 4096 MB
    ceiling, whatever the host's memory.  Both loops build their profile
    with [get_memory_profile] (profile.py, lines 78-87), which reads the
    variable on every call, and hand it to their sink, the memory loop
    directly (line 104) and the node loop inside a [NodePerformanceProfile]
    (lines 127-135).  [override_every_profile] shows that under every
    interleaving of the two tasks in one event loop, when the variable holds
    a string [v] that [int()] accepts as [n], every profile either sink
    receives reports [ram_total = Memory.from_mb(n)].

    The ghost monitor [override_monitor] remembers, per task, the value of
    the variable its last [os.getenv] of the current tick returned, and
    accepts a sink call only when the profile it carries reports the total
    that value fixes; that
    every path of either loop satisfies it holds whatever the collaborators
    answer, because the profile a tick hands to its sink is built from that
    tick's own reading. *)

From Stdlib Require Import QArith ZArith String List.
From stdpp Require Import base list relations.
From S2P Require Import Prelude PyBuiltins Types Effects Monitor Schedule Hosts Profile Polling Tasks.

Local Open Scope py_scope.

(** The memory profile a sink call carries. *)
Definition sink_memory (ev : event) : option MemoryPerformanceProfile.MemoryPerformanceProfile :=
  match ev with
  | Ev (Ext (MemSink mp)) _ => Some mp
  | Ev (Ext (NodeSink np)) _ => Some (NodePerformanceProfile.memory np)
  | _ => None
  end.

(** The total a profile must report for the value [env] of
    [OVERRIDE_MEMORY_MB]: checked only for a value [int()] accepts. *)
Definition reports_override (env : option string)
    (mp : MemoryPerformanceProfile.MemoryPerformanceProfile) : bool :=
  match env with
  | Some v =>
      if py_truthy_str v then
        match py_int v with
        | Some n => Z.eqb (Memory.in_bytes (MemoryPerformanceProfile.ram_total mp))
                          (Memory.in_bytes (Memory.from_mb n))
        | None => true
        end
      else true
  | None => true
  end.

(** The state after an event: the value [os.getenv("OVERRIDE_MEMORY_MB")]
    answered, when the event is that read; nothing after the sleep that
    ends a tick, so that every tick must read the variable again. *)
Definition override_next (m : option (option string)) (ev : event) : option (option string) :=
  match ev with
  | Ev c r =>
      match c in call X return result X -> option (option string) with
      | Ext e =>
          match e in ext X return result X -> option (option string) with
          | GetEnv n => fun r =>
              if String.eqb n Profile.OVERRIDE_MEMORY_MB
              then match r with Ok env => Some env | Err _ => m end
              else m
          | Sleep _ => fun _ => None
          | _ => fun _ => m
          end
      | _ => fun _ => m
      end r
  end.

(** A sink call is allowed once the task has read the variable in the
    current tick, with a profile that reports the total that reading
    fixes. *)
Definition override_monitor : monitor := {|
  mstate := option (option string);
  mon_ok := fun m ev =>
    match sink_memory ev with
    | None => true
    | Some mp => match m with Some env => reports_override env mp | None => false end
    end;
  mon_next := override_next;
|}.

(** ** Every path of either loop *)

Ltac wp_override := wp_sym_by ltac:(idtac; simpl; rewrite ?Z.eqb_refl; reflexivity); done.

Lemma wp_memory_loop_override d (m : mstate override_monitor) :
  wp m (Polling.memory_loop_body d) (fun _ _ => True) (fun _ _ => True).
Proof.
  unfold Polling.memory_loop_body, Polling.memory_try_block, Profile.get_memory_profile,
    Profile.from_psutil.
  wp_override.
Qed.

Lemma wp_node_loop_override d (m : mstate override_monitor) :
  wp m (Polling.node_loop_body d) (fun _ _ => True) (fun _ _ => True).
Proof.
  unfold Polling.node_loop_body, Polling.node_try_block, Polling.node_handler,
    Profile.get_metrics_async, Profile._collect_generic_metrics, Profile.get_memory_profile,
    Profile.from_psutil.
  wp_override.
Qed.

(** Both loops, from any monitor state. *)
Lemma wp_loops_override n1 n2 d (m : mstate override_monitor) :
  Forall (fun p => wp m p (fun _ _ => True) (fun _ _ => True))
    [Polling.start_polling_memory_metrics n1 d; Polling.start_polling_node_metrics n2].
Proof.
  repeat constructor; apply (@wp_while_true_inv override_monitor (fun _ => True)); try done;
    intros m' _; [apply wp_memory_loop_override | apply wp_node_loop_override].
Qed.

(** ** Under every interleaving *)

Section Override.
Context {Σ : Type} `{Oracle Σ}.

Variables (v : string) (n : Z).
Hypothesis Henv : answers (GetEnv Profile.OVERRIDE_MEMORY_MB) (eq (Ok (Some v))).
Hypothesis Hn : py_int v = Some n.

(** A task has read nothing yet or has read [v]. *)
Definition read_v (m : mstate override_monitor) (_ : proc * Σ) : Prop :=
  m = None \/ m = Some (Some v).

(** The profile of a sink call reports [n] MiB. *)
Definition reports_n (ev : event) : Prop :=
  forall mp, sink_memory ev = Some mp -> MemoryPerformanceProfile.ram_total mp = Memory.from_mb n.

Lemma read_v_own m X (c : call X) s :
  read_v m s -> mon_ok m (Ev c (snd (step_call c s))) = true ->
  read_v (mon_next m (Ev c (snd (step_call c s)))) (fst (step_call c s)).
Proof.
  intros Hm _. destruct s as [p σ]. destruct c as [X' e| | | |]; simpl; try exact Hm.
  destruct e; simpl; try (destruct (oracle _ σ); first [exact Hm | by left]).
  destruct (String.eqb name Profile.OVERRIDE_MEMORY_MB) eqn:E; [|by destruct (oracle _ σ)].
  apply String.eqb_eq in E. subst name. pose proof (Henv σ) as Hv.
  destruct (oracle _ σ) as [σ' r]. simpl in Hv |- *. subst r. by right.
Qed.

Lemma reports_override_n mp :
  reports_override (Some v) mp = true -> MemoryPerformanceProfile.ram_total mp = Memory.from_mb n.
Proof.
  unfold reports_override. rewrite (py_int_truthy v n Hn), Hn. intros E.
  apply Z.eqb_eq in E. destruct (MemoryPerformanceProfile.ram_total mp) as [b].
  simpl in E. by subst b.
Qed.

Lemma read_v_ev m X (c : call X) s :
  read_v m s -> mon_ok m (Ev c (snd (step_call c s))) = true -> reports_n (Ev c (snd (step_call c s))).
Proof.
  intros Hm Hok mp Hmp. cbn [mon_ok override_monitor] in Hok. rewrite Hmp in Hok.
  destruct Hm as [-> | ->]; [discriminate Hok | by apply reports_override_n].
Qed.

(** C9: when [OVERRIDE_MEMORY_MB] holds a string [v] that [int()]
    accepts as [n], under every interleaving of the memory loop and the
    node loop in one event loop (any number of iterations of each, any
    interval, whatever the other collaborators answer), every memory
    profile handed to either sink reports a total of [Memory.from_mb(n)],
    whatever the host's memory. *)
Theorem override_every_profile n1 n2 d (s : proc * Σ) cf :
  reachable awaits
    (init_config [Polling.start_polling_memory_metrics n1 d; Polling.start_polling_node_metrics n2] s)
    cf ->
  Forall (reports_n ∘ snd) (gtrace cf).
Proof.
  intros Hr.
  assert (Hinit : thread_inv override_monitor read_v
    (init_config [Polling.start_polling_memory_metrics n1 d; Polling.start_polling_node_metrics n2] s)).
  { intros i p Hi. exists None. split; [|by left].
    exact (Forall_lookup_1 _ _ _ _ (wp_loops_override n1 n2 d None) Hi). }
  exact (proj2 (reachable_inv awaits override_monitor read_v reports_n read_v_own read_v_ev
                  (fun m _ _ _ _ Hm _ _ => Hm) _ _ Hinit ltac:(constructor) Hr)).
Qed.
End Override.

Section LiveOverride.
Context {Σ : Type} `{Oracle Σ}.

(** C10: under every interleaving of the memory loop and the node loop in
    one event loop, whatever the environment answers (the variable may
    change at any time, to any value), each task reads
    [OVERRIDE_MEMORY_MB] in every tick before it hands a profile to its
    sink, and every profile it hands over reports the total that reading
    fixes: a live change of the override takes effect on the next tick of
    each loop. *)
Theorem override_live n1 n2 d (s : proc * Σ) cf i :
  reachable awaits
    (init_config [Polling.start_polling_memory_metrics n1 d; Polling.start_polling_node_metrics n2] s)
    cf ->
  i < 2 ->
  exists m, @mon_trace override_monitor None (proj i (gtrace cf)) = Some m.
Proof.
  intros Hr Hi. exact (reachable_proj_init awaits override_monitor None _ s cf i
                         (wp_loops_override n1 n2 d None) Hr Hi).
Qed.
End LiveOverride.

(** ** Witness *)

(** [OVERRIDE_MEMORY_MB=4096] on a Linux host with 16 GiB: both loops,
    switched at every await, report 4096 MiB. *)
Lemma override_every_profile_witness :
  py_int "4096" = Some 4096%Z
  /\ Forall (reports_n 4096 ∘ snd)
       (gtrace (@run_sched nat (host_oracle (linux_host_with (Some "4096"%string))) _ awaits
                  [0; 1; 1; 0; 1; 1; 1; 0; 0; 1; 1; 1]
                  (init_config [Polling.start_polling_memory_metrics 2 (1#2);
                                Polling.start_polling_node_metrics 2] init_state))).
Proof.
  split; [reflexivity|].
  apply (@override_every_profile nat (host_oracle (linux_host_with (Some "4096"%string)))
           "4096" 4096 (fun σ => eq_refl) eq_refl 2 2 (1#2) init_state).
  apply run_sched_reachable.
Defined.

(** The node loop's task on the same host and schedule. *)
Lemma override_live_witness :
  1 < 2
  /\ exists m, @mon_trace override_monitor None
       (proj 1 (gtrace (@run_sched nat (host_oracle (linux_host_with (Some "4096"%string))) _ awaits
                  [0; 1; 1; 0; 1; 1; 1; 0; 0; 1; 1; 1]
                  (init_config [Polling.start_polling_memory_metrics 2 (1#2);
                                Polling.start_polling_node_metrics 2] init_state)))) = Some m.
Proof.
  split; [lia|].
  apply (@override_live nat (host_oracle (linux_host_with (Some "4096"%string))) 2 2 (1#2) init_state);
    [apply run_sched_reachable | lia].
Defined.
