(* ===== verification/Interleaving.v ===== *)
(** * The two polling loops in one event loop

    The memory loop and the node loop run as two asyncio tasks, switched at
    the awaits of [Tasks.awaits].  Both read the shared memory state
    through [get_memory_profile]: [os.getenv("OVERRIDE_MEMORY_MB")], then
    [virtual_memory()], then [swap_memory()], with no await in between.

    - [memory_reads_atomic]: under every interleaving of the two tasks
      these reads of one [get_memory_profile] call are adjacent in the
      global trace: a reading is never split by the other loop (the worker
      thread reads no memory state).  The ghost monitor [reads_monitor]
      tracks the last memory read of a task.
    - [one_sink_per_tick]: under every interleaving, each task's own events
      ([Schedule.proj]) have a sleep between any two sink calls (spec §5-6:
      iteration [N+1] starts after iteration [N]'s sleep, one sink call in
      flight per loop); the monitor is [cadence_monitor]. *)

From Stdlib Require Import QArith String List.
From stdpp Require Import base list relations decidable.
From S2P Require Import Prelude PyBuiltins Types Effects Monitor Schedule Hosts Profile Polling Tasks.

Local Open Scope py_scope.

(** ** Memory reads *)

Inductive mtag := NoRead | ReadEnv | ReadVM.

#[export] Instance mtag_eq_dec : EqDecision mtag.
Proof. solve_decision. Defined.

(** The memory read an event is, if any. *)
Definition mem_tag (ev : event) : mtag :=
  match ev with
  | Ev (Ext (GetEnv n)) _ => if String.eqb n Profile.OVERRIDE_MEMORY_MB then ReadEnv else NoRead
  | Ev (Ext VirtualMemory) _ => ReadVM
  | _ => NoRead
  end.

(** The read that must come just before an event: the override before
    [virtual_memory()], [virtual_memory()] before [swap_memory()]. *)
Definition mem_need (ev : event) : option mtag :=
  match ev with
  | Ev (Ext VirtualMemory) _ => Some ReadEnv
  | Ev (Ext SwapMemory) _ => Some ReadVM
  | _ => None
  end.

Definition reads_monitor : monitor := {|
  mstate := mtag;
  mon_ok := fun m ev => match mem_need ev with
                        | None => true
                        | Some m' => bool_decide (m = m')
                        end;
  mon_next := fun _ ev => mem_tag ev;
|}.

(** Every event of the global trace that needs a preceding read comes
    right after that read, made by the same task. *)
Fixpoint reads_adjacent (prev : option (nat * event)) (t : list (nat * event)) : bool :=
  match t with
  | [] => true
  | (i, ev) :: t' =>
      match mem_need ev with
      | None => true
      | Some m => match prev with
                  | Some (j, ev') => Nat.eqb i j && bool_decide (mem_tag ev' = m)
                  | None => false
                  end
      end && reads_adjacent (Some (i, ev)) t'
  end.

(** ** One sink call per tick

    A sink call is allowed only when the task has slept since its last
    sink call; the state is whether it has called its sink since. *)
Definition is_sink (ev : event) : bool := is_mem_sink ev || is_node_sink ev.

Definition cadence_monitor : monitor := {|
  mstate := bool;
  mon_ok := fun sunk ev => negb (is_sink ev && sunk);
  mon_next := fun sunk ev => if is_sleep ev then false else sunk || is_sink ev;
|}.

(** ** Lemmas on the reads monitor *)

(** The last event of [g], [prev] when [g] is empty. *)
Fixpoint last_or (prev : option (nat * event)) (g : list (nat * event)) : option (nat * event) :=
  match g with [] => prev | x :: g' => last_or (Some x) g' end.

Lemma reads_adjacent_app prev g h :
  reads_adjacent prev (g ++ h) = reads_adjacent prev g && reads_adjacent (last_or prev g) h.
Proof.
  revert prev. induction g as [|[i ev] g IH]; intros prev; [done|].
  simpl. by rewrite IH, andb_assoc.
Qed.

Lemma mem_need_read ev m : mem_need ev = Some m -> m <> NoRead.
Proof. destruct ev as [X [X' e| | | |] r]; try destruct e; simpl; congruence. Qed.

(** The events of a slice of task [i] that the monitor accepts, started
    in a state agreeing with the last event of the trace so far, keep the
    global trace adjacent. *)
Lemma slice_reads_adjacent i t : forall (m m' : mtag) prev,
  (m = NoRead \/ exists ev', prev = Some (i, ev') /\ mem_tag ev' = m) ->
  @mon_trace reads_monitor m t = Some m' -> reads_adjacent prev (map (pair i) t) = true.
Proof.
  induction t as [|ev t IH]; intros m m' prev Hm Ht; [done|]. simpl in Ht |- *.
  destruct (mem_need ev) as [m0|] eqn:Hn; [|eapply IH; eauto].
  case_bool_decide as Heq; [subst m0|discriminate].
  destruct Hm as [-> | (ev' & -> & Htag)]; [by destruct (mem_need_read ev NoRead Hn)|].
  rewrite Nat.eqb_refl, bool_decide_eq_true_2 by done. simpl. eapply IH; eauto.
Qed.

Lemma mon_trace_reads_last m t0 ev m' :
  @mon_trace reads_monitor m (t0 ++ [ev]) = Some m' -> m' = mem_tag ev.
Proof.
  rewrite mon_trace_app. destruct (mon_trace m t0) as [m1|]; [|done]. simpl.
  destruct (match mem_need ev with Some _ => _ | None => _ end); congruence.
Qed.

(** An awaited call reads no memory state. *)
Lemma awaits_no_read ev : preempt_ev awaits ev = true -> mem_tag ev = NoRead.
Proof. destruct ev as [X [X' e| | | |] r]; try destruct e; simpl; congruence. Qed.

(** One tick of either loop starts after an await, makes its memory reads
    in order, and ends with the [finally]'s sleep. *)
Lemma wp_memory_loop_body d :
  @wp reads_monitor _ NoRead (Polling.memory_loop_body d) (fun _ m => m = NoRead) (fun _ _ => True).
Proof.
  unfold Polling.memory_loop_body, Polling.memory_try_block, Profile.get_memory_profile,
    Profile.from_psutil.
  wp_sym; done.
Qed.

Lemma wp_node_loop_body d :
  @wp reads_monitor _ NoRead (Polling.node_loop_body d) (fun _ m => m = NoRead) (fun _ _ => True).
Proof.
  unfold Polling.node_loop_body, Polling.node_try_block, Polling.node_handler,
    Profile.get_metrics_async, Profile._collect_generic_metrics, Profile.get_memory_profile,
    Profile.from_psutil.
  wp_sym; done.
Qed.


(** Every tick of either loop, started after a sleep, calls its sink at
    most once and ends with the [finally]'s sleep. *)
Lemma wp_memory_loop_cadence d :
  @wp cadence_monitor _ false (Polling.memory_loop_body d) (fun _ m => m = false) (fun _ _ => True).
Proof.
  unfold Polling.memory_loop_body, Polling.memory_try_block, Profile.get_memory_profile,
    Profile.from_psutil.
  wp_sym; done.
Qed.

Lemma wp_node_loop_cadence d :
  @wp cadence_monitor _ false (Polling.node_loop_body d) (fun _ m => m = false) (fun _ _ => True).
Proof.
  unfold Polling.node_loop_body, Polling.node_try_block, Polling.node_handler,
    Profile.get_metrics_async, Profile._collect_generic_metrics, Profile.get_memory_profile,
    Profile.from_psutil.
  wp_sym; done.
Qed.

Section Interleavings.
Context {Σ : Type} `{Oracle Σ}.

(** Every task is at a point where its memory readings are whole, and
    the global trace so far is adjacent. *)
Definition reads_inv (cf : config (proc * Σ) Polling.status) : Prop :=
  (forall i p, threads cf !! i = Some p ->
     @wp reads_monitor _ NoRead p (fun _ _ => True) (fun _ _ => True))
  /\ reads_adjacent None (gtrace cf) = true.

Lemma reads_inv_step cf cf' : reads_inv cf -> cstep awaits cf cf' -> reads_inv cf'.
Proof.
  intros [Hw Hadj] Hs. destruct Hs as [cf i p Hi Hrun].
  destruct cf as [ts s g]. unfold after_slice. simpl in Hi, Hadj, Hw.
  destruct (slice awaits p s) as [s' t p'] eqn:E.
  destruct (slice_wp awaits reads_monitor (fun _ _ => True) (fun _ => True)
              (fun _ _ _ _ _ _ => I) (fun _ _ _ _ _ _ => I)
              NoRead p s s' t p' _ _ E (Hw i p Hi) I) as (m' & Ht & Hw' & _ & _).
  split; simpl.
  - intros j q Hj.
    apply list_lookup_insert_Some in Hj as [(<- & <- & _) | (_ & Hj)]; [|by eapply Hw].
    destruct (slice_end awaits p s s' t p' E) as [Hf | (t0 & ev & -> & Hev)].
    + by destruct p'.
    + rewrite (mon_trace_reads_last _ _ _ _ Ht), (awaits_no_read ev Hev) in Hw'. exact Hw'.
  - rewrite reads_adjacent_app, Hadj. simpl. eapply slice_reads_adjacent; [by left | exact Ht].
Qed.

Lemma reachable_reads_inv cf cf' : reads_inv cf -> reachable awaits cf cf' -> reads_inv cf'.
Proof. intros Hi Hr. induction Hr; eauto using reads_inv_step. Qed.

(** C8: under every interleaving of the memory loop and the node loop in
    one event loop (any number of iterations of each, whatever the
    collaborators answer), each [virtual_memory()] read comes right after
    the [os.getenv("OVERRIDE_MEMORY_MB")] of the same task, and each
    [swap_memory()] read right after that task's [virtual_memory()]: the
    other loop never runs inside a memory reading, because
    [get_memory_profile] contains no await. *)
Theorem memory_reads_atomic n1 n2 d (s : proc * Σ) cf :
  reachable awaits
    (init_config [Polling.start_polling_memory_metrics n1 d; Polling.start_polling_node_metrics n2] s)
    cf ->
  reads_adjacent None (gtrace cf) = true.
Proof.
  intros Hr. refine (proj2 (reachable_reads_inv _ _ _ Hr)). split; [|done].
  intros [|[|i]] p Hi; simpl in Hi; invc Hi.
  - apply (@wp_while_true_inv reads_monitor (fun m => m = NoRead)); [intros m ->; apply wp_memory_loop_body|done].
  - apply (@wp_while_true_inv reads_monitor (fun m => m = NoRead)); [intros m ->; apply wp_node_loop_body|done].
Qed.

(** C11: under every interleaving of the memory loop and the node loop in
    one event loop, whatever the collaborators answer (a sink may raise,
    the sampler may fault or yield nothing), each loop calls its sink at
    most once per tick: between two sink calls of the same task, that task
    has slept, so iteration [N+1]'s sink call is issued only after
    iteration [N]'s sleep. *)
Theorem one_sink_per_tick n1 n2 d (s : proc * Σ) cf i :
  reachable awaits
    (init_config [Polling.start_polling_memory_metrics n1 d; Polling.start_polling_node_metrics n2] s)
    cf ->
  i < 2 ->
  exists m, @mon_trace cadence_monitor false (proj i (gtrace cf)) = Some m.
Proof.
  apply reachable_proj_init. repeat constructor;
    apply (@wp_while_true_inv cadence_monitor (fun m => m = false)); try done;
    intros m ->; [apply wp_memory_loop_cadence | apply wp_node_loop_cadence].
Qed.
End Interleavings.

(** ** Witness *)

(** The memory loop (period 0.5 s) and the node loop on a Linux host,
    switched at every await. *)
Lemma memory_reads_atomic_witness :
  reads_adjacent None
    (gtrace (@run_sched nat (host_oracle linux_host) _ awaits [0; 1; 1; 0; 1; 1; 0; 0; 1; 1; 1]
       (init_config [Polling.start_polling_memory_metrics 2 (1#2); Polling.start_polling_node_metrics 2]
          init_state))) = true.
Proof.
  apply (@memory_reads_atomic nat (host_oracle linux_host) 2 2 (1#2) init_state).
  apply run_sched_reachable.
Defined.

(** The memory loop's task under the same schedule. *)
Lemma one_sink_per_tick_witness :
  0 < 2
  /\ exists m, @mon_trace cadence_monitor false
       (proj 0 (gtrace (@run_sched nat (host_oracle linux_host) _ awaits [0; 1; 1; 0; 1; 1; 0; 0; 1; 1; 1]
          (init_config [Polling.start_polling_memory_metrics 2 (1#2); Polling.start_polling_node_metrics 2]
             init_state)))) = Some m.
Proof.
  split; [lia|].
  apply (@one_sink_per_tick nat (host_oracle linux_host) 2 2 (1#2) init_state);
    [apply run_sched_reachable | lia].
Defined.
