(* ===== verification/Handlers.v ===== *)
(** * What the timeout clause of the node loop catches

    The node loop has an [except asyncio.TimeoutError] clause that logs
    "Operation timed out after 30s, skipping this cycle" (profile.py, lines
    147-150), but nothing in the loop bounds the time of a tick: there is
    no [asyncio.wait_for] and no timeout scope.  The clause fires only when
    a callee (the sampler, a lookup or the sink) raises [TimeoutError]
    itself.  [timeout_warning_follows_raise] shows it on every run: the
    ghost monitor [timeout_monitor] remembers whether the last call raised
    [TimeoutError] and allows the warning only right after such a call. *)

From Stdlib Require Import QArith String List Bool.
From stdpp Require Import base list.
From S2P Require Import Prelude PyBuiltins Types Effects Monitor Hosts Profile Polling Tasks.

Local Open Scope py_scope.

(** A call whose answer is an [asyncio.TimeoutError]. *)
Definition raised_timeout (ev : event) : bool :=
  match ev with
  | Ev _ r => match r with Err e => isinstance e CTimeoutError | Ok _ => false end
  end.

(** The warning of lines 148-150. *)
Definition is_timeout_warning (ev : event) : bool :=
  match ev with
  | Ev (Ext (LogMsg WARNING msg _)) _ => String.eqb msg Polling.timeout_msg
  | _ => false
  end.

Definition timeout_monitor : monitor := {|
  mstate := bool;
  mon_ok := fun raised ev => negb (is_timeout_warning ev) || raised;
  mon_next := fun _ ev => raised_timeout ev;
|}.

Lemma wp_node_loop_timeout d (m : mstate timeout_monitor) :
  wp m (Polling.node_loop_body d) (fun _ _ => True) (fun _ _ => True).
Proof.
  unfold Polling.node_loop_body, Polling.node_try_block, Polling.node_handler,
    Profile.get_metrics_async, Profile._collect_generic_metrics, Profile.get_memory_profile,
    Profile.from_psutil.
  wp_sym_by ltac:(idtac; simpl; rewrite ?orb_false_r in *; first [reflexivity | assumption]); done.
Qed.

Section Timeout.
Context {Σ : Type} `{Oracle Σ}.

(** C30: in every run of the node loop (any number of ticks, whatever the
    collaborators answer), each "[resource_monitor] Operation timed out
    after 30s" warning comes right after a call that itself raised
    [asyncio.TimeoutError]: the loop has no timer of its own, so the
    warning never reports a tick that merely took 30 seconds. *)
Theorem timeout_warning_follows_raise n (s : proc * Σ) :
  exists m, @mon_trace timeout_monitor false (r_trace (exec (Polling.start_polling_node_metrics n) s)) = Some m.
Proof.
  pose proof (@wp_while_true_inv timeout_monitor (fun _ => True) n _ false
                (fun m _ => wp_node_loop_timeout 1 m) I) as Hw.
  destruct (wp_exec _ _ _ _ s Hw) as (m & Hm & _). eauto.
Qed.


(** ** How the loops end

    Spec §4.3: a loop goes from [Running] to [Stopped] only when the node
    loop's sample is absent, or when the task is torn down; recoverable
    faults never end a loop.  The monitor [history] records the trace
    (most recent event first), so that the postcondition of a loop can
    speak of the calls that ended it. *)
Definition history : monitor := {|
  mstate := list event;
  mon_ok := fun _ _ => true;
  mon_next := fun h ev => ev :: h;
|}.

(** The node loop stopped right after the sleep that follows an absent
    sample. *)
Definition node_exit (h : list event) : Prop :=
  exists d r h0, h = Ev (Ext (Sleep d)) r :: Ev (Ext MacmonGetMetrics) (Ok None) :: h0.

(** [e] was raised by the [finally]'s sleep, or by the logger in an
    [except] clause just before that sleep. *)
Definition escapes (e : exn) (h : list event) : Prop :=
  (exists d h0, h = Ev (Ext (Sleep d)) (Err e) :: h0)
  \/ (exists d r l msg x h0, h = Ev (Ext (Sleep d)) r :: Ev (Ext (LogMsg l msg x)) (Err e) :: h0).

(** An exception of the classes [cs] a loop catches ends it only by
    [escapes]. *)
Definition fault_exit (cs : list exn_class) (e : exn) (h : list event) : Prop :=
  existsb (isinstance e) cs = true -> escapes e h.

(** The leaves of the symbolic execution: [Continue] is no [return]; a
    stop or an escape is one of the two shapes; any other exception is
    not of a caught class, by the [except] clause that let it through. *)
Ltac exit_cases :=
  first
    [ intros ?Hc; discriminate Hc
    | intros; unfold node_exit; do 3 eexists; reflexivity
    | unfold fault_exit, escapes; intros ?Hr;
      first [ left; do 2 eexists; reflexivity | right; do 6 eexists; reflexivity
            | match type of Hr with context [isinstance ?e] =>
                destruct e; simpl in *; discriminate end ] ].

Lemma wp_node_loop_exit d (h : mstate history) :
  wp h (Polling.node_loop_body d) (fun c h' => c = Polling.Return -> node_exit h')
    (fault_exit [CTimeoutError; CMacMonError]).
Proof.
  unfold Polling.node_loop_body, Polling.node_try_block, Polling.node_handler,
    Profile.get_metrics_async, Profile._collect_generic_metrics, Profile.get_memory_profile,
    Profile.from_psutil.
  wp_sym. all: exit_cases.
Qed.

Lemma wp_memory_loop_exit d (h : mstate history) :
  wp h (Polling.memory_loop_body d) (fun c _ => c = Polling.Return -> False) (fault_exit [CMacMonError]).
Proof.
  unfold Polling.memory_loop_body, Polling.memory_try_block, Profile.get_memory_profile,
    Profile.from_psutil.
  wp_sym. all: exit_cases.
Qed.

Lemma mon_trace_history h t : @mon_trace history h t = Some (rev t ++ h).
Proof.
  revert h. induction t as [|ev t IH]; intros h; [done|]. simpl. rewrite IH, <- app_assoc. done.
Qed.

(** What [wp] from the empty history says of a run. *)
Lemma history_exec {A} (p : prog A) Q QE (s : proc * Σ) :
  @wp history _ [] p Q QE ->
  let o := exec p s in
  match r_res o with Ok a => Q a (rev (r_trace o)) | Err e => QE e (rev (r_trace o)) end.
Proof.
  intros Hw. destruct (@wp_exec history _ _ _ p [] Q QE s Hw) as (m & Hm & HQ).
  rewrite mon_trace_history, app_nil_r in Hm. injection Hm as <-. exact HQ.
Qed.

(** C4: in every run of either loop (any number of ticks, whatever the
    collaborators answer), an exception of a class the loop catches
    ([MacMonError] for the memory loop, [TimeoutError] and [MacMonError]
    for the node loop) that ends the loop was raised by the [finally]'s [anyio.sleep] (the task being torn
    down) or by the logger of an [except] clause just before that sleep,
    never by the sampler, a lookup or the sink; the memory loop never
    stops; the node loop stops only right after [macmon] answered [None]
    and the final sleep. *)
Theorem loops_exit n1 n2 d (s : proc * Σ) :
  (let o := exec (Polling.start_polling_memory_metrics n1 d) s in
   r_res o <> Ok Polling.Stopped
   /\ forall e, r_res o = Err e -> fault_exit [CMacMonError] e (rev (r_trace o)))
  /\ (let o := exec (Polling.start_polling_node_metrics n2) s in
      (r_res o = Ok Polling.Stopped -> node_exit (rev (r_trace o)))
      /\ forall e, r_res o = Err e -> fault_exit [CTimeoutError; CMacMonError] e (rev (r_trace o))).
Proof.
  unfold Polling.start_polling_memory_metrics, Polling.start_polling_node_metrics. split; cbv zeta.
  - pose proof (history_exec _ _ _ s (@wp_while_true history (fun _ => False) (fault_exit [CMacMonError])
                                        n1 _ [] (wp_memory_loop_exit d))) as E.
    cbv zeta in E. destruct (exec _ s) as [s' t [[|]|e']]; simpl in *; split; naive_solver.
  - pose proof (history_exec _ _ _ s (@wp_while_true history node_exit
                                        (fault_exit [CTimeoutError; CMacMonError]) n2 _ []
                                        (wp_node_loop_exit 1))) as E.
    cbv zeta in E. destruct (exec _ s) as [s' t [[|]|e']]; simpl in *; split; naive_solver.
Qed.
End Timeout.
