(* ===== verification/Timing.v ===== *)
(** * The cadence of the memory loop

    Spec §8: after [T] seconds of run time with interval [i], the memory
    loop has called its sink [floor(T/i)] times, within one tick, even when
    the sink raises a recoverable fault on every tick.  In the model time
    passes only in [anyio.sleep] (the work of a tick takes no time), so the
    elapsed time of a trace is the sum of its sleep durations
    ([elapsed]); an instant of a run is a prefix of its trace.
    [memory_loop_sink_rate] shows that at every instant [T] of a run the
    sink has been called [floor(T / d)] or [floor(T / d) + 1] times: the
    ticks completed so far, and the one in progress once its sink call
    has happened.
    [loops_sink_rate] bounds the rate for every collaborator: after [T]
    seconds of sleeping neither loop has called its sink more than
    [T / d + 1] times. *)

From Stdlib Require Import QArith Qround Lqa ZArith String List.
From stdpp Require Import base list.
From S2P Require Import Prelude Types Effects Monitor Hosts Profile Polling Tasks.

Local Open Scope Q_scope.

Definition sleep_time (ev : event) : Q :=
  match ev with Ev (Ext (Sleep q)) _ => q | _ => 0 end.

(** Seconds spent sleeping in a trace. *)
Definition elapsed (t : list event) : Q := Qsum (map sleep_time t).

Lemma elapsed_app t1 t2 : elapsed (t1 ++ t2) == elapsed t1 + elapsed t2.
Proof. unfold elapsed. by rewrite map_app, Qsum_app. Qed.

Lemma elapsed_cons ev t : elapsed (ev :: t) == sleep_time ev + elapsed t.
Proof. unfold elapsed. simpl map. rewrite Qsum_cons. reflexivity. Qed.

Lemma elapsed_no_sleep t : count_ev is_sleep t = 0%nat -> elapsed t == 0.
Proof.
  induction t as [|ev t IH]; [reflexivity|]. rewrite count_ev_cons, elapsed_cons.
  destruct ev as [X [X' e| | | |] r]; try destruct e; simpl; intros Hc; rewrite IH by lia; try lia; reflexivity.
Qed.

Lemma elapsed_tick d t : mem_tick_spec d t -> elapsed t == d.
Proof.
  intros (env & vm & sm & m & r & [-> | ->] & ->); unfold elapsed, Qsum; simpl; lra.
Qed.

Lemma elapsed_ticks d ticks :
  Forall (mem_tick_spec d) ticks -> elapsed (concat ticks) == inject_Z (Z.of_nat (length ticks)) * d.
Proof.
  induction 1 as [|t ticks Ht _ IH].
  { unfold elapsed, Qsum. simpl length. change (inject_Z (Z.of_nat 0)) with 0. simpl. lra. }
  simpl concat. rewrite elapsed_app, (elapsed_tick d t Ht), IH.
  simpl length. rewrite Nat2Z.inj_succ, <- Z.add_1_r, inject_Z_plus. change (inject_Z 1) with 1. ring.
Qed.

(** A proper prefix of a tick has not slept yet and has called the sink
    at most once. *)
Lemma mem_tick_partial d t p :
  mem_tick_spec d t -> p `prefix_of` t -> (length p < length t)%nat ->
  count_ev is_sleep p = 0%nat /\ (count_ev is_mem_sink p <= 1)%nat.
Proof.
  intros (env & vm & sm & m & r & Hr & ->) Hp Hl. rewrite app_assoc in Hp, Hl.
  apply prefix_snoc_strict in Hp; [|exact Hl].
  pose proof (count_ev_prefix is_sleep _ _ Hp) as Hsl. pose proof (count_ev_prefix is_mem_sink _ _ Hp) as Hsk.
  destruct Hr as [-> | ->]; unfold count_ev in *; simpl in *; lia.
Qed.

Section Cadence.
Context {Σ : Type} `{Oracle Σ}.

Variable d : Q.
Hypothesis Henv : answers (GetEnv Profile.OVERRIDE_MEMORY_MB)
                    (fun r => exists env, r = Ok env /\ Profile.override_valid env = true).
Hypothesis Hvm : answers VirtualMemory (fun r => exists vm, r = Ok vm).
Hypothesis Hsm : answers SwapMemory (fun r => exists sm, r = Ok sm).
Hypothesis Hsink : forall m, answers (MemSink m) (fun r => r = Ok tt \/ r = Err MacMonError).
Hypothesis Hsleep : answers (Sleep d) (eq (Ok tt)).
Hypothesis Hlog : logs_ok.

(** C13: while faults are [MacMonError]s and the override is accepted,
    at every instant of a run of the memory loop with interval [d > 0]
    (every prefix [t0] of its trace, after [T = elapsed t0] seconds) the
    sink has been called [floor(T / d)] times, or once more when the
    current tick has already called it: the count is [floor(T / i)]
    within one tick, as spec §8 states, even when the sink faults on
    every tick. *)
Theorem memory_loop_sink_rate n (s : proc * Σ) t0 :
  0 < d ->
  t0 `prefix_of` r_trace (exec (Polling.start_polling_memory_metrics n d) s) ->
  Z.of_nat (count_ev is_mem_sink t0) = Qfloor (elapsed t0 / d)
  \/ Z.of_nat (count_ev is_mem_sink t0) = (Qfloor (elapsed t0 / d) + 1)%Z.
Proof.
  intros Hd Hp.
  destruct (memory_loop_ticks d Henv Hvm Hsm Hsink Hsleep Hlog n s) as (s' & ticks & E & _ & Hall).
  rewrite E in Hp. destruct (prefix_concat _ _ Hp) as (j & p & -> & Hpart).
  assert (Htake : Forall (mem_tick_spec d) (take j ticks)) by (apply Forall_take; exact Hall).
  destruct (mem_ticks_counts d _ Htake) as (Hsk & _ & _).
  assert (Hp0 : count_ev is_sleep p = 0%nat /\ (count_ev is_mem_sink p <= 1)%nat).
  { destruct Hpart as [-> | (t & Ht & Hpt & Hlt)]; [unfold count_ev; simpl; lia|].
    exact (mem_tick_partial d t p (Forall_lookup_1 _ _ _ _ Hall Ht) Hpt Hlt). }
  destruct Hp0 as [Hsl Hsp].
  assert (Hel : elapsed (concat (take j ticks) ++ p) / d == inject_Z (Z.of_nat (length (take j ticks)))).
  { rewrite elapsed_app, (elapsed_ticks d _ Htake), (elapsed_no_sleep p Hsl). field. lra. }
  rewrite (Qfloor_comp _ _ Hel), Qfloor_Z, count_ev_app, Hsk. lia.
Qed.
End Cadence.

(** ** The sink rate, whatever the collaborators answer

    The monitor [rate_monitor sink d] accepts a trace in which every sleep
    lasts [d] seconds and no two calls of [sink] come without a sleep
    between them; its state is whether [sink] was called since the last
    sleep.  An accepted trace has slept [count is_sleep * d] seconds and
    called [sink] at most once more than it slept. *)

Definition sleeps_for (d : Q) (ev : event) : bool :=
  match ev with Ev (Ext (Sleep q)) _ => Qeq_bool q d | _ => true end.

Definition rate_monitor (sink : event -> bool) (d : Q) : monitor := {|
  mstate := bool;
  mon_ok := fun sunk ev => negb (sink ev && sunk) && sleeps_for d ev;
  mon_next := fun sunk ev => if is_sleep ev then false else sunk || sink ev;
|}.

Section Rate.
Context {Σ : Type} `{Oracle Σ}.
Variables (sink : event -> bool) (d : Q).
Hypothesis Hsink_sleep : forall ev, sink ev = true -> is_sleep ev = false.

Lemma rate_trace_sinks t : forall b b', @mon_trace (rate_monitor sink d) b t = Some b' ->
  (Nat.b2n b + count_ev sink t <= count_ev is_sleep t + 1)%nat.
Proof.
  induction t as [|ev t IH]; intros b b' Ht; [destruct b; unfold count_ev; simpl; lia|].
  simpl in Ht. destruct (negb (sink ev && b) && sleeps_for d ev) eqn:Hok; [|discriminate].
  apply IH in Ht. rewrite !count_ev_cons. apply andb_true_iff in Hok as [Hs _].
  pose proof (Hsink_sleep ev) as Hss.
  destruct (is_sleep ev), (sink ev), b; simpl in *; lia || (discriminate Hs) || (by specialize (Hss eq_refl)).
Qed.

Lemma rate_trace_elapsed t : forall b b', @mon_trace (rate_monitor sink d) b t = Some b' ->
  elapsed t == inject_Z (Z.of_nat (count_ev is_sleep t)) * d.
Proof.
  induction t as [|ev t IH]; intros b b' Ht.
  { unfold elapsed, Qsum, count_ev. simpl. change (inject_Z (Z.of_nat 0)) with 0. lra. }
  simpl in Ht. destruct (negb (sink ev && b) && sleeps_for d ev) eqn:Hok; [|discriminate].
  apply andb_true_iff in Hok as [_ Hd]. rewrite elapsed_cons, (IH _ _ Ht), count_ev_cons.
  destruct ev as [X [X' e| | | |] r]; try destruct e; simpl in Hd |- *; try (simpl; lra).
  apply Qeq_bool_eq in Hd. rewrite Nat2Z.inj_succ, <- Z.add_1_r, inject_Z_plus, Hd. change (inject_Z 1) with 1. ring.
Qed.

(** A loop whose body, started after a sleep, calls [sink] at most once
    and ends with a sleep of [d] seconds. *)
Lemma loop_rate n body (s : proc * Σ) :
  @wp (rate_monitor sink d) _ false body (fun _ m' => m' = false) (fun _ _ => True) ->
  let t := r_trace (exec (Polling.while_true n body) s) in
  elapsed t == inject_Z (Z.of_nat (count_ev is_sleep t)) * d
  /\ (count_ev sink t <= count_ev is_sleep t + 1)%nat.
Proof.
  intros Hb. destruct (wp_exec _ _ _ _ s (@wp_while_true_inv (rate_monitor sink d) (fun m => m = false)
                                         n body false (fun m Hm => ltac:(cbv beta in Hm; subst m; exact Hb)) eq_refl))
    as (m & Hm & _).
  split; [exact (rate_trace_elapsed _ _ _ Hm) | exact (rate_trace_sinks _ _ _ Hm)].
Qed.
End Rate.

Lemma sinks_not_sleep :
  (forall ev, is_mem_sink ev = true -> is_sleep ev = false)
  /\ (forall ev, is_node_sink ev = true -> is_sleep ev = false).
Proof. split; intros [X [X' e| | | |] r]; try destruct e; simpl; congruence. Qed.

(** [c] calls in [k] sleeps of [d] seconds, at most one more call than sleeps. *)
Lemma rate_bound c k d e :
  0 <= d -> e == inject_Z (Z.of_nat k) * d -> (c <= k + 1)%nat -> inject_Z (Z.of_nat c) * d <= e + d.
Proof.
  intros Hd -> Hc. apply Qle_trans with ((inject_Z (Z.of_nat k) + 1) * d).
  - apply Qmult_le_compat_r; [|exact Hd]. change 1 with (inject_Z 1).
    rewrite <- inject_Z_plus, <- Zle_Qle. lia.
  - rewrite Qmult_plus_distr_l, Qmult_1_l. apply Qle_refl.
Qed.

Ltac wp_rate := wp_sym_by ltac:(idtac; simpl; rewrite ?Qeq_bool_refl; reflexivity); done.

Lemma wp_memory_loop_rate d :
  @wp (rate_monitor is_mem_sink d) _ false (Polling.memory_loop_body d) (fun _ m => m = false) (fun _ _ => True).
Proof.
  unfold Polling.memory_loop_body, Polling.memory_try_block, Profile.get_memory_profile,
    Profile.from_psutil.
  wp_rate.
Qed.

Lemma wp_node_loop_rate :
  @wp (rate_monitor is_node_sink 1) _ false (Polling.node_loop_body 1) (fun _ m => m = false) (fun _ _ => True).
Proof.
  unfold Polling.node_loop_body, Polling.node_try_block, Polling.node_handler,
    Profile.get_metrics_async, Profile._collect_generic_metrics, Profile.get_memory_profile,
    Profile.from_psutil.
  wp_rate.
Qed.

Section SinkRate.
Context {Σ : Type} `{Oracle Σ}.

(** C14: in every run of either loop, whatever the collaborators answer
    (a sink or sampler faulting on every tick, absent samples, a sleep
    that raises), the sink is never called faster than the interval
    allows: after [T] seconds of sleeping, the memory loop with interval
    [d > 0] has called its sink at most [T / d + 1] times, and the node
    loop, whose interval is fixed at one second, at most [T + 1] times;
    the one extra call is the tick in progress. *)
Theorem loops_sink_rate n1 n2 d (s : proc * Σ) :
  0 < d ->
  (let t := r_trace (exec (Polling.start_polling_memory_metrics n1 d) s) in
   inject_Z (Z.of_nat (count_ev is_mem_sink t)) * d <= elapsed t + d)
  /\ (let t := r_trace (exec (Polling.start_polling_node_metrics n2) s) in
      inject_Z (Z.of_nat (count_ev is_node_sink t)) <= elapsed t + 1).
Proof.
  intros Hd. unfold Polling.start_polling_memory_metrics, Polling.start_polling_node_metrics.
  destruct sinks_not_sleep as [Hm Hn]. cbv zeta. split.
  - destruct (loop_rate is_mem_sink d Hm n1 _ s (wp_memory_loop_rate d))
      as [He Hc].
    exact (rate_bound _ _ _ _ (Qlt_le_weak _ _ Hd) He Hc).
  - destruct (loop_rate is_node_sink 1 Hn n2 _ s wp_node_loop_rate)
      as [He Hc].
    pose proof (rate_bound _ _ 1 _ ltac:(lra) He Hc) as Hr. rewrite Qmult_1_r in Hr. exact Hr.
Qed.
End SinkRate.

(** ** Witness *)

(** Linux, interval 0.5 s, a sink that faults on every other tick: the
    instant just after the third tick's sink call. *)
Lemma memory_loop_sink_rate_witness :
  let t := r_trace (@exec nat (host_oracle (linux_host_with None)) _
                     (Polling.start_polling_memory_metrics 3 (1#2)) init_state) in
  0 < 1#2 /\ take 14 t `prefix_of` t
  /\ (Z.of_nat (count_ev is_mem_sink (take 14 t)) = Qfloor (elapsed (take 14 t) / (1#2))
      \/ Z.of_nat (count_ev is_mem_sink (take 14 t)) = (Qfloor (elapsed (take 14 t) / (1#2)) + 1)%Z).
Proof.
  cbv zeta. split; [reflexivity|]. split; [apply prefix_take|].
  refine (@memory_loop_sink_rate nat (host_oracle (linux_host_with None)) (1#2) _ _ _ _ _ _ 3 init_state _ _ _).
  - intros σ. exists None. split; reflexivity.
  - intros σ. eexists. reflexivity.
  - intros σ. eexists. reflexivity.
  - intros m σ. simpl. destruct (Nat.odd σ); [right | left]; reflexivity.
  - intros σ. reflexivity.
  - intros lvl msg x σ. reflexivity.
  - reflexivity.
  - apply prefix_take.
Defined.

(** Linux, both loops for three ticks, the memory loop at 0.5 s. *)
Lemma loops_sink_rate_witness :
  0 < 1#2
  /\ (let t := r_trace (@exec nat (host_oracle linux_host) _
                          (Polling.start_polling_memory_metrics 3 (1#2)) init_state) in
      inject_Z (Z.of_nat (count_ev is_mem_sink t)) * (1#2) <= elapsed t + (1#2))
  /\ (let t := r_trace (@exec nat (host_oracle linux_host) _
                          (Polling.start_polling_node_metrics 3) init_state) in
      inject_Z (Z.of_nat (count_ev is_node_sink t)) <= elapsed t + 1).
Proof.
  split; [reflexivity|].
  apply (@loops_sink_rate nat (host_oracle linux_host) 3 3 (1#2) init_state). reflexivity.
Defined.
