(* ===== verification/Scenario.v ===== *)
(** * The end-to-end scenario of spec §8

    A node-loop tick on a host without [macmon]: the metrics source adapter
    samples with [psutil] (the sensors being absent), the node loop adds the
    identity lookups and the memory profile, and hands one
    [NodePerformanceProfile] to its sink.  [generic_tick_profile] states the
    whole tick: its calls in order and the profile, whose system part has
    every power field and the temperature at [0.0] and, as P-CPU usage, the
    utilisation percentage of [cpu_percent()] (the code keeps
    [pcpu_usage[1]], dropping the count). *)

From Stdlib Require Import QArith ZArith String List.
From stdpp Require Import base list.
From S2P Require Import Prelude PyBuiltins Types Effects Hosts Profile Polling.

Local Open Scope Q_scope.
Local Open Scope py_scope.

(** The system part of the profile a generic tick emits. *)
Definition generic_system (c : Q) : SystemPerformanceProfile.SystemPerformanceProfile :=
  {| SystemPerformanceProfile.gpu_usage := 0;
     SystemPerformanceProfile.temp := 0;
     SystemPerformanceProfile.sys_power := 0;
     SystemPerformanceProfile.pcpu_usage := c;
     SystemPerformanceProfile.ecpu_usage := 0;
     SystemPerformanceProfile.ane_power := 0 |}.

(** The memory profile [from_psutil] builds without an override. *)
Definition detected_memory (vm : Psutil.svmem) (sm : Psutil.sswap)
    : MemoryPerformanceProfile.MemoryPerformanceProfile :=
  {| MemoryPerformanceProfile.ram_total := Memory.from_bytes (Psutil.vm_total vm);
     MemoryPerformanceProfile.ram_available := Memory.from_bytes (Psutil.vm_available vm);
     MemoryPerformanceProfile.swap_total := Memory.from_bytes (Psutil.sw_total sm);
     MemoryPerformanceProfile.swap_available := Memory.from_bytes (Psutil.sw_free sm) |}.

Section Scenario.
Context {Σ : Type} `{Oracle Σ}.

Variables (sys : string) (c : Q) (k : option Z) (e : exn).
Hypothesis Hplat : answers PlatformSystem (eq (Ok sys)).
Hypothesis Hnd : String.eqb (py_lower sys) "darwin" = false.
Hypothesis Hcpu : answers CpuPercent (eq (Ok c)).
Hypothesis Hcnt : answers CpuCount (eq (Ok k)).
Hypothesis Hsens : answers SensorsTemperatures (eq (Err e)).
Hypothesis He : isinstance e CNotImplementedError = true \/ isinstance e CPsutilError = true.

(** The adapter on a host without [macmon] whose sensor API raises
    [NotImplementedError] or [psutil.Error]. *)
Lemma get_metrics_async_no_sensors (p : proc) (σ : Σ) :
  exists σ', exec Profile.get_metrics_async (p, σ) =
    mk_run (p, σ') [Ev (Ext PlatformSystem) (Ok sys); Ev (Ext CpuPercent) (Ok c);
                    Ev (Ext CpuCount) (Ok k); Ev (Ext SensorsTemperatures) (Err e)]
           (Ok (Some (generic_metrics c k 0))).
Proof.
  unfold Profile.get_metrics_async. step_ext. rewrite Hnd. cbn iota.
  rewrite exec_bind. unfold Profile._collect_generic_metrics.
  rewrite exec_ext_call_bind. answer_auto. cbn [bind].
  rewrite exec_ext_call_bind. answer_auto. cbn [bind].
  rewrite exec_bind, exec_try_except, exec_ext_call_bind. answer_auto.
  cbn [r_res r_state r_trace].
  assert (Hh : existsb (isinstance e) [CNotImplementedError; CPsutilError] = true)
    by (cbn [existsb]; destruct He as [-> | ->]; [done | by rewrite orb_true_r]).
  unfold except_clause, no_handler. rewrite Hh. simpl. eauto.
Qed.
Variables (vm : Psutil.svmem) (sm : Psutil.sswap)
          (ifs : list NetworkInterfaceInfo.NetworkInterfaceInfo) (mid cid fname : string).
Hypothesis Henv : answers (GetEnv Profile.OVERRIDE_MEMORY_MB) (eq (Ok None)).
Hypothesis Hvm : answers VirtualMemory (eq (Ok vm)).
Hypothesis Hsm : answers SwapMemory (eq (Ok sm)).
Hypothesis Hnet : answers GetNetworkInterfaces (eq (Ok ifs)).
Hypothesis Hmc : answers GetModelAndChip (eq (Ok (mid, cid))).
Hypothesis Hfn : answers GetFriendlyName (eq (Ok fname)).
Hypothesis Hsink : forall np, answers (NodeSink np) (eq (Ok tt)).
Hypothesis Hsleep : answers (Sleep 1) (eq (Ok tt)).

(** C15: on a host without [macmon] whose sensor API raises
    [NotImplementedError] or [psutil.Error], with [OVERRIDE_MEMORY_MB]
    unset, one node-loop tick samples with [psutil], makes the lookups,
    reads memory last, and emits a profile whose system part has every
    power field and the temperature at [0.0] and the CPU percentage as P-CPU
    usage, with the detected memory; then it sleeps and continues. *)
Theorem generic_tick_profile (p : proc) (σ : Σ) :
  exists s', exec (Polling.node_loop_body 1) (p, σ) =
    mk_run s'
      [Ev (Ext PlatformSystem) (Ok sys); Ev (Ext CpuPercent) (Ok c);
       Ev (Ext CpuCount) (Ok k); Ev (Ext SensorsTemperatures) (Err e);
       Ev (Ext GetNetworkInterfaces) (Ok ifs); Ev (Ext GetModelAndChip) (Ok (mid, cid));
       Ev (Ext GetFriendlyName) (Ok fname);
       Ev (Ext (GetEnv Profile.OVERRIDE_MEMORY_MB)) (Ok None);
       Ev (Ext VirtualMemory) (Ok vm); Ev (Ext SwapMemory) (Ok sm);
       Ev (Ext (NodeSink (NodePerformanceProfile.mk mid cid fname ifs (detected_memory vm sm)
                            (generic_system c)))) (Ok tt);
       Ev (Ext (Sleep 1)) (Ok tt)]
      (Ok Polling.Continue).
Proof.
  assert (E : exists s1, exec Polling.node_try_block (p, σ) =
    mk_run s1
      [Ev (Ext PlatformSystem) (Ok sys); Ev (Ext CpuPercent) (Ok c);
       Ev (Ext CpuCount) (Ok k); Ev (Ext SensorsTemperatures) (Err e);
       Ev (Ext GetNetworkInterfaces) (Ok ifs); Ev (Ext GetModelAndChip) (Ok (mid, cid));
       Ev (Ext GetFriendlyName) (Ok fname);
       Ev (Ext (GetEnv Profile.OVERRIDE_MEMORY_MB)) (Ok None);
       Ev (Ext VirtualMemory) (Ok vm); Ev (Ext SwapMemory) (Ok sm);
       Ev (Ext (NodeSink (NodePerformanceProfile.mk mid cid fname ifs (detected_memory vm sm)
                            (generic_system c)))) (Ok tt)]
      (Ok Polling.Continue)).
  { unfold Polling.node_try_block. rewrite exec_bind.
    destruct (get_metrics_async_no_sensors p σ) as [σ1 ->].
    unfold then_run. cbn [r_res r_state r_trace]. cbv beta iota.
    do 3 step_ext. rewrite exec_bind. unfold Profile.get_memory_profile.
    step_ext. unfold Profile.from_psutil. cbn [bind]. do 2 step_ext.
    unfold then_run. cbn [exec r_res r_state r_trace]. rewrite exec_ext_call_bind.
    match goal with |- context [oracle (NodeSink ?np) _] => answer (Hsink np) end.
    subst. simpl. eauto. }
  destruct E as [s1 E]. destruct (exec_tick_ok _ Polling.node_handler _ _ _ _ _ Hsleep E) as [s2 E2].
  unfold Polling.node_loop_body. rewrite E2. eauto.
Qed.
End Scenario.

(** ** Witness *)

Lemma generic_tick_profile_witness :
  exists s', @exec nat (host_oracle sensorless_host) _ (Polling.node_loop_body 1) init_state =
    mk_run s'
      [Ev (Ext PlatformSystem) (Ok "Linux"%string); Ev (Ext CpuPercent) (Ok 25);
       Ev (Ext CpuCount) (Ok (Some 8%Z)); Ev (Ext SensorsTemperatures) (Err NotImplementedError);
       Ev (Ext GetNetworkInterfaces) (Ok [NetworkInterfaceInfo.mk "eth0" "10.0.0.2"]);
       Ev (Ext GetModelAndChip) (Ok ("Linux PC", "x86_64")%string);
       Ev (Ext GetFriendlyName) (Ok "node-1"%string);
       Ev (Ext (GetEnv Profile.OVERRIDE_MEMORY_MB)) (Ok None);
       Ev (Ext VirtualMemory) (Ok (Psutil.mk_svmem 17179869184 8589934592));
       Ev (Ext SwapMemory) (Ok (Psutil.mk_sswap 0 0));
       Ev (Ext (NodeSink (NodePerformanceProfile.mk "Linux PC" "x86_64" "node-1"
                            [NetworkInterfaceInfo.mk "eth0" "10.0.0.2"]
                            (detected_memory (Psutil.mk_svmem 17179869184 8589934592)
                               (Psutil.mk_sswap 0 0))
                            (generic_system 25)))) (Ok tt);
       Ev (Ext (Sleep 1)) (Ok tt)]
      (Ok Polling.Continue).
Proof.
  apply (@generic_tick_profile nat (host_oracle sensorless_host) "Linux" 25 (Some 8%Z)
           NotImplementedError); try (intros σ; reflexivity); try reflexivity.
  - left. reflexivity.
  - intros np σ. reflexivity.
Defined.
